(** * api-demo: interceptors, CRUD hooks and the query-string helper

    A shallow embedding of the TypeScript sources of the repository:

    - [buildQueryString]                         utils/helper-function
    - the two variants of the axios instance     config/instance/instance.ts
      with their request and response interceptors
    - the teaching axios instance                config/axios-demo
    - [usePutData], both files                   hooks/api/use-put.ts,
                                                 hooks/use-put-data.ts
    - [useFetchData]                             hooks/api/use-fetch.ts
    - the optimistic [usePut] and [useDelete]    hooks/demo

    JavaScript values are a small inductive universe.  Promise-returning
    code is a state-and-exception monad over one state that holds the
    browser's storage and location, the query cache and the list of
    requests sent.  What the sources call and do not define (the transport,
    the confirmation dialog, the session library, the run of a mutation in
    the caching library) is a parameter or is modelled from its documented
    behaviour.  Console logging has no observable effect and is left out. *)

From Stdlib Require Import ZArith String Ascii List DecimalString.
From stdpp Require Import base option gmap strings list.

Open Scope string_scope.
Open Scope list_scope.

(** ** JavaScript values *)

(** Numbers are the integer-valued ones in the safe range, printed in plain
    decimal notation by [String(n)]; status codes and ids are of that kind.
    An object is its list of own enumerable properties in [Object.keys]
    order, and a property is read at its first binding.  [JFormData] is a
    multipart body: an object without own enumerable properties. *)
#[warnings="-register-all"]
Inductive JsVal : Type :=
| JUndefined
| JNull
| JBool (b : bool)
| JNum (n : Z)
| JStr (s : string)
| JArr (elems : list JsVal)
| JObj (fields : list (string * JsVal))
| JFormData (parts : list (string * string)).

Module Js.

(** [!!v] *)
Definition truthy (v : JsVal) : bool :=
  match v with
  | JUndefined | JNull => false
  | JBool b => b
  | JNum n => negb (n =? 0)%Z
  | JStr s => negb (String.eqb s "")
  | JArr _ | JObj _ | JFormData _ => true
  end.

(** [v === null || v === undefined] *)
Definition nullish (v : JsVal) : bool :=
  match v with
  | JUndefined | JNull => true
  | _ => false
  end.

(** [typeof v === 'object'] (which [null] satisfies). *)
Definition typeof_object (v : JsVal) : bool :=
  match v with
  | JNull | JArr _ | JObj _ | JFormData _ => true
  | _ => false
  end.

(** [v instanceof FormData] *)
Definition is_form_data (v : JsVal) : bool :=
  match v with JFormData _ => true | _ => false end.

Definition is_null (v : JsVal) : bool :=
  match v with JNull => true | _ => false end.

Definition is_undefined (v : JsVal) : bool :=
  match v with JUndefined => true | _ => false end.

(** [v === n] for a number literal [n] *)
Definition eq_num (v : JsVal) (n : Z) : bool :=
  match v with JNum m => (m =? n)%Z | _ => false end.

(** [v === false] *)
Definition eq_false (v : JsVal) : bool :=
  match v with JBool b => negb b | _ => false end.

Definition string_of_nat (n : nat) : string :=
  NilZero.string_of_uint (Nat.to_uint n).

Definition string_of_Z (n : Z) : string :=
  NilZero.string_of_int (Z.to_int n).

(** [String(v)], which is also what a template literal and
    [new Error(v)] apply to [v]. *)
Fixpoint to_string (v : JsVal) : string :=
  match v with
  | JUndefined => "undefined"
  | JNull => "null"
  | JBool true => "true"
  | JBool false => "false"
  | JNum n => string_of_Z n
  | JStr s => s
  | JArr l =>
      String.concat ","
        (List.map (fun x => if nullish x then "" else to_string x) l)
  | JObj _ => "[object Object]"
  | JFormData _ => "[object FormData]"
  end.

Fixpoint assoc (k : string) (fs : list (string * JsVal)) : option JsVal :=
  match fs with
  | [] => None
  | (k', v) :: rest => if String.eqb k k' then Some v else assoc k rest
  end.

Fixpoint index_from (i : nat) (l : list JsVal) : list (string * JsVal) :=
  match l with
  | [] => []
  | x :: rest => (string_of_nat i, x) :: index_from (S i) rest
  end.

(** Own enumerable properties: the fields of an object, the indices of an
    array; primitives have none that the sources read. *)
Definition own_entries (v : JsVal) : list (string * JsVal) :=
  match v with
  | JObj fs => fs
  | JArr l => index_from 0 l
  | _ => []
  end.

(** [Object.keys(v)] *)
Definition keys (v : JsVal) : list string :=
  List.map fst (own_entries v).

(** [v[k]] and [v?.k] on a value: [undefined] when the property is
    missing.  (The sources never read [length].) *)
Definition get (v : JsVal) (k : string) : JsVal :=
  match assoc k (own_entries v) with
  | Some x => x
  | None => JUndefined
  end.

(** [v.k] without optional chaining: a [TypeError] (here [None]) on
    [null] and [undefined]. *)
Definition get_strict (v : JsVal) (k : string) : option JsVal :=
  if nullish v then None else Some (get v k).

(** [k in v] for an object or array [v]. *)
Definition has (k : string) (v : JsVal) : bool :=
  match assoc k (own_entries v) with
  | Some _ => true
  | None => false
  end.

(** [delete v[k]] on a copy. *)
Definition remove (k : string) (fs : list (string * JsVal))
  : list (string * JsVal) :=
  List.filter (fun kv => negb (String.eqb k (fst kv))) fs.

End Js.

(** ** URI encoding and the query-string helper *)

Definition unreserved_marks : list ascii :=
  list_ascii_of_string "-_.!~*'()".

(** Characters that [encodeURIComponent] leaves alone. *)
Definition unreserved (c : ascii) : bool :=
  let n := nat_of_ascii c in
  ((65 <=? n)%nat && (n <=? 90)%nat)
  || ((97 <=? n)%nat && (n <=? 122)%nat)
  || ((48 <=? n)%nat && (n <=? 57)%nat)
  || existsb (Ascii.eqb c) unreserved_marks.

Definition hex_digit (n : nat) : ascii :=
  nth n (list_ascii_of_string "0123456789ABCDEF") "0"%char.

Definition percent_encode (c : ascii) : string :=
  let n := nat_of_ascii c in
  String "%" (String (hex_digit (n / 16)) (String (hex_digit (n mod 16)) "")).

(** [encodeURIComponent] on a string held as its UTF-8 bytes: every byte
    outside the unreserved set becomes [%XX]. *)
Fixpoint encodeURIComponent (s : string) : string :=
  match s with
  | EmptyString => ""
  | String c rest =>
      (if unreserved c then String c "" else percent_encode c)
        +:+ encodeURIComponent rest
  end.

(** [(param) => param] as a filter on strings *)
Definition nonempty (s : string) : bool := negb (String.eqb s "").

(** [encodeURIComponent(key) + '=' + encodeURIComponent(val)] *)
Definition encode_pair (key : string) (val : JsVal) : string :=
  encodeURIComponent key +:+ "=" +:+ encodeURIComponent (Js.to_string val).

(** The callback of the outer [.map] in [buildQueryString]. *)
Definition encode_entry (params : JsVal) (key : string) : string :=
  let value := Js.get params key in
  match value with
  | JNull | JUndefined => ""
  | JArr vals => String.concat "&" (List.map (encode_pair key) vals)
  | _ => encode_pair key value
  end.

Definition buildQueryString (params : JsVal) : string :=
  if negb (Js.truthy params)
     || negb (Js.typeof_object params)
     || (List.length (Js.keys params) =? 0)%nat
  then ""
  else
    let queryString :=
      String.concat "&"
        (List.filter nonempty (List.map (encode_entry params) (Js.keys params)))
    in
    if nonempty queryString then "?" +:+ queryString else "".

(** Specification side: the [key=value] pairs an entry stands for, and the
    query string that a list of pairs is rendered to. *)
Definition pairs_of_entry (params : JsVal) (key : string) : list string :=
  match Js.get params key with
  | JNull | JUndefined => []
  | JArr vals => List.map (encode_pair key) vals
  | v => [encode_pair key v]
  end.

Definition render_pairs (pairs : list string) : string :=
  match pairs with
  | [] => ""
  | _ => "?" +:+ String.concat "&" pairs
  end.


(** ** Requests, responses and errors *)

Record AxiosRequestConfig : Type := mkConfig {
  cfg_method : string;
  cfg_url : string;
  cfg_data : JsVal;
  cfg_headers : list (string * string)
}.

(** What an interceptor reads of an [AxiosResponse]: the HTTP status and
    the body. *)
Record AxiosResponse : Type := mkResponse {
  res_status : Z;
  res_data : JsVal
}.

(** An [Error]; an [AxiosError] is one with a message and, when the server
    answered, its [response].  [err_statusCode] is the own property that
    [Object.assign(error, { statusCode })] adds. *)
Record JsError : Type := mkError {
  err_message : string;
  err_statusCode : option Z;
  err_response : option AxiosResponse
}.

(** [new Error(msg)] *)
Definition Error (msg : string) : JsError :=
  {| err_message := msg; err_statusCode := None; err_response := None |}.

(** [Object.assign(e, { statusCode: n })] *)
Definition assign_statusCode (e : JsError) (n : Z) : JsError :=
  {| err_message := err_message e;
     err_statusCode := Some n;
     err_response := err_response e |}.

(** The [TypeError] of a property read on [null] or [undefined]. *)
Definition TypeError : JsError := Error "TypeError".

(** [error.response?.status === n] *)
Definition status_is (error : JsError) (n : Z) : bool :=
  match err_response error with
  | Some response => (res_status response =? n)%Z
  | None => false
  end.

(** [headers[name] = value] *)
Fixpoint set_header (name value : string) (hs : list (string * string))
  : list (string * string) :=
  match hs with
  | [] => [(name, value)]
  | (n, v) :: rest =>
      if String.eqb n name then (n, value) :: rest
      else (n, v) :: set_header name value rest
  end.

Definition with_header (name value : string) (config : AxiosRequestConfig)
  : AxiosRequestConfig :=
  {| cfg_method := cfg_method config;
     cfg_url := cfg_url config;
     cfg_data := cfg_data config;
     cfg_headers := set_header name value (cfg_headers config) |}.

(** The instance defaults of [axios.create] under the headers of one call. *)
Definition merge_defaults (defaults : list (string * string))
    (config : AxiosRequestConfig) : AxiosRequestConfig :=
  {| cfg_method := cfg_method config;
     cfg_url := cfg_url config;
     cfg_data := cfg_data config;
     cfg_headers :=
       fold_left (fun hs h => set_header (fst h) (snd h) hs)
                 (cfg_headers config) defaults |}.

(** ** The browser, the query cache and the network as one state *)

Inductive Toast : Type :=
| ToastSuccess (msg : JsVal)
| ToastError (msg : JsVal).

(** Calls into the caching library that do not change cached data. *)
Inductive EngineCall : Type :=
| CancelQueries (queryKey : JsVal)
| InvalidateQueries (queryKey : JsVal)
| RefetchQueries (queryKey : JsVal) (exact : bool).

Record World : Type := mkWorld {
  localStorage : gmap string string;
  location_href : string;
  (** the query cache, a map from the hash of a query key to its data *)
  queryCache : gmap string JsVal;
  engine_calls : list EngineCall;
  (** the requests handed to the network, oldest first *)
  requests : list AxiosRequestConfig;
  toasts : list Toast
}.

Definition set_localStorage (s : gmap string string) (w : World) : World :=
  {| localStorage := s; location_href := location_href w;
     queryCache := queryCache w; engine_calls := engine_calls w;
     requests := requests w; toasts := toasts w |}.

Definition set_location_href (h : string) (w : World) : World :=
  {| localStorage := localStorage w; location_href := h;
     queryCache := queryCache w; engine_calls := engine_calls w;
     requests := requests w; toasts := toasts w |}.

Definition set_queryCache (c : gmap string JsVal) (w : World) : World :=
  {| localStorage := localStorage w; location_href := location_href w;
     queryCache := c; engine_calls := engine_calls w;
     requests := requests w; toasts := toasts w |}.

Definition add_engine_call (c : EngineCall) (w : World) : World :=
  {| localStorage := localStorage w; location_href := location_href w;
     queryCache := queryCache w; engine_calls := engine_calls w ++ [c];
     requests := requests w; toasts := toasts w |}.

Definition add_request (r : AxiosRequestConfig) (w : World) : World :=
  {| localStorage := localStorage w; location_href := location_href w;
     queryCache := queryCache w; engine_calls := engine_calls w;
     requests := requests w ++ [r]; toasts := toasts w |}.

Definition add_toast (t : Toast) (w : World) : World :=
  {| localStorage := localStorage w; location_href := location_href w;
     queryCache := queryCache w; engine_calls := engine_calls w;
     requests := requests w; toasts := toasts w ++ [t] |}.

(** ** Promise-returning code: state and exceptions *)

Inductive Completion (A : Type) : Type :=
| Return (a : A)
| Throw (e : JsError).

Arguments Return {A} a.
Arguments Throw {A} e.

Definition M (A : Type) : Type := World -> Completion A * World.

Definition ret {A : Type} (a : A) : M A := fun w => (Return a, w).

Definition throw {A : Type} (e : JsError) : M A := fun w => (Throw e, w).

Definition bind {A B : Type} (m : M A) (k : A -> M B) : M B :=
  fun w =>
    match m w with
    | (Return a, w') => k a w'
    | (Throw e, w') => (Throw e, w')
    end.

Notation "'let*' x ':=' m 'in' k" := (bind m (fun x => k))
  (at level 10, x name, m at level 100, k at level 200).

Definition lift {A : Type} (c : Completion A) : M A := fun w => (c, w).

Definition modify (f : World -> World) : M unit := fun w => (Return tt, f w).

Definition reads {A : Type} (f : World -> A) : M A := fun w => (Return (f w), w).

(** [if (c) { m }] *)
Definition when (c : bool) (m : M unit) : M unit := if c then m else ret tt.

(** Unfolds the monad in the goal and the hypotheses. *)
Ltac unfold_M :=
  unfold bind, ret, throw, modify, reads, lift, when in *.

(** The outcome of one request at the transport: a response for the
    success handlers, or an error for the error handlers. *)
Inductive Settled : Type :=
| Fulfilled (res : AxiosResponse)
| Rejected (err : JsError).

(** What the code calls and does not define: the HTTP transport, the
    dialog of [window.confirm], the session library, the clock and the
    caching library's key hash. *)
Record Env : Type := mkEnv {
  transport : World -> AxiosRequestConfig -> Settled;
  confirm : string -> bool;
  has_window : bool;
  getClientToken : M JsVal;
  signOut : M unit;
  now_iso : string;
  hashKey : JsVal -> string
}.

(** ** config/instance/instance.ts, first variant *)

Module ViteInstance.

Definition token : string := "".

Definition defaults : list (string * string) :=
  [("Content-Type", "application/json;charset=utf-8")].

(** [axiosInstance.interceptors.request.use], fulfilled handler *)
Definition request_interceptor (config : AxiosRequestConfig)
  : AxiosRequestConfig :=
  let config := with_header "Authorization" ("Bearer " +:+ token) config in
  if Js.is_form_data (cfg_data config)
  then with_header "Content-Type" "multipart/form-data" config
  else if Js.truthy (cfg_data config)
  then with_header "Content-Type" "application/json;charset=utf-8" config
  else config.

(** [axiosInstance.interceptors.response.use], fulfilled handler: a
    status other than 200 and 201 falls off the end of the function. *)
Definition response_fulfilled (res : AxiosResponse) : Completion JsVal :=
  if negb (Js.truthy (res_data res)) then Throw (Error "Error in response")
  else
    let statusCode := res_status res in
    let hasSuccess := (statusCode =? 200)%Z || (statusCode =? 201)%Z in
    if hasSuccess then Return (res_data res) else Return JUndefined.

(** [axiosInstance.interceptors.response.use], rejected handler; the
    redirect to [/login] is commented out in the source. *)
Definition response_rejected (error : JsError) : M JsVal :=
  let* _ := when (status_is error 401) (modify (set_localStorage ∅)) in
  throw error.

(** [axiosInstance.request(config)] *)
Definition axios_request (env : Env) (config : AxiosRequestConfig)
  : M JsVal :=
  let config := request_interceptor (merge_defaults defaults config) in
  fun w =>
    match transport env w config with
    | Fulfilled res => (response_fulfilled res, add_request config w)
    | Rejected err => response_rejected err (add_request config w)
    end.

(** [class Instance]: every method sets the method name and resolves
    with what the interceptors let through. *)
Definition request (env : Env) (config : AxiosRequestConfig) : M JsVal :=
  axios_request env config.

Definition with_method (m : string) (config : AxiosRequestConfig)
  : AxiosRequestConfig :=
  {| cfg_method := m; cfg_url := cfg_url config;
     cfg_data := cfg_data config; cfg_headers := cfg_headers config |}.

Definition get (env : Env) (config : AxiosRequestConfig) : M JsVal :=
  request env (with_method "GET" config).

Definition put (env : Env) (config : AxiosRequestConfig) : M JsVal :=
  request env (with_method "PUT" config).

Definition delete (env : Env) (config : AxiosRequestConfig) : M JsVal :=
  request env (with_method "DELETE" config).

Definition post (env : Env) (config : AxiosRequestConfig) : M JsVal :=
  request env (with_method "POST" config).

Definition patch (env : Env) (config : AxiosRequestConfig) : M JsVal :=
  request env (with_method "PATCH" config).

End ViteInstance.

(** ** config/instance/instance.ts, second variant *)

Module NextInstance.

Definition defaults : list (string * string) :=
  [("Content-Type", "application/json");
   ("ngrok-skip-browser-warning", "true")].

Definition request_interceptor (env : Env) (config : AxiosRequestConfig)
  : M AxiosRequestConfig :=
  let* config :=
    (if has_window env then
       let* accessToken := getClientToken env in
       if Js.truthy accessToken
       then ret (with_header "Authorization"
                   ("Bearer " +:+ Js.to_string accessToken) config)
       else ret config
     else ret config) in
  if Js.is_form_data (cfg_data config)
  then ret (with_header "Content-Type" "multipart/form-data" config)
  else if Js.truthy (cfg_data config)
  then ret (with_header "Content-Type" "application/json;charset=utf-8" config)
  else ret config.

(** [(statusCode === 200 || statusCode === 201) && error === false] on
    the body of the response *)
Definition hasSuccess (body : JsVal) : bool :=
  (Js.eq_num (Js.get body "statusCode") 200
   || Js.eq_num (Js.get body "statusCode") 201)
  && Js.eq_false (Js.get body "error").

(** [res.data.message || "Unknown API error"] as the error's message *)
Definition failure_message (body : JsVal) : string :=
  if Js.truthy (Js.get body "message")
  then Js.to_string (Js.get body "message")
  else "Unknown API error".

Definition response_fulfilled (res : AxiosResponse)
  : Completion AxiosResponse :=
  if negb (Js.truthy (res_data res)) then Throw (Error "Error in response")
  else if hasSuccess (res_data res) then Return res
  else Throw (Error (failure_message (res_data res))).

Definition response_rejected (env : Env) (error : JsError)
  : M AxiosResponse :=
  let* _ :=
    when (status_is error 401)
      (when (has_window env)
         (let* _ := signOut env in
          let* _ := modify (set_localStorage ∅) in
          modify (set_location_href "/login"))) in
  throw error.

(** [axiosInstance.request(config)]: an error of the request interceptor
    skips the transport and reaches the rejected handler of the response
    interceptor, as every rejection in the chain does. *)
Definition axios_request (env : Env) (config : AxiosRequestConfig)
  : M AxiosResponse :=
  fun w =>
    match request_interceptor env (merge_defaults defaults config) w with
    | (Throw e, w1) => response_rejected env e w1
    | (Return config, w1) =>
        match transport env w1 config with
        | Fulfilled res => (response_fulfilled res, add_request config w1)
        | Rejected err => response_rejected env err (add_request config w1)
        end
    end.

(** [private request]: [.then((res) => res.data)] *)
Definition request (env : Env) (config : AxiosRequestConfig) : M JsVal :=
  let* res := axios_request env config in
  ret (res_data res).

Definition get (env : Env) (url : string) : M JsVal :=
  request env
    {| cfg_method := "GET"; cfg_url := url; cfg_data := JUndefined;
       cfg_headers := [] |}.

Definition put (env : Env) (url : string) (data : JsVal)
    (headers : list (string * string)) : M JsVal :=
  request env
    {| cfg_method := "PUT"; cfg_url := url; cfg_data := data;
       cfg_headers := headers |}.

Definition post (env : Env) (url : string) (data : JsVal)
    (headers : list (string * string)) : M JsVal :=
  request env
    {| cfg_method := "POST"; cfg_url := url; cfg_data := data;
       cfg_headers := headers |}.

(** [instance.patch(url, variables)], as the patch hook calls it: no
    third argument. *)
Definition patch (env : Env) (url : string) (data : JsVal) : M JsVal :=
  request env
    {| cfg_method := "PATCH"; cfg_url := url; cfg_data := data;
       cfg_headers := [] |}.

End NextInstance.

(** ** config/axios-demo: the teaching instance *)

Module AxiosDemo.

Definition defaults : list (string * string) :=
  [("Content-Type", "application/json")].

Definition request_interceptor (env : Env) (config : AxiosRequestConfig)
  : M AxiosRequestConfig :=
  let config := with_header "X-Custom-Header" "Demo-App" config in
  let config := with_header "X-Request-Time" (now_iso env) config in
  let* token := reads (fun w => localStorage w !! "demo_token") in
  match token with
  | Some t =>
      if nonempty t
      then ret (with_header "Authorization" ("Bearer " +:+ t) config)
      else ret config
  | None => ret config
  end.

(** The response interceptor logs and passes both outcomes on. *)
Definition response_fulfilled (response : AxiosResponse)
  : Completion AxiosResponse := Return response.

Definition response_rejected (error : JsError) : M AxiosResponse :=
  throw error.

Definition axios_request (env : Env) (config : AxiosRequestConfig)
  : M AxiosResponse :=
  let* config := request_interceptor env (merge_defaults defaults config) in
  fun w =>
    match transport env w config with
    | Fulfilled res => (response_fulfilled res, add_request config w)
    | Rejected err => response_rejected err (add_request config w)
    end.

Definition put (env : Env) (url : string) (data : JsVal) : M AxiosResponse :=
  axios_request env
    {| cfg_method := "PUT"; cfg_url := url; cfg_data := data;
       cfg_headers := [] |}.

Definition patch (env : Env) (url : string) (data : JsVal)
  : M AxiosResponse :=
  axios_request env
    {| cfg_method := "PATCH"; cfg_url := url; cfg_data := data;
       cfg_headers := [] |}.

Definition delete (env : Env) (url : string) : M AxiosResponse :=
  axios_request env
    {| cfg_method := "DELETE"; cfg_url := url; cfg_data := JUndefined;
       cfg_headers := [] |}.

Definition post (env : Env) (url : string) (data : JsVal) : M AxiosResponse :=
  axios_request env
    {| cfg_method := "POST"; cfg_url := url; cfg_data := data;
       cfg_headers := [] |}.

End AxiosDemo.

(** ** The caching library, as the hooks use it *)

(** The cache is the library's map from the hash of a query key to the
    data of that query; a query without data reads as [undefined], and
    writing [undefined] writes nothing. *)
Module QueryClient.

(** The data cached under a query key in a given state. *)
Definition data (env : Env) (w : World) (queryKey : JsVal) : JsVal :=
  match queryCache w !! hashKey env queryKey with
  | Some d => d
  | None => JUndefined
  end.

Definition getQueryData (env : Env) (queryKey : JsVal) : M JsVal :=
  reads (fun w => data env w queryKey).

Definition setQueryData (env : Env) (queryKey data : JsVal) : M unit :=
  match data with
  | JUndefined => ret tt
  | _ =>
      modify (fun w =>
                set_queryCache (<[hashKey env queryKey := data]> (queryCache w)) w)
  end.

(** [setQueryData(queryKey, (old) => ...)] *)
Definition setQueryDataWith (env : Env) (queryKey : JsVal)
    (updater : JsVal -> Completion JsVal) : M unit :=
  let* old := getQueryData env queryKey in
  let* data := lift (updater old) in
  setQueryData env queryKey data.

Definition cancelQueries (queryKey : JsVal) : M unit :=
  modify (add_engine_call (CancelQueries queryKey)).

Definition invalidateQueries (queryKey : JsVal) : M unit :=
  modify (add_engine_call (InvalidateQueries queryKey)).

Definition refetchQueries (queryKey : JsVal) (exact : bool) : M unit :=
  modify (add_engine_call (RefetchQueries queryKey exact)).

End QueryClient.

(** The options of [useMutation] that one run of a mutation reads. *)
Record MutationOptions : Type := mkMutationOptions {
  mutationFn : option (JsVal -> M JsVal);
  onMutate : option (JsVal -> M JsVal);
  onSuccess : option (JsVal -> JsVal -> JsVal -> M unit);
  onError : option (JsError -> JsVal -> JsVal -> M unit)
}.

Definition no_options : MutationOptions :=
  {| mutationFn := None; onMutate := None; onSuccess := None; onError := None |}.

Definition or_else {A : Type} (over base : option A) : option A :=
  match over with
  | Some x => Some x
  | None => base
  end.

(** [{ ...base, ...over }] *)
Definition spread (base over : MutationOptions) : MutationOptions :=
  {| mutationFn := or_else (mutationFn over) (mutationFn base);
     onMutate := or_else (onMutate over) (onMutate base);
     onSuccess := or_else (onSuccess over) (onSuccess base);
     onError := or_else (onError over) (onError base) |}.

Module Mutation.

Definition run_onMutate (options : MutationOptions) (variables : JsVal)
  : M JsVal :=
  match onMutate options with
  | Some handler => handler variables
  | None => ret JUndefined
  end.

Definition run_mutationFn (options : MutationOptions) (variables : JsVal)
  : M JsVal :=
  match mutationFn options with
  | Some fn => fn variables
  | None => throw (Error "No mutationFn found")
  end.

Definition run_onSuccess (options : MutationOptions)
    (data variables context : JsVal) : M unit :=
  match onSuccess options with
  | Some handler => handler data variables context
  | None => ret tt
  end.

Definition run_onError (options : MutationOptions)
    (error : JsError) (variables context : JsVal) : M unit :=
  match onError options with
  | Some handler => handler error variables context
  | None => ret tt
  end.

(** The failure path of a run: [onError], then the error is thrown. *)
Definition fail (options : MutationOptions)
    (error : JsError) (variables context : JsVal) : M JsVal :=
  let* _ := run_onError options error variables context in
  throw error.

(** One run of a mutation ([mutateAsync]), without retries: [onMutate]
    gives the context, [mutationFn] the data, then [onSuccess]; an error
    at any of the three goes to [fail] with the context known by then. *)
Definition execute (options : MutationOptions) (variables : JsVal)
  : M JsVal :=
  fun w =>
    match run_onMutate options variables w with
    | (Throw error, w1) => fail options error variables JUndefined w1
    | (Return context, w1) =>
        match run_mutationFn options variables w1 with
        | (Throw error, w2) => fail options error variables context w2
        | (Return data, w2) =>
            match run_onSuccess options data variables context w2 with
            | (Throw error, w3) => fail options error variables context w3
            | (Return _, w3) => (Return data, w3)
            end
        end
    end.

End Mutation.

(** ** hooks/api/use-put.ts and hooks/use-put-data.ts *)

Module UsePutData.

(** The test of the composite shape [{ id, payload }]. *)
Definition is_keyed (variables : JsVal) : bool :=
  Js.typeof_object variables
  && negb (Js.is_null variables)
  && Js.has "id" variables
  && Js.has "payload" variables.

Definition requestData (variables : JsVal) : JsVal :=
  if is_keyed variables then Js.get variables "payload" else variables.

Definition finalUrl (url : string) (variables : JsVal) : string :=
  if is_keyed variables then
    let id := Js.get variables "id" in
    if Js.truthy id then url +:+ "/" +:+ Js.to_string id else url
  else url.

(** [response?.message ?? 'An error occurred while updating data'] *)
Definition errorMessage (response : JsVal) : JsVal :=
  if Js.nullish (Js.get response "message")
  then JStr "An error occurred while updating data"
  else Js.get response "message".

(** [response.message ?? 'Data updated successfully'] *)
Definition successMessage (response : JsVal) : JsVal :=
  if Js.nullish (Js.get response "message")
  then JStr "Data updated successfully"
  else Js.get response "message".

(** The options of the hook after their defaults ([refetchQueries = []],
    [isShowMessage = true]) are filled in. *)
Record Options : Type := mkOptions {
  url : string;
  refetchQueries : list string;
  headers : list (string * string);
  onSuccess_cb : option (JsVal -> M unit);
  onError_cb : option (JsError -> M unit);
  mutationOptions : MutationOptions;
  isShowMessage : bool
}.

Section Hook.

(** [instance.put] of the file at hand. *)
Variable put : string -> JsVal -> list (string * string) -> M JsVal.
(** The text of the error toast. *)
Variable description : JsError -> JsVal.
(** The key that [onSuccess] always refetches, when the file has one. *)
Variable always_refetched : option JsVal.

Definition usePutData_mutationFn (o : Options) (variables : JsVal)
  : M JsVal :=
  let* response :=
    put (finalUrl (url o) variables) (requestData variables) (headers o) in
  let statusCode := Js.get response "statusCode" in
  if Js.eq_num statusCode 200 || Js.eq_num statusCode 201 then
    let* _ :=
      when (isShowMessage o)
        (modify (add_toast (ToastSuccess (successMessage response)))) in
    ret (Js.get response "data")
  else if Js.eq_num statusCode 400 then
    throw (assign_statusCode
             (Error (Js.to_string (errorMessage response))) 400)
  else if Js.eq_num statusCode 401 then
    throw (assign_statusCode (Error "Unauthorized") 401)
  else throw (Error (Js.to_string (errorMessage response))).

Definition usePutData_onSuccess (o : Options)
    (data _variables _context : JsVal) : M unit :=
  let* _ :=
    when (0 <? List.length (refetchQueries o))%nat
      (QueryClient.refetchQueries
         (JArr (List.map JStr (refetchQueries o))) false) in
  let* _ :=
    match always_refetched with
    | Some key => QueryClient.refetchQueries (JArr [key]) false
    | None => ret tt
    end in
  match onSuccess_cb o with
  | Some f => f data
  | None => ret tt
  end.

Definition usePutData_onError (o : Options)
    (error : JsError) (_variables _context : JsVal) : M unit :=
  let* _ := modify (add_toast (ToastError (description error))) in
  match onError_cb o with
  | Some f => f error
  | None => ret tt
  end.

Definition usePutData (o : Options) : MutationOptions :=
  spread
    {| mutationFn := Some (usePutData_mutationFn o);
       onMutate := None;
       onSuccess := Some (usePutData_onSuccess o);
       onError := Some (usePutData_onError o) |}
    (mutationOptions o).

End Hook.

(** hooks/use-put-data.ts: [instance.put({ url, data, headers })] and
    [toast.error(error.message)] *)
Definition legacy_put (env : Env) (url : string) (data : JsVal)
    (headers : list (string * string)) : M JsVal :=
  ViteInstance.put env
    {| cfg_method := ""; cfg_url := url; cfg_data := data;
       cfg_headers := headers |}.

Definition legacy (env : Env) : Options -> MutationOptions :=
  usePutData (legacy_put env) (fun error => JStr (err_message error)) None.

(** hooks/api/use-put.ts: [instance.put(finalUrl, requestData, { headers })];
    [extractErrorInfo] and the notification key are imported from files
    that are not part of the sources, and are parameters here. *)
Definition api (env : Env) (extractErrorInfo_description : JsError -> JsVal)
    (NOTIFICATION_LIST_API_ENDPOINT : JsVal) : Options -> MutationOptions :=
  usePutData (NextInstance.put env) extractErrorInfo_description
    (Some NOTIFICATION_LIST_API_ENDPOINT).

End UsePutData.

(** ** hooks/api/use-fetch.ts *)

Module UseFetchData.

(** [response?.message || 'Failed to fetch data'] *)
Definition failure_message (response : JsVal) : string :=
  if Js.truthy (Js.get response "message")
  then Js.to_string (Js.get response "message")
  else "Failed to fetch data".

(** [queryFn] of the hook on the second instance. *)
Definition queryFn (env : Env) (url : string) (params : JsVal) : M JsVal :=
  let queryString := buildQueryString params in
  let* response := NextInstance.get env (url +:+ queryString) in
  if Js.eq_num (Js.get response "statusCode") 200
  then ret (Js.get response "data")
  else throw (Error (failure_message response)).

(** The caching library's runs of a query function: a failed attempt is
    repeated up to [retry] more times, and the error of the last attempt is
    the error of the query.  An attempt that resolves with [undefined] is
    not repeated: the library fails the query with an error that names the
    hash of the query key. *)
Fixpoint run_query (queryHash : string) (queryFn : M JsVal) (retry : nat)
  : M JsVal :=
  fun w =>
    match queryFn w with
    | (Return JUndefined, w') =>
        (Throw (Error (queryHash +:+ " data is undefined")), w')
    | (Return data, w') => (Return data, w')
    | (Throw e, w') =>
        match retry with
        | O => (Throw e, w')
        | S n => run_query queryHash queryFn n w'
        end
    end.

(** [queryKey: [url, params]] *)
Definition queryKey (url : string) (params : JsVal) : JsVal :=
  JArr [JStr url; params].

(** The enabled hook: [retry] is 1 unless [queryOptions] sets another
    count. *)
Definition useFetchData (env : Env) (url : string) (params : JsVal)
    (retry : nat) : M JsVal :=
  run_query (hashKey env (queryKey url params)) (queryFn env url params) retry.



End UseFetchData.

(** ** hooks/demo: the optimistic update hook *)

(** The context that the optimistic [onMutate] returns. *)
Definition snapshot (previousData : JsVal) (queryKey : string) : JsVal :=
  JObj [("previousData", previousData); ("queryKey", JStr queryKey)].

(** [[queryKey]] *)
Definition key_of (queryKey : JsVal) : JsVal := JArr [queryKey].

(** [options.invalidateQueries.forEach((key) => invalidateQueries({ queryKey: [key] }))] *)
Fixpoint invalidate_each (keys : list string) : M unit :=
  match keys with
  | [] => ret tt
  | key :: rest =>
      let* _ := QueryClient.invalidateQueries (key_of (JStr key)) in
      invalidate_each rest
  end.

(** The rollback of [onError], the same in both hooks. *)
Definition rollback (env : Env) (context : JsVal) : M unit :=
  when (Js.truthy (Js.get context "previousData")
        && Js.truthy (Js.get context "queryKey"))
    (QueryClient.setQueryData env
       (key_of (Js.get context "queryKey"))
       (Js.get context "previousData")).

Module UsePut.

(** [UsePutOptions]; an absent [options] is the record with every field
    absent.  The callbacks are the caller's and may do anything a
    promise-returning function can; the type leaves [mutationFn] out. *)
Record UsePutOptions : Type := mkUsePutOptions {
  invalidateQueries : option (list string);
  method : option string;
  callbacks : MutationOptions
}.

(** [options?.method || 'PUT'] *)
Definition method_of (options : UsePutOptions) : string :=
  match method options with
  | Some m => if nonempty m then m else "PUT"
  | None => "PUT"
  end.

Definition usePut_mutationFn (env : Env) (url : string)
    (options : UsePutOptions) (body : JsVal) : M JsVal :=
  let* response :=
    (if String.eqb (method_of options) "PUT"
     then AxiosDemo.put env url body
     else AxiosDemo.patch env url body) in
  ret (res_data response).

Definition usePut_onMutate (env : Env) (options : UsePutOptions)
    (variables : JsVal) : M JsVal :=
  match invalidateQueries options with
  | Some (queryKey :: _) =>
      let* _ := QueryClient.cancelQueries (key_of (JStr queryKey)) in
      let* previousData :=
        QueryClient.getQueryData env (key_of (JStr queryKey)) in
      let* _ :=
        QueryClient.setQueryData env (key_of (JStr queryKey)) variables in
      ret (snapshot previousData queryKey)
  | _ =>
      match onMutate (callbacks options) with
      | Some f => f variables
      | None => ret JUndefined
      end
  end.

Definition usePut_onSuccess (options : UsePutOptions)
    (data variables context : JsVal) : M unit :=
  let* _ :=
    match invalidateQueries options with
    | Some keys => invalidate_each keys
    | None => ret tt
    end in
  match onSuccess (callbacks options) with
  | Some f => f data variables context
  | None => ret tt
  end.

Definition usePut_onError (env : Env) (options : UsePutOptions)
    (error : JsError) (variables context : JsVal) : M unit :=
  let* _ := rollback env context in
  match onError (callbacks options) with
  | Some f => f error variables context
  | None => ret tt
  end.

(** [useMutation({ mutationFn, onMutate, onSuccess, onError, ...options })] *)
Definition usePut (env : Env) (url : string) (options : UsePutOptions)
  : MutationOptions :=
  spread
    {| mutationFn := Some (usePut_mutationFn env url options);
       onMutate := Some (usePut_onMutate env options);
       onSuccess := Some (usePut_onSuccess options);
       onError := Some (usePut_onError env options) |}
    (callbacks options).

End UsePut.

(** ** hooks/demo: the optimistic delete hook *)

Module UseDelete.

(** [UseDeleteOptions], with an absent [options] as in [usePut]. *)
Record UseDeleteOptions : Type := mkUseDeleteOptions {
  invalidateQueries : option (list string);
  confirmMessage : option string;
  callbacks : MutationOptions
}.

(** [item.id?.toString() !== id] *)
Definition differs (id item : JsVal) : Completion bool :=
  match Js.get_strict item "id" with
  | None => Throw TypeError
  | Some item_id =>
      if Js.nullish item_id then Return (negb (Js.is_undefined id))
      else
        match id with
        | JStr s => Return (negb (String.eqb (Js.to_string item_id) s))
        | _ => Return true
        end
  end.

(** [old.filter((item) => ...)] with a callback that may throw *)
Fixpoint filter_items (keep : JsVal -> Completion bool) (items : list JsVal)
  : Completion (list JsVal) :=
  match items with
  | [] => Return []
  | item :: rest =>
      match keep item with
      | Throw e => Throw e
      | Return b =>
          match filter_items keep rest with
          | Throw e => Throw e
          | Return kept => Return (if b then item :: kept else kept)
          end
      end
  end.

(** The updater of the optimistic removal. *)
Definition remove_item (id old : JsVal) : Completion JsVal :=
  match old with
  | JArr items =>
      match filter_items (differs id) items with
      | Return kept => Return (JArr kept)
      | Throw e => Throw e
      end
  | _ => Return old
  end.

Definition useDelete_mutationFn (env : Env) (url : string)
    (options : UseDeleteOptions) (id : JsVal) : M JsVal :=
  let* _ :=
    match confirmMessage options with
    | Some message =>
        if nonempty message then
          let confirmed := confirm env message in
          if negb confirmed then throw (Error "Deletion cancelled")
          else ret tt
        else ret tt
    | None => ret tt
    end in
  let* response :=
    AxiosDemo.delete env (url +:+ "/" +:+ Js.to_string id) in
  ret (res_data response).

Definition useDelete_onMutate (env : Env) (options : UseDeleteOptions)
    (id : JsVal) : M JsVal :=
  match invalidateQueries options with
  | Some (queryKey :: _) =>
      let* _ := QueryClient.cancelQueries (key_of (JStr queryKey)) in
      let* previousData :=
        QueryClient.getQueryData env (key_of (JStr queryKey)) in
      let* _ :=
        QueryClient.setQueryDataWith env (key_of (JStr queryKey))
          (remove_item id) in
      ret (snapshot previousData queryKey)
  | _ =>
      match onMutate (callbacks options) with
      | Some f => f id
      | None => ret JUndefined
      end
  end.

Definition useDelete_onSuccess (options : UseDeleteOptions)
    (data id context : JsVal) : M unit :=
  let* _ :=
    match invalidateQueries options with
    | Some keys => invalidate_each keys
    | None => ret tt
    end in
  match onSuccess (callbacks options) with
  | Some f => f data id context
  | None => ret tt
  end.

Definition useDelete_onError (env : Env) (options : UseDeleteOptions)
    (error : JsError) (id context : JsVal) : M unit :=
  let* _ := rollback env context in
  match onError (callbacks options) with
  | Some f => f error id context
  | None => ret tt
  end.

Definition useDelete (env : Env) (url : string) (options : UseDeleteOptions)
  : MutationOptions :=
  spread
    {| mutationFn := Some (useDelete_mutationFn env url options);
       onMutate := Some (useDelete_onMutate env options);
       onSuccess := Some (useDelete_onSuccess options);
       onError := Some (useDelete_onError env options) |}
    (callbacks options).

End UseDelete.

(** ** hooks/api/use-post.ts and hooks/use-post-data.ts *)

Module UsePostData.

(** The options of the hook after the default [headers = {}]; an absent
    flag is [false], an absent [refetchQueries] is [None]. *)
Record Options : Type := mkOptions {
  url : string;
  mutationOptions : MutationOptions;
  headers : list (string * string);
  refetchQueries : option (list string);
  onSuccess_cb : option (JsVal -> M unit);
  onError_cb : option (JsError -> M unit);
  isShowErrorToast : bool;
  isShowSuccessMessage : bool
}.

(** [!response?.error && (response?.statusCode === 200 ||
    response?.statusCode === 201)] *)
Definition accepted (response : JsVal) : bool :=
  negb (Js.truthy (Js.get response "error"))
  && (Js.eq_num (Js.get response "statusCode") 200
      || Js.eq_num (Js.get response "statusCode") 201).

(** [response?.message || fallback] *)
Definition message_or (response : JsVal) (fallback : string) : JsVal :=
  if Js.truthy (Js.get response "message")
  then Js.get response "message"
  else JStr fallback.

Section Hook.

(** [instance.post] of the file at hand. *)
Variable post : string -> JsVal -> list (string * string) -> M JsVal.
(** The text of the error toast. *)
Variable description : JsError -> JsVal.
(** The key that [onSuccess] always refetches, when the file has one. *)
Variable always_refetched : option JsVal.

Definition usePostData_mutationFn (o : Options) (variables : JsVal)
  : M JsVal :=
  let* response := post (url o) variables (headers o) in
  if accepted response then
    let* _ :=
      when (isShowSuccessMessage o)
        (modify (add_toast (ToastSuccess (message_or response "Success")))) in
    ret (Js.get response "data")
  else throw (Error (Js.to_string (message_or response "Failed to post data"))).

Definition usePostData_onSuccess (o : Options)
    (data _variables _context : JsVal) : M unit :=
  let* _ :=
    match refetchQueries o with
    | Some keys =>
        QueryClient.refetchQueries (JArr (List.map JStr keys)) false
    | None => ret tt
    end in
  let* _ :=
    match always_refetched with
    | Some key => QueryClient.refetchQueries (JArr [key]) false
    | None => ret tt
    end in
  match onSuccess_cb o with
  | Some f => f data
  | None => ret tt
  end.

Definition usePostData_onError (o : Options)
    (error : JsError) (_variables _context : JsVal) : M unit :=
  let* _ :=
    when (isShowErrorToast o)
      (modify (add_toast (ToastError (description error)))) in
  match onError_cb o with
  | Some f => f error
  | None => ret tt
  end.

Definition usePostData (o : Options) : MutationOptions :=
  spread
    {| mutationFn := Some (usePostData_mutationFn o);
       onMutate := None;
       onSuccess := Some (usePostData_onSuccess o);
       onError := Some (usePostData_onError o) |}
    (mutationOptions o).

End Hook.

(** hooks/use-post-data.ts: [instance.post({ url, data: variables, headers })]
    and [toast.error(error.message)] *)
Definition legacy_post (env : Env) (url : string) (data : JsVal)
    (headers : list (string * string)) : M JsVal :=
  ViteInstance.post env
    {| cfg_method := ""; cfg_url := url; cfg_data := data;
       cfg_headers := headers |}.

Definition legacy (env : Env) : Options -> MutationOptions :=
  usePostData (legacy_post env) (fun error => JStr (err_message error)) None.

(** hooks/api/use-post.ts: [instance.post(url, variables, { headers })];
    [extractErrorInfo] and the notification key are parameters, as for the
    replace hook. *)
Definition api (env : Env) (extractErrorInfo_description : JsError -> JsVal)
    (NOTIFICATION_LIST_API_ENDPOINT : JsVal) : Options -> MutationOptions :=
  usePostData (NextInstance.post env) extractErrorInfo_description
    (Some NOTIFICATION_LIST_API_ENDPOINT).

End UsePostData.

(** ** hooks/use-delete-data.ts *)

Module UseDeleteData.

(** The options of the hook after the default [refetchQueries = []]. *)
Record Options : Type := mkOptions {
  url : string;
  refetchQueries : list string;
  onSuccess_cb : option (M unit);
  onError_cb : option (JsError -> M unit);
  mutationOptions : MutationOptions
}.

(** [response.message ?? 'Data deleted successfully'] *)
Definition successMessage (response : JsVal) : JsVal :=
  if Js.nullish (Js.get response "message")
  then JStr "Data deleted successfully"
  else Js.get response "message".

(** [response?.message || 'Failed to delete data'] *)
Definition errorMessage (response : JsVal) : JsVal :=
  if Js.truthy (Js.get response "message")
  then Js.get response "message"
  else JStr "Failed to delete data".

Definition useDeleteData_mutationFn (env : Env) (o : Options)
    (_variables : JsVal) : M JsVal :=
  let* response :=
    ViteInstance.delete env
      {| cfg_method := ""; cfg_url := url o; cfg_data := JUndefined;
         cfg_headers := [] |} in
  if Js.eq_num (Js.get response "statusCode") 200 then
    let* _ := modify (add_toast (ToastSuccess (successMessage response))) in
    ret (Js.get response "data")
  else throw (Error (Js.to_string (errorMessage response))).

(** [if (refetchQueries)] holds for every array, also the empty one. *)
Definition useDeleteData_onSuccess (o : Options)
    (_data _variables _context : JsVal) : M unit :=
  let* _ :=
    QueryClient.refetchQueries (JArr (List.map JStr (refetchQueries o))) false in
  match onSuccess_cb o with
  | Some f => f
  | None => ret tt
  end.

Definition useDeleteData_onError (o : Options)
    (error : JsError) (_variables _context : JsVal) : M unit :=
  let* _ := modify (add_toast (ToastError (JStr (err_message error)))) in
  match onError_cb o with
  | Some f => f error
  | None => ret tt
  end.

Definition useDeleteData (env : Env) (o : Options) : MutationOptions :=
  spread
    {| mutationFn := Some (useDeleteData_mutationFn env o);
       onMutate := None;
       onSuccess := Some (useDeleteData_onSuccess o);
       onError := Some (useDeleteData_onError o) |}
    (mutationOptions o).

End UseDeleteData.

(** ** The partial-update hook (second file of hooks/api/use-fetch.ts) *)

Module UsePatchData.

(** The options after the defaults [refetchQueries = []] and
    [isShowMessage = true]; [headers] is taken and never used. *)
Record Options : Type := mkOptions {
  url : string;
  refetchQueries : list string;
  headers : list (string * string);
  onSuccess_cb : option (JsVal -> M unit);
  onError_cb : option (JsError -> M unit);
  mutationOptions : MutationOptions;
  isShowMessage : bool
}.

(** [response.message ?? "Operation completed successfully"] *)
Definition successMessage (response : JsVal) : JsVal :=
  if Js.nullish (Js.get response "message")
  then JStr "Operation completed successfully"
  else Js.get response "message".

(** [response?.message ?? "An error occurred while processing the request"] *)
Definition errorMessage (response : JsVal) : JsVal :=
  if Js.nullish (Js.get response "message")
  then JStr "An error occurred while processing the request"
  else Js.get response "message".

Definition usePatchData_mutationFn (env : Env) (o : Options)
    (variables : JsVal) : M JsVal :=
  let* response := NextInstance.patch env (url o) variables in
  if Js.eq_num (Js.get response "statusCode") 200 then
    let* _ :=
      when (isShowMessage o)
        (modify (add_toast (ToastSuccess (successMessage response)))) in
    ret (Js.get response "data")
  else throw (Error (Js.to_string (errorMessage response))).

(** [API.notification.list] and [extractErrorInfo] come from files that
    are not part of the sources, and are parameters. *)
Definition usePatchData_onSuccess (notification_list : JsVal) (o : Options)
    (data _variables _context : JsVal) : M unit :=
  let* _ :=
    when (0 <? List.length (refetchQueries o))%nat
      (QueryClient.refetchQueries
         (JArr (List.map JStr (refetchQueries o))) false) in
  let* _ := QueryClient.refetchQueries (JArr [notification_list]) false in
  match onSuccess_cb o with
  | Some f => f data
  | None => ret tt
  end.

Definition usePatchData_onError (description : JsError -> JsVal) (o : Options)
    (error : JsError) (_variables _context : JsVal) : M unit :=
  let* _ := modify (add_toast (ToastError (description error))) in
  match onError_cb o with
  | Some f => f error
  | None => ret tt
  end.

Definition usePatchData (env : Env) (description : JsError -> JsVal)
    (notification_list : JsVal) (o : Options) : MutationOptions :=
  spread
    {| mutationFn := Some (usePatchData_mutationFn env o);
       onMutate := None;
       onSuccess := Some (usePatchData_onSuccess notification_list o);
       onError := Some (usePatchData_onError description o) |}
    (mutationOptions o).

End UsePatchData.

(** ** hooks/demo: the create hook *)

Module UsePost.

Record UsePostOptions : Type := mkUsePostOptions {
  invalidateQueries : option (list string);
  callbacks : MutationOptions
}.

Definition usePost_mutationFn (env : Env) (url : string) (body : JsVal)
  : M JsVal :=
  let* response := AxiosDemo.post env url body in
  ret (res_data response).

Definition usePost_onSuccess (options : UsePostOptions)
    (data variables context : JsVal) : M unit :=
  let* _ :=
    match invalidateQueries options with
    | Some keys => invalidate_each keys
    | None => ret tt
    end in
  match onSuccess (callbacks options) with
  | Some f => f data variables context
  | None => ret tt
  end.

Definition usePost_onError (options : UsePostOptions)
    (error : JsError) (variables context : JsVal) : M unit :=
  match onError (callbacks options) with
  | Some f => f error variables context
  | None => ret tt
  end.

Definition usePost (env : Env) (url : string) (options : UsePostOptions)
  : MutationOptions :=
  spread
    {| mutationFn := Some (usePost_mutationFn env url);
       onMutate := None;
       onSuccess := Some (usePost_onSuccess options);
       onError := Some (usePost_onError options) |}
    (callbacks options).

End UsePost.

(** ** utils/storage.ts *)

Module Storage.

Section Json.

(** [JSON.stringify] and [JSON.parse] are the runtime's.  The first gives
    no string for [undefined] (here [None]); the second throws on a text
    that is not JSON. *)
Variable JSON_stringify : JsVal -> option string.
Variable JSON_parse : string -> Completion JsVal.

(** The [catch] logs the error of [JSON.parse], and [value] stays [null]. *)
Definition getItem (key : string) : M JsVal :=
  fun w =>
    match localStorage w !! key with
    | Some result =>
        if nonempty result then
          match JSON_parse result with
          | Return value => (Return value, w)
          | Throw _ => (Return JNull, w)
          end
        else (Return JNull, w)
    | None => (Return JNull, w)
    end.

(** [localStorage.setItem] stores [String(x)] of what it is given. *)
Definition setItem (key : string) (value : JsVal) : M unit :=
  let text :=
    match JSON_stringify value with
    | Some t => t
    | None => "undefined"
    end in
  modify (fun w => set_localStorage (<[key := text]> (localStorage w)) w).

End Json.

Definition getStringItem (key : string) : M JsVal :=
  reads (fun w =>
           match localStorage w !! key with
           | Some result => JStr result
           | None => JNull
           end).

Definition removeItem (key : string) : M unit :=
  modify (fun w => set_localStorage (delete key (localStorage w)) w).

Definition clearItems : M unit := modify (set_localStorage ∅).

(** [namespace ? namespace + '[' + key + ']' : key]; an absent namespace
    is the empty string, falsy as well. *)
Definition formKey (namespace key : string) : string :=
  if nonempty namespace then namespace +:+ "[" +:+ key +:+ "]" else key.

(** [objectToFormData]: the form is the list of its parts in the order of
    [append].  The values are those of [JsVal], none of which is a [File]
    or a [Blob]; [for ... in] with the [hasOwnProperty] test runs over the
    own enumerable properties, which a [FormData] value has none of. *)
Fixpoint objectToFormData (obj : JsVal) (form : list (string * string))
    (namespace : string) {struct obj} : list (string * string) :=
  match obj with
  | JObj fs =>
      (fix fields (fs : list (string * JsVal)) (form : list (string * string))
         : list (string * string) :=
         match fs with
         | [] => form
         | (key, value) :: rest =>
             fields rest
               match value with
               | JArr _ | JObj _ | JFormData _ =>
                   objectToFormData value form (formKey namespace key)
               | JUndefined | JNull => form
               | _ => form ++ [(formKey namespace key, Js.to_string value)]
               end
         end) fs form
  | JArr l =>
      (fix elems (i : nat) (l : list JsVal) (form : list (string * string))
         : list (string * string) :=
         match l with
         | [] => form
         | value :: rest =>
             elems (S i) rest
               match value with
               | JArr _ | JObj _ | JFormData _ =>
                   objectToFormData value form
                     (formKey namespace (Js.string_of_nat i))
               | JUndefined | JNull => form
               | _ =>
                   form
                     ++ [(formKey namespace (Js.string_of_nat i),
                          Js.to_string value)]
               end
         end) 0 l form
  | _ => form
  end.

End Storage.

(** ** config/api/api.ts: the endpoints of the orders *)

Module API.

Definition auth_login : string := "auth/login".
Definition order_list : string := "order/list".
Definition order_create : string := "order/create".

(** [(id: string) => `order/${id}`], three times *)
Definition order_getById (id : JsVal) : string := "order/" +:+ Js.to_string id.
Definition order_update (id : JsVal) : string := "order/" +:+ Js.to_string id.
Definition order_delete (id : JsVal) : string := "order/" +:+ Js.to_string id.

End API.

(** ** The orders service hooks *)

Module OrdersService.

Definition useUpdateOrder (env : Env) : MutationOptions :=
  UsePutData.legacy env
    {| UsePutData.url := API.order_list;
       UsePutData.refetchQueries := [API.order_list];
       UsePutData.headers := [];
       UsePutData.onSuccess_cb := None;
       UsePutData.onError_cb := None;
       UsePutData.mutationOptions := no_options;
       UsePutData.isShowMessage := true |}.

Definition useCreateOrder (env : Env) : MutationOptions :=
  UsePostData.legacy env
    {| UsePostData.url := API.order_create;
       UsePostData.mutationOptions := no_options;
       UsePostData.headers := [];
       UsePostData.refetchQueries := Some [API.order_list];
       UsePostData.onSuccess_cb := None;
       UsePostData.onError_cb := None;
       UsePostData.isShowErrorToast := false;
       UsePostData.isShowSuccessMessage := true |}.

Definition useDeleteOrder (env : Env) (id : JsVal) : MutationOptions :=
  UseDeleteData.useDeleteData env
    {| UseDeleteData.url := API.order_delete id;
       UseDeleteData.refetchQueries := [API.order_list];
       UseDeleteData.onSuccess_cb := None;
       UseDeleteData.onError_cb := None;
       UseDeleteData.mutationOptions := no_options |}.

End OrdersService.

(** ** Specification side *)

(** The success rule of the response envelope, in the words of the spec:
    [statusCode] is 200 or 201 and [error] is [false]. *)
Definition is_success_envelope (body : JsVal) : Prop :=
  (Js.get body "statusCode" = JNum 200 \/ Js.get body "statusCode" = JNum 201)
  /\ Js.get body "error" = JBool false.

(** Reading a query string back: [decodeURIComponent] on the bytes of
    its argument, the text before and after the first separator, and the
    pairs between the [&] after the leading [?]. *)
Definition hex_value (c : ascii) : option nat :=
  let n := nat_of_ascii c in
  if ((48 <=? n) && (n <=? 57))%nat then Some (n - 48)
  else if ((65 <=? n) && (n <=? 70))%nat then Some (n - 55)
  else if ((97 <=? n) && (n <=? 102))%nat then Some (n - 87)
  else None.

Fixpoint decodeURIComponent (s : string) : option string :=
  match s with
  | EmptyString => Some EmptyString
  | String c rest =>
      if Ascii.eqb c "%" then
        match rest with
        | String a (String b rest') =>
            match hex_value a, hex_value b, decodeURIComponent rest' with
            | Some x, Some y, Some text =>
                Some (String (ascii_of_nat (16 * x + y)) text)
            | _, _, _ => None
            end
        | _ => None
        end
      else
        match decodeURIComponent rest with
        | Some text => Some (String c text)
        | None => None
        end
  end.

Fixpoint split_on (sep : ascii) (s : string) : list string :=
  match s with
  | EmptyString => [EmptyString]
  | String c rest =>
      if Ascii.eqb sep c then EmptyString :: split_on sep rest
      else
        match split_on sep rest with
        | first :: others => String c first :: others
        | [] => [String c EmptyString]
        end
  end.

Fixpoint cut (sep : ascii) (s : string) : option (string * string) :=
  match s with
  | EmptyString => None
  | String c rest =>
      if Ascii.eqb sep c then Some (EmptyString, rest)
      else
        match cut sep rest with
        | Some (a, b) => Some (String c a, b)
        | None => None
        end
  end.

Definition parse_pair (text : string) : option (string * string) :=
  match cut "=" text with
  | Some (k, v) =>
      match decodeURIComponent k, decodeURIComponent v with
      | Some key, Some value => Some (key, value)
      | _, _ => None
      end
  | None => None
  end.

Fixpoint parse_pairs (pairs : list string) : option (list (string * string)) :=
  match pairs with
  | [] => Some []
  | text :: rest =>
      match parse_pair text, parse_pairs rest with
      | Some kv, Some kvs => Some (kv :: kvs)
      | _, _ => None
      end
  end.

Definition parse_query (query : string) : option (list (string * string)) :=
  match query with
  | EmptyString => Some []
  | String c rest =>
      if Ascii.eqb c "?" then parse_pairs (split_on "&" rest) else None
  end.

(** The text of a pair: encoded key, [=], encoded value. *)
Definition encode_text_pair (kv : string * string) : string :=
  encodeURIComponent (fst kv) +:+ "=" +:+ encodeURIComponent (snd kv).

(** The keys and values that an entry of the params stands for, before
    any encoding. *)
Definition entries_of (params : JsVal) (key : string)
  : list (string * string) :=
  match Js.get params key with
  | JNull | JUndefined => []
  | JArr vals => List.map (fun v => (key, Js.to_string v)) vals
  | v => [(key, Js.to_string v)]
  end.

(** The order of [Object.keys]: a key that is a canonical decimal
    numeral is listed before every key that is not, and before every
    numeral that is larger; the other keys follow in the order of their
    creation.  [keys_in_order] holds of the lists in which the numerals
    come first and ascend. *)
Definition is_digit (c : ascii) : bool :=
  ((48 <=? nat_of_ascii c) && (nat_of_ascii c <=? 57))%nat.

Definition canonical_numeral (key : string) : bool :=
  match key with
  | EmptyString => false
  | String c rest =>
      forallb is_digit (list_ascii_of_string key)
      && (negb (Ascii.eqb c "0") || String.eqb rest EmptyString)
  end.

Definition numeral_value (key : string) : N :=
  fold_left (fun acc c => (10 * acc + (N_of_ascii c - 48))%N)
    (list_ascii_of_string key) 0%N.

Fixpoint keys_in_order (keys : list string) : bool :=
  match keys with
  | [] => true
  | key :: rest =>
      if canonical_numeral key then
        forallb (fun later =>
                   negb (canonical_numeral later)
                   || (numeral_value key <? numeral_value later)%N) rest
        && keys_in_order rest
      else forallb (fun later => negb (canonical_numeral later)) rest
  end.

(** The value that a request carries under a header name. *)
Fixpoint get_header (name : string) (hs : list (string * string))
  : option string :=
  match hs with
  | [] => None
  | (n, v) :: rest => if String.eqb n name then Some v else get_header name rest
  end.

(** The number of occurrences of a character in a string. *)
Fixpoint count_char (c : ascii) (s : string) : nat :=
  match s with
  | EmptyString => 0
  | String d rest => (if Ascii.eqb c d then 1 else 0) + count_char c rest
  end.

(** Two query strings as one: the second without its [?], after an [&]. *)
Definition join_query (a b : string) : string :=
  match a, b with
  | EmptyString, _ => b
  | _, EmptyString => a
  | _, String _ rest => a +:+ "&" +:+ rest
  end.

(** The engine calls of [forEach] over a list of keys. *)
Definition invalidations (keys : list string) : list EngineCall :=
  List.map (fun key => InvalidateQueries (key_of (JStr key))) keys.

(** The item carries [id] as its identifier, once turned into a string. *)
Definition has_id (id : string) (item : JsVal) : bool :=
  negb (Js.nullish (Js.get item "id"))
  && String.eqb (Js.to_string (Js.get item "id")) id.

(** The number of constructors of a value, for inductions through its
    nested lists. *)
Fixpoint JsVal_size (v : JsVal) : nat :=
  match v with
  | JArr l => S (list_sum (List.map JsVal_size l))
  | JObj fs => S (list_sum (List.map (fun kv => JsVal_size (snd kv)) fs))
  | _ => 1
  end.

(** ** Sample inputs *)

Definition sample_params : JsVal :=
  JObj [("page", JNum 2); ("tag", JArr [JStr "a b"; JStr "c"; JNum 7]);
        ("q", JNull); ("sort", JUndefined); ("name", JStr "x&y")].

Definition sample_world : World :=
  {| localStorage := {[ "token" := "abc" ]};
     location_href := "/orders";
     queryCache := ∅;
     engine_calls := [];
     requests := [];
     toasts := [] |}.

(** A browser whose transport settles every request with [answer] and
    whose user answers every dialog with [confirmed]. *)
Definition sample_env (answer : Settled) (confirmed : bool) : Env :=
  {| transport := fun _ _ => answer;
     confirm := fun _ => confirmed;
     has_window := true;
     getClientToken := ret (JStr "t0k3n");
     signOut := ret tt;
     now_iso := "2024-01-01T00:00:00.000Z";
     hashKey := Js.to_string |}.

Definition envelope_ok : JsVal :=
  JObj [("statusCode", JNum 200); ("error", JBool false);
        ("data", JObj [("id", JNum 1)])].

Definition envelope_not_found : JsVal :=
  JObj [("statusCode", JNum 404); ("error", JBool true);
        ("message", JStr "not found")].

Definition envelope_without_data : JsVal :=
  JObj [("statusCode", JNum 200); ("error", JBool false)].

Definition envelope_unauthorized : JsVal :=
  JObj [("statusCode", JNum 401); ("error", JBool true);
        ("message", JStr "Token expired")].

Definition envelope_bad_request : JsVal :=
  JObj [("statusCode", JNum 400); ("error", JBool true);
        ("message", JStr "Name is required")].

Definition envelope_created : JsVal :=
  JObj [("statusCode", JNum 201); ("error", JBool false);
        ("message", JStr "Created"); ("data", JObj [("id", JNum 7)])].

(** An envelope that reports a failure under status code 200. *)
Definition envelope_flagged : JsVal :=
  JObj [("statusCode", JNum 200); ("error", JBool true);
        ("message", JStr "Out of stock"); ("data", JObj [("id", JNum 7)])].

Definition unauthorized_error : JsError :=
  {| err_message := "Request failed with status code 401";
     err_statusCode := None;
     err_response := Some {| res_status := 401; res_data := JNull |} |}.

Definition network_error : JsError := Error "Network Error".

(** The error of the transport for the envelope [envelope_not_found] sent
    under the HTTP status 404. *)
Definition not_found_error : JsError :=
  {| err_message := "Request failed with status code 404";
     err_statusCode := None;
     err_response :=
       Some {| res_status := 404; res_data := envelope_not_found |} |}.

(** A browser in which the sign-out fails. *)
Definition env_sign_out_fails : Env :=
  {| transport := fun _ _ => Rejected unauthorized_error;
     confirm := fun _ => true;
     has_window := true;
     getClientToken := ret (JStr "t0k3n");
     signOut := throw network_error;
     now_iso := "2024-01-01T00:00:00.000Z";
     hashKey := Js.to_string |}.

(** A browser in which the token lookup fails. *)
Definition env_without_token (answer : Settled) : Env :=
  {| transport := fun _ _ => answer;
     confirm := fun _ => true;
     has_window := true;
     getClientToken := throw network_error;
     signOut := ret tt;
     now_iso := "2024-01-01T00:00:00.000Z";
     hashKey := Js.to_string |}.

Definition sample_put_options : UsePutData.Options :=
  {| UsePutData.url := "users";
     UsePutData.refetchQueries := [];
     UsePutData.headers := [];
     UsePutData.onSuccess_cb := None;
     UsePutData.onError_cb := None;
     UsePutData.mutationOptions := no_options;
     UsePutData.isShowMessage := true |}.

(** A caller's [onSuccess] that only logs, as on the demo page. *)
Definition logging_onSuccess : MutationOptions :=
  {| mutationFn := None; onMutate := None;
     onSuccess := Some (fun _ _ _ => ret tt); onError := None |}.

Definition sample_usePut_options : UsePut.UsePutOptions :=
  {| UsePut.invalidateQueries := Some ["users"];
     UsePut.method := Some "PATCH";
     UsePut.callbacks := logging_onSuccess |}.

Definition sample_usePost_options : UsePost.UsePostOptions :=
  {| UsePost.invalidateQueries := Some ["posts"];
     UsePost.callbacks := logging_onSuccess |}.

Definition sample_useDelete_options : UseDelete.UseDeleteOptions :=
  {| UseDelete.invalidateQueries := Some ["users"];
     UseDelete.confirmMessage := Some "Delete this user?";
     UseDelete.callbacks := logging_onSuccess |}.

Definition sample_users : JsVal :=
  JArr [JObj [("id", JNum 1); ("name", JStr "Ann")];
        JObj [("id", JNum 2); ("name", JStr "Bob")]].

(** [sample_world] with the list of users cached under [["users"]], as
    hashed by [sample_env]. *)
Definition world_with_users : World :=
  set_queryCache {[ "users" := sample_users ]} sample_world.

(** The optimistic hooks as set up without callbacks of the caller. *)
Definition own_usePut_options : UsePut.UsePutOptions :=
  {| UsePut.invalidateQueries := Some ["users"; "stats"];
     UsePut.method := Some "PATCH";
     UsePut.callbacks := no_options |}.

Definition own_useDelete_options : UseDelete.UseDeleteOptions :=
  {| UseDelete.invalidateQueries := Some ["users"; "stats"];
     UseDelete.confirmMessage := Some "Delete this user?";
     UseDelete.callbacks := no_options |}.

(** A cached list with a hole in it. *)
Definition world_with_hole : World :=
  set_queryCache
    {[ "users" := JArr [JObj [("id", JNum 1)]; JNull; JObj [("id", JNum 2)]] ]}
    sample_world.

(** A JSON runtime for the values of the samples: integers, booleans
    and [null]. *)
Definition sample_stringify (v : JsVal) : option string :=
  match v with
  | JUndefined => None
  | JNum _ | JBool _ | JNull => Some (Js.to_string v)
  | _ => Some "{}"
  end.

Definition sample_parse (text : string) : Completion JsVal :=
  if String.eqb text "null" then Return JNull
  else if String.eqb text "true" then Return (JBool true)
  else if String.eqb text "false" then Return (JBool false)
  else if String.eqb text "42" then Return (JNum 42)
  else Throw (Error "SyntaxError").

Definition sample_form : JsVal :=
  JObj [("name", JStr "Ann"); ("age", JNum 42); ("nick", JNull);
        ("admin", JBool false); ("note", JUndefined)].

Definition sample_post_options : UsePostData.Options :=
  {| UsePostData.url := "order/create";
     UsePostData.mutationOptions := no_options;
     UsePostData.headers := [];
     UsePostData.refetchQueries := Some ["order/list"];
     UsePostData.onSuccess_cb := None;
     UsePostData.onError_cb := None;
     UsePostData.isShowErrorToast := true;
     UsePostData.isShowSuccessMessage := true |}.

Definition sample_patch_options : UsePatchData.Options :=
  {| UsePatchData.url := "users/42";
     UsePatchData.refetchQueries := [];
     UsePatchData.headers := [("X-Trace", "1")];
     UsePatchData.onSuccess_cb := None;
     UsePatchData.onError_cb := None;
     UsePatchData.mutationOptions := no_options;
     UsePatchData.isShowMessage := true |}.

Definition sample_delete_options : UseDeleteData.Options :=
  {| UseDeleteData.url := "order/42";
     UseDeleteData.refetchQueries := [];
     UseDeleteData.onSuccess_cb := None;
     UseDeleteData.onError_cb := None;
     UseDeleteData.mutationOptions := no_options |}.

Definition keyed_variables : JsVal :=
  JObj [("id", JStr "42"); ("payload", JObj [("x", JNum 1)])].

Definition keyed_variables_empty_id : JsVal :=
  JObj [("id", JStr ""); ("payload", JObj [("x", JNum 1)])].

(** * Properties *)

(** ** Joining strings *)

Section Join.

Variable sep : string.

Lemma concat_cons_nonnil (x : string) (l : list string) :
  l <> [] -> String.concat sep (x :: l) = x +:+ sep +:+ String.concat sep l.
Proof. destruct l; [congruence | reflexivity]. Qed.

Lemma append_assoc (a b c : string) : (a +:+ b) +:+ c = a +:+ (b +:+ c).
Proof.
  induction a as [|ch a IH]; [reflexivity|].
  change (String ch ((a +:+ b) +:+ c) = String ch (a +:+ (b +:+ c))).
  now rewrite IH.
Qed.

Lemma concat_app (a b : list string) :
  a <> [] -> b <> [] ->
  String.concat sep (a ++ b)
  = String.concat sep a +:+ sep +:+ String.concat sep b.
Proof.
  intros Ha Hb. induction a as [|x a IH]; [congruence|].
  destruct a as [|y a].
  - cbn [List.app]. now rewrite concat_cons_nonnil.
  - change ((x :: y :: a) ++ b) with (x :: ((y :: a) ++ b)).
    rewrite concat_cons_nonnil by discriminate.
    rewrite IH by discriminate.
    rewrite (concat_cons_nonnil x (y :: a)) by discriminate.
    now rewrite !append_assoc.
Qed.

Lemma nonempty_append_l (a b : string) :
  nonempty a = true -> nonempty (a +:+ b) = true.
Proof. destruct a; [discriminate | reflexivity]. Qed.

Lemma nonempty_concat (l : list string) :
  l <> [] -> Forall (fun s => nonempty s = true) l ->
  nonempty (String.concat sep l) = true.
Proof.
  intros Hl Hall. destruct l as [|x l]; [congruence|].
  inversion Hall as [|? ? Hx _]; subst.
  destruct l as [|y l]; [exact Hx|].
  rewrite concat_cons_nonnil by discriminate.
  now apply nonempty_append_l.
Qed.

(** Joining the joined groups, without the empty ones, joins all. *)
Lemma concat_groups (groups : list (list string)) :
  Forall (Forall (fun s => nonempty s = true)) groups ->
  List.filter nonempty (List.map (String.concat sep) groups) = []
    <-> List.concat groups = [].
Proof.
  induction 1 as [|g groups Hg _ IH]; [easy|].
  cbn [List.map List.filter List.concat].
  destruct g as [|x g].
  - cbn. exact IH.
  - rewrite (nonempty_concat (x :: g)) by (auto; discriminate).
    split; discriminate.
Qed.

Lemma concat_concat (groups : list (list string)) :
  Forall (Forall (fun s => nonempty s = true)) groups ->
  String.concat sep (List.filter nonempty (List.map (String.concat sep) groups))
  = String.concat sep (List.concat groups).
Proof.
  intros Hall. induction Hall as [|g groups Hg Hrest IH]; [reflexivity|].
  cbn [List.map List.filter List.concat].
  destruct g as [|x g]; [exact IH|].
  rewrite (nonempty_concat (x :: g)) by (auto; discriminate).
  destruct (List.concat groups) as [|p ps] eqn:Hc.
  - apply concat_groups in Hc; [|exact Hrest].
    rewrite Hc, app_nil_r. reflexivity.
  - assert (Hne : List.filter nonempty (List.map (String.concat sep) groups) <> []).
    { intros E. apply concat_groups in E; [congruence | exact Hrest]. }
    rewrite concat_cons_nonnil by exact Hne.
    rewrite concat_app by discriminate.
    now rewrite IH.
Qed.

End Join.

(** ** The query string *)

Lemma encode_pair_nonempty (key : string) (val : JsVal) :
  nonempty (encode_pair key val) = true.
Proof.
  unfold encode_pair. destruct (encodeURIComponent key); reflexivity.
Qed.

Lemma pairs_of_entry_nonempty (params : JsVal) (key : string) :
  Forall (fun s => nonempty s = true) (pairs_of_entry params key).
Proof.
  unfold pairs_of_entry.
  destruct (Js.get params key);
    repeat constructor; try apply encode_pair_nonempty.
  apply List.Forall_forall. intros s Hs. apply in_map_iff in Hs as [v [<- _]].
  apply encode_pair_nonempty.
Qed.

Lemma encode_entry_pairs (params : JsVal) (key : string) :
  encode_entry params key = String.concat "&" (pairs_of_entry params key).
Proof.
  unfold encode_entry, pairs_of_entry.
  destruct (Js.get params key); reflexivity.
Qed.

(** The query string is the rendering of the pairs of the keys, in the
    order of [Object.keys]. *)
Lemma buildQueryString_pairs (params : JsVal) :
  buildQueryString params
  = render_pairs (flat_map (pairs_of_entry params) (Js.keys params)).
Proof.
  unfold buildQueryString.
  destruct (negb (Js.truthy params) || negb (Js.typeof_object params)
            || (List.length (Js.keys params) =? 0)%nat) eqn:Hguard.
  - assert (Hkeys : Js.keys params = []).
    { destruct params as [| | | | |elems|fields|]; try reflexivity.
      - destruct elems; [reflexivity | discriminate].
      - destruct fields; [reflexivity | discriminate]. }
    now rewrite Hkeys.
  - cbv zeta.
    rewrite (map_ext _ _ (encode_entry_pairs params)).
    rewrite <- (List.map_map (pairs_of_entry params) (String.concat "&")).
    rewrite concat_concat.
    2:{ apply List.Forall_forall. intros g Hg.
        apply in_map_iff in Hg as [k [<- _]]. apply pairs_of_entry_nonempty. }
    rewrite <- flat_map_concat_map.
    assert (Hall : Forall (fun s => nonempty s = true)
                     (flat_map (pairs_of_entry params) (Js.keys params))).
    { apply List.Forall_forall. intros s Hs.
      apply in_flat_map in Hs as [k [_ Hs]].
      revert s Hs. apply List.Forall_forall, pairs_of_entry_nonempty. }
    destruct (flat_map (pairs_of_entry params) (Js.keys params)) as [|p ps] eqn:E.
    + reflexivity.
    + rewrite nonempty_concat by (auto; discriminate). reflexivity.
Qed.

Example buildQueryString_sample :
  buildQueryString sample_params = "?page=2&tag=a%20b&tag=c&tag=7&name=x%26y".
Proof. reflexivity. Qed.

Lemma assoc_in_keys (k : string) (fs : list (string * JsVal)) (v : JsVal) :
  Js.assoc k fs = Some v -> In k (List.map fst fs).
Proof.
  induction fs as [|[k' v'] fs IH]; [discriminate|].
  cbn [Js.assoc List.map fst].
  destruct (String.eqb_spec k k') as [->|_]; [now left | right; auto].
Qed.

Lemma get_defined_in_keys (params : JsVal) (key : string) :
  Js.get params key <> JUndefined -> In key (Js.keys params).
Proof.
  unfold Js.get, Js.keys. intros H.
  destruct (Js.assoc key (Js.own_entries params)) eqn:E; [|congruence].
  eapply assoc_in_keys, E.
Qed.

Lemma assoc_remove_other (key k : string) (fs : list (string * JsVal)) :
  k <> key -> Js.assoc k (Js.remove key fs) = Js.assoc k fs.
Proof.
  intros Hne. induction fs as [|[k' v'] fs IH]; [reflexivity|].
  unfold Js.remove in *. cbn [List.filter fst Js.assoc].
  destruct (String.eqb_spec key k') as [<-|Hk]; cbn [negb Js.assoc].
  - destruct (String.eqb_spec k key); [congruence | exact IH].
  - now rewrite IH.
Qed.

Lemma pairs_of_entry_remove (key : string) (fs l : list (string * JsVal)) :
  pairs_of_entry (JObj fs) key = [] ->
  flat_map (pairs_of_entry (JObj fs)) (List.map fst l)
  = flat_map (pairs_of_entry (JObj (Js.remove key fs)))
      (List.map fst (Js.remove key l)).
Proof.
  intros Hkey. induction l as [|[k v] l IH]; [reflexivity|].
  unfold Js.remove in *. cbn [List.map List.filter fst flat_map].
  destruct (String.eqb_spec key k) as [<-|Hk]; cbn [negb].
  - now rewrite Hkey, IH.
  - cbn [List.map fst flat_map]. rewrite IH. f_equal.
    unfold pairs_of_entry, Js.get. cbn [Js.own_entries].
    fold (Js.remove key fs). now rewrite assoc_remove_other by congruence.
Qed.

Lemma count_char_append (c : ascii) (a b : string) :
  count_char c (a +:+ b) = count_char c a + count_char c b.
Proof.
  induction a as [|d a IH]; [reflexivity|].
  change (String d a +:+ b) with (String d (a +:+ b)).
  cbn [count_char]. rewrite IH. apply Nat.add_assoc.
Qed.

(** A byte is encoded without any of the characters that structure a
    query string. *)
Lemma encoded_byte_separators (a : ascii) :
  let encoded := if unreserved a then String a "" else percent_encode a in
  count_char "&" encoded = 0
  /\ count_char "=" encoded = 0
  /\ count_char "?" encoded = 0.
Proof.
  destruct a as [[] [] [] [] [] [] [] []]; vm_compute; repeat split.
Qed.

Lemma encodeURIComponent_separators (s : string) :
  count_char "&" (encodeURIComponent s) = 0
  /\ count_char "=" (encodeURIComponent s) = 0
  /\ count_char "?" (encodeURIComponent s) = 0.
Proof.
  induction s as [|a s [IH1 [IH2 IH3]]]; [now repeat split|].
  cbn [encodeURIComponent]. rewrite !count_char_append, IH1, IH2, IH3.
  destruct (encoded_byte_separators a) as [H1 [H2 H3]]. cbv zeta in H1, H2, H3.
  now rewrite H1, H2, H3.
Qed.

Lemma decode_encoded_byte (c : ascii) (rest : string) :
  decodeURIComponent
    ((if unreserved c then String c "" else percent_encode c) +:+ rest)
  = match decodeURIComponent rest with
    | Some text => Some (String c text)
    | None => None
    end.
Proof. destruct c as [[] [] [] [] [] [] [] []]; reflexivity. Qed.

(** Decoding undoes the encoding, for every string. *)
Lemma decode_encodeURIComponent (s : string) :
  decodeURIComponent (encodeURIComponent s) = Some s.
Proof.
  induction s as [|c s IH]; [reflexivity|].
  cbn [encodeURIComponent]. now rewrite decode_encoded_byte, IH.
Qed.

Lemma count_char_zero_cons (sep c : ascii) (s : string) :
  count_char sep (String c s) = 0 ->
  Ascii.eqb sep c = false /\ count_char sep s = 0.
Proof.
  cbn [count_char]. destruct (Ascii.eqb sep c); [discriminate|].
  now split.
Qed.

Lemma cut_append (sep : ascii) (a b : string) :
  count_char sep a = 0 -> cut sep (a +:+ String sep b) = Some (a, b).
Proof.
  induction a as [|c a IH]; intros Hnone.
  - change (cut sep (String sep b) = Some (EmptyString, b)).
    cbn [cut]. now rewrite Ascii.eqb_refl.
  - apply count_char_zero_cons in Hnone as [Hc Ha].
    change (String c a +:+ String sep b) with (String c (a +:+ String sep b)).
    cbn [cut]. now rewrite Hc, IH.
Qed.

Lemma split_on_none (sep : ascii) (s : string) :
  count_char sep s = 0 -> split_on sep s = [s].
Proof.
  induction s as [|c s IH]; intros Hnone; [reflexivity|].
  apply count_char_zero_cons in Hnone as [Hc Hs].
  cbn [split_on]. now rewrite Hc, IH.
Qed.

Lemma split_on_append (sep : ascii) (a b : string) :
  count_char sep a = 0 ->
  split_on sep (a +:+ String sep b) = a :: split_on sep b.
Proof.
  induction a as [|c a IH]; intros Hnone.
  - change (split_on sep (String sep b) = EmptyString :: split_on sep b).
    cbn [split_on]. now rewrite Ascii.eqb_refl.
  - apply count_char_zero_cons in Hnone as [Hc Ha].
    change (String c a +:+ String sep b) with (String c (a +:+ String sep b)).
    cbn [split_on]. now rewrite Hc, IH.
Qed.

Lemma split_on_concat (sep : ascii) (l : list string) :
  l <> [] ->
  List.Forall (fun s => count_char sep s = 0) l ->
  split_on sep (String.concat (String sep "") l) = l.
Proof.
  intros Hne Hall. induction Hall as [|x l Hx Hl IH]; [congruence|].
  destruct l as [|y l].
  - now apply split_on_none.
  - rewrite concat_cons_nonnil by discriminate.
    change (String sep "" +:+ String.concat (String sep "") (y :: l))
      with (String sep (String.concat (String sep "") (y :: l))).
    rewrite split_on_append by exact Hx.
    now rewrite IH by discriminate.
Qed.

Lemma parse_pair_encode (kv : string * string) :
  parse_pair (encode_text_pair kv) = Some kv.
Proof.
  destruct kv as [k v]. unfold parse_pair, encode_text_pair. cbn [fst snd].
  change ("=" +:+ encodeURIComponent v) with (String "=" (encodeURIComponent v)).
  rewrite cut_append by apply encodeURIComponent_separators.
  now rewrite !decode_encodeURIComponent.
Qed.

Lemma encode_text_pair_separator (kv : string * string) :
  count_char "&" (encode_text_pair kv) = 0.
Proof.
  unfold encode_text_pair. rewrite !count_char_append.
  destruct (encodeURIComponent_separators (fst kv)) as [-> _].
  now destruct (encodeURIComponent_separators (snd kv)) as [-> _].
Qed.

Lemma parse_pairs_encode (kvs : list (string * string)) :
  parse_pairs (List.map encode_text_pair kvs) = Some kvs.
Proof.
  induction kvs as [|kv kvs IH]; [reflexivity|].
  cbn [List.map parse_pairs]. now rewrite parse_pair_encode, IH.
Qed.

(** What is read back from the rendering of encoded pairs is the pairs. *)
Lemma parse_render_pairs (kvs : list (string * string)) :
  parse_query (render_pairs (List.map encode_text_pair kvs)) = Some kvs.
Proof.
  destruct kvs as [|kv kvs]; [reflexivity|].
  change (render_pairs (List.map encode_text_pair (kv :: kvs)))
    with (String "?"
            (String.concat "&" (List.map encode_text_pair (kv :: kvs)))).
  cbn [parse_query]. rewrite Ascii.eqb_refl.
  rewrite split_on_concat.
  - apply parse_pairs_encode.
  - discriminate.
  - apply List.Forall_forall. intros s Hs.
    apply in_map_iff in Hs as [kv' [<- _]]. apply encode_text_pair_separator.
Qed.

Lemma pairs_of_entry_entries (params : JsVal) (key : string) :
  pairs_of_entry params key
  = List.map encode_text_pair (entries_of params key).
Proof.
  unfold pairs_of_entry, entries_of.
  destruct (Js.get params key); try reflexivity.
  now rewrite List.map_map.
Qed.

Lemma flat_map_pairs_entries (params : JsVal) (keys : list string) :
  flat_map (pairs_of_entry params) keys
  = List.map encode_text_pair (flat_map (entries_of params) keys).
Proof.
  induction keys as [|key keys IH]; [reflexivity|].
  cbn [flat_map]. now rewrite List.map_app, IH, pairs_of_entry_entries.
Qed.

Lemma in_split_first (key : string) (l : list string) :
  In key l ->
  exists before after, l = before ++ key :: after /\ ~ In key before.
Proof.
  induction l as [|k l IH]; [contradiction|].
  intros Hin. destruct (String.eqb_spec k key) as [->|Hne].
  - exists [], l. split; [reflexivity | intros []].
  - destruct Hin as [Heq|Hin]; [contradiction|].
    destruct (IH Hin) as [before [after [-> Hfirst]]].
    exists (k :: before), after. split; [reflexivity|].
    intros [Heq|Hin']; [contradiction | now apply Hfirst].
Qed.

(** C5: for a key of the param mapping whose value is an array, the query
    string holds one pair for each element of the array, next to one
    another and in the order of the array, right after the pairs of the
    keys before it and before those of the keys after it.  The pair of an
    element is the encoded key, an [=] and the encoded element as a string;
    and reading the query string back, by cutting it at each [&] and each
    pair at its [=] and decoding both sides, gives for each element the key
    itself and the element as a string. *)
Theorem buildQueryString_array_pairs_in_order
    (params : JsVal) (key : string) (vals : list JsVal) :
  Js.get params key = JArr vals ->
  exists before after : list string,
    Js.keys params = before ++ key :: after
    /\ ~ In key before
    /\ buildQueryString params
       = render_pairs
           (flat_map (pairs_of_entry params) before
            ++ List.map
                 (fun v =>
                    encodeURIComponent key +:+ "="
                    +:+ encodeURIComponent (Js.to_string v)) vals
            ++ flat_map (pairs_of_entry params) after)
    /\ parse_query (buildQueryString params)
       = Some (flat_map (entries_of params) before
               ++ List.map (fun v => (key, Js.to_string v)) vals
               ++ flat_map (entries_of params) after).
Proof.
  intros Hget.
  assert (Hin : In key (Js.keys params)).
  { apply get_defined_in_keys. rewrite Hget. discriminate. }
  apply in_split_first in Hin as [before [after [Hkeys Hfirst]]].
  exists before, after. split; [exact Hkeys|]. split; [exact Hfirst|].
  split.
  - rewrite buildQueryString_pairs, Hkeys, flat_map_app.
    cbn [flat_map]. unfold pairs_of_entry at 2. now rewrite Hget.
  - rewrite buildQueryString_pairs, flat_map_pairs_entries, parse_render_pairs.
    rewrite Hkeys, flat_map_app. cbn [flat_map].
    unfold entries_of at 2. now rewrite Hget.
Qed.

Lemma buildQueryString_array_pairs_in_order_witness :
  Js.get sample_params "tag" = JArr [JStr "a b"; JStr "c"; JNum 7]
  /\ buildQueryString sample_params
     = "?page=2&tag=a%20b&tag=c&tag=7&name=x%26y"
  /\ parse_query (buildQueryString sample_params)
     = Some [("page", "2"); ("tag", "a b"); ("tag", "c"); ("tag", "7");
             ("name", "x&y")].
Proof.
  split; [reflexivity|].
  destruct (buildQueryString_array_pairs_in_order sample_params "tag"
              [JStr "a b"; JStr "c"; JNum 7] eq_refl)
    as [before [after [Hkeys [Hfirst [Htext Hparse]]]]].
  assert (Hsplit : before = ["page"] /\ after = ["q"; "sort"; "name"]).
  { destruct before as [|b0 [|b1 before]].
    - discriminate Hkeys.
    - injection Hkeys as <- <-. now split.
    - injection Hkeys as <- <- _. contradiction Hfirst. right. now left. }
  destruct Hsplit as [-> ->].
  split; [rewrite Htext | rewrite Hparse]; reflexivity.
Defined.

(** C6: a key whose value is [null] or [undefined] contributes no pair (the
    query string is that of the mapping without the key), and the empty
    mapping and an absent one give the empty string, without a [?]. *)
Theorem buildQueryString_skips_nullish
    (fields : list (string * JsVal)) (key : string) :
  Js.nullish (Js.get (JObj fields) key) = true ->
  buildQueryString (JObj fields) = buildQueryString (JObj (Js.remove key fields))
  /\ buildQueryString (JObj []) = ""
  /\ buildQueryString JUndefined = ""
  /\ buildQueryString JNull = "".
Proof.
  intros Hnull. split; [|repeat split].
  rewrite !buildQueryString_pairs. f_equal.
  apply pairs_of_entry_remove.
  unfold pairs_of_entry. destruct (Js.get (JObj fields) key); easy.
Qed.

Lemma buildQueryString_skips_nullish_witness :
  Js.nullish (Js.get sample_params "q") = true
  /\ buildQueryString sample_params
     = buildQueryString
         (JObj (Js.remove "q" (Js.own_entries sample_params)))
  /\ buildQueryString sample_params
     = "?page=2&tag=a%20b&tag=c&tag=7&name=x%26y".
Proof.
  split; [reflexivity|]. split; [|reflexivity].
  apply (buildQueryString_skips_nullish (Js.own_entries sample_params) "q").
  reflexivity.
Defined.

(** ** The response interceptors *)

Lemma eq_num_true (v : JsVal) (n : Z) : Js.eq_num v n = true <-> v = JNum n.
Proof.
  destruct v; cbn; try (split; [discriminate | congruence]).
  rewrite Z.eqb_eq. split; congruence.
Qed.

Lemma eq_false_true (v : JsVal) : Js.eq_false v = true <-> v = JBool false.
Proof.
  destruct v as [| |[|]| | | | |]; cbn; split; congruence.
Qed.

Lemma hasSuccess_spec (body : JsVal) :
  NextInstance.hasSuccess body = true <-> is_success_envelope body.
Proof.
  unfold NextInstance.hasSuccess, is_success_envelope.
  rewrite andb_true_iff, orb_true_iff, !eq_num_true, eq_false_true.
  reflexivity.
Qed.

(** C1, as the claim words it, fails on the code.  A body without a [data]
    field that otherwise reads as a success is let through by both
    variants; a success is answered with the response (second variant) or
    the whole body (first variant), not with the [data] of the envelope;
    a failure without a message is raised as ["Unknown API error"]. *)
Lemma response_interceptor_counterexample :
  let res := {| res_status := 200; res_data := envelope_without_data |} in
  let ok := {| res_status := 200; res_data := envelope_ok |} in
  let failed :=
    {| res_status := 200;
       res_data := JObj [("statusCode", JNum 500); ("error", JBool true)] |} in
  (Js.has "data" (res_data res) = false
   /\ ~ (exists e, NextInstance.response_fulfilled res = Throw e)
   /\ ~ (exists e, ViteInstance.response_fulfilled res = Throw e))
  /\ (is_success_envelope (res_data ok)
      /\ ViteInstance.response_fulfilled ok <> Return (Js.get (res_data ok) "data")
      /\ NextInstance.response_fulfilled ok = Return ok)
  /\ (Js.get (res_data failed) "message" = JUndefined
      /\ NextInstance.response_fulfilled failed
         = Throw (Error "Unknown API error")).
Proof.
  cbv zeta. repeat split; try reflexivity;
    try (intros [e H]; discriminate H); try discriminate; now left.
Qed.

(** C1, amended.  Second variant: a falsy body raises ["Error in response"];
    a truthy body that is a success envelope gives back the response (whose
    body the instance then hands on); any other truthy body raises an error
    whose message is the envelope's [message] when that is truthy and
    ["Unknown API error"] otherwise.  First variant: a falsy body raises the
    same error, and a truthy body under HTTP status 200 or 201 is returned. *)
Theorem response_interceptor_rule (res : AxiosResponse) :
  (Js.truthy (res_data res) = false ->
     NextInstance.response_fulfilled res = Throw (Error "Error in response")
     /\ ViteInstance.response_fulfilled res = Throw (Error "Error in response"))
  /\ (Js.truthy (res_data res) = true ->
      is_success_envelope (res_data res) ->
      NextInstance.response_fulfilled res = Return res)
  /\ (Js.truthy (res_data res) = true ->
      ~ is_success_envelope (res_data res) ->
      NextInstance.response_fulfilled res
      = Throw (Error (if Js.truthy (Js.get (res_data res) "message")
                      then Js.to_string (Js.get (res_data res) "message")
                      else "Unknown API error")))
  /\ (Js.truthy (res_data res) = true ->
      res_status res = 200%Z \/ res_status res = 201%Z ->
      ViteInstance.response_fulfilled res = Return (res_data res)).
Proof.
  unfold NextInstance.response_fulfilled, ViteInstance.response_fulfilled.
  split; [|split; [|split]].
  - intros ->. split; reflexivity.
  - intros -> Hs. apply hasSuccess_spec in Hs. now rewrite Hs.
  - intros -> Hs. cbn [negb].
    destruct (NextInstance.hasSuccess (res_data res)) eqn:E.
    + apply hasSuccess_spec in E. contradiction.
    + reflexivity.
  - intros -> [-> | ->]; reflexivity.
Qed.

Lemma response_interceptor_rule_witness :
  NextInstance.response_fulfilled {| res_status := 200; res_data := JStr "" |}
  = Throw (Error "Error in response")
  /\ NextInstance.response_fulfilled
       {| res_status := 200; res_data := envelope_ok |}
     = Return {| res_status := 200; res_data := envelope_ok |}
  /\ NextInstance.response_fulfilled
       {| res_status := 200; res_data := envelope_not_found |}
     = Throw (Error "not found")
  /\ ViteInstance.response_fulfilled
       {| res_status := 201; res_data := envelope_ok |}
     = Return envelope_ok.
Proof.
  split; [|split; [|split]].
  - apply (response_interceptor_rule {| res_status := 200; res_data := JStr "" |}).
    reflexivity.
  - apply (response_interceptor_rule {| res_status := 200; res_data := envelope_ok |}).
    + reflexivity.
    + split; [now left | reflexivity].
  - apply (response_interceptor_rule
             {| res_status := 200; res_data := envelope_not_found |}).
    + reflexivity.
    + intros [[H | H] _]; discriminate H.
  - apply (response_interceptor_rule {| res_status := 201; res_data := envelope_ok |}).
    + reflexivity.
    + now right.
Defined.

(** C4, as the claim words it, fails on the first variant, whose redirect
    is commented out: after a 401 the page is where it was. *)
Lemma unauthorized_redirect_counterexample :
  status_is unauthorized_error 401 = true
  /\ location_href
       (snd (ViteInstance.response_rejected unauthorized_error sample_world))
     = "/orders"
  /\ location_href
       (snd (ViteInstance.response_rejected unauthorized_error sample_world))
     <> "/login".
Proof. split; [reflexivity | split; [reflexivity | discriminate]]. Qed.

(** C4, amended.  On an error whose response has status 401 the first
    variant empties the local storage, leaves the location alone and
    raises the same error again.  The second variant, in a browser, first
    awaits the sign-out: once that has completed it empties the local
    storage, sets the location to [/login] and raises the same error again;
    when the sign-out itself fails, the error of the sign-out is raised in
    place of the 401, in the state the sign-out left, and nothing is
    emptied or redirected.  Outside a browser the second variant only
    raises the error again. *)
Theorem unauthorized_clears_session (env : Env) (error : JsError) (w : World) :
  status_is error 401 = true ->
  (exists w',
      ViteInstance.response_rejected error w = (Throw error, w')
      /\ localStorage w' = ∅
      /\ location_href w' = location_href w)
  /\ (has_window env = true ->
      forall w1, signOut env w = (Return tt, w1) ->
      exists w',
        NextInstance.response_rejected env error w = (Throw error, w')
        /\ localStorage w' = ∅
        /\ location_href w' = "/login")
  /\ (has_window env = true ->
      forall e w1, signOut env w = (Throw e, w1) ->
      NextInstance.response_rejected env error w = (Throw e, w1))
  /\ (has_window env = false ->
      NextInstance.response_rejected env error w = (Throw error, w)).
Proof.
  intros H401. split; [|split; [|split]].
  - exists (set_localStorage ∅ w).
    unfold ViteInstance.response_rejected, bind, when, modify, throw.
    rewrite H401. repeat split.
  - intros Hwin w1 Hout.
    exists (set_location_href "/login" (set_localStorage ∅ w1)).
    unfold NextInstance.response_rejected, bind, when, modify, throw.
    rewrite H401, Hwin, Hout. repeat split.
  - intros Hwin e w1 Hout.
    unfold NextInstance.response_rejected, bind, when, modify, throw.
    now rewrite H401, Hwin, Hout.
  - intros Hwin.
    unfold NextInstance.response_rejected, bind, when, ret, throw.
    now rewrite H401, Hwin.
Qed.

Lemma unauthorized_clears_session_witness :
  status_is unauthorized_error 401 = true
  /\ (exists w',
         ViteInstance.response_rejected unauthorized_error sample_world
         = (Throw unauthorized_error, w')
         /\ localStorage w' = ∅
         /\ location_href w' = "/orders")
  /\ (exists w',
         NextInstance.response_rejected
           (sample_env (Rejected unauthorized_error) false)
           unauthorized_error sample_world
         = (Throw unauthorized_error, w')
         /\ localStorage w' = ∅
         /\ location_href w' = "/login")
  /\ NextInstance.response_rejected env_sign_out_fails unauthorized_error
       sample_world
     = (Throw network_error, sample_world).
Proof.
  split; [reflexivity|].
  destruct (unauthorized_clears_session
              (sample_env (Rejected unauthorized_error) false)
              unauthorized_error sample_world eq_refl) as [Hvite [Hnext _]].
  split; [exact Hvite|].
  split; [exact (Hnext eq_refl sample_world eq_refl)|].
  destruct (unauthorized_clears_session env_sign_out_fails unauthorized_error
              sample_world eq_refl) as [_ [_ [Hfails _]]].
  exact (Hfails eq_refl network_error sample_world eq_refl).
Defined.

(** ** The fetch hook *)

Lemma request_interceptor_keeps (env : Env) (config config' : AxiosRequestConfig)
    (w w1 : World) :
  NextInstance.request_interceptor env config w = (Return config', w1) ->
  cfg_method config' = cfg_method config
  /\ cfg_url config' = cfg_url config
  /\ cfg_data config' = cfg_data config.
Proof.
  unfold NextInstance.request_interceptor, bind, ret.
  destruct (has_window env).
  - destruct (getClientToken env w) as [[token|e] w0]; [|discriminate].
    destruct (Js.truthy token);
      destruct (Js.is_form_data _); try destruct (Js.truthy (cfg_data _));
      intros [= <- _]; repeat split.
  - destruct (Js.is_form_data _); try destruct (Js.truthy (cfg_data _));
      intros [= <- _]; repeat split.
Qed.

(** One attempt of the fetch hook against a server that always answers
    with the same response. *)
Lemma queryFn_fulfilled (env : Env) (url : string) (params : JsVal)
    (res : AxiosResponse) (w : World) :
  (forall config0 w0, exists config w1,
      NextInstance.request_interceptor env config0 w0 = (Return config, w1)) ->
  (forall w0 config, transport env w0 config = Fulfilled res) ->
  exists w',
    UseFetchData.queryFn env url params w
    = (match NextInstance.response_fulfilled res with
       | Return r =>
           if Js.eq_num (Js.get (res_data r) "statusCode") 200
           then Return (Js.get (res_data r) "data")
           else Throw (Error (UseFetchData.failure_message (res_data r)))
       | Throw e => Throw e
       end, w').
Proof.
  intros Hreq Hnet.
  unfold UseFetchData.queryFn, NextInstance.get, NextInstance.request,
    NextInstance.axios_request, bind.
  destruct (Hreq (merge_defaults NextInstance.defaults
                    {| cfg_method := "GET";
                       cfg_url := url +:+ buildQueryString params;
                       cfg_data := JUndefined; cfg_headers := [] |}) w)
    as [config [w1 Hcfg]].
  rewrite Hcfg, Hnet. exists (add_request config w1).
  destruct (NextInstance.response_fulfilled res) as [r|e]; [|reflexivity].
  unfold ret, throw.
  destruct (Js.eq_num (Js.get (res_data r) "statusCode") 200); reflexivity.
Qed.

Lemma queryFn_rejected (env : Env) (url : string) (params : JsVal)
    (err : JsError) (w : World) :
  (forall config0 w0, exists config w1,
      NextInstance.request_interceptor env config0 w0 = (Return config, w1)) ->
  (forall w0 config, transport env w0 config = Rejected err) ->
  status_is err 401 = false ->
  exists w', UseFetchData.queryFn env url params w = (Throw err, w').
Proof.
  intros Hreq Hnet Hstatus.
  unfold UseFetchData.queryFn, NextInstance.get, NextInstance.request,
    NextInstance.axios_request, bind.
  destruct (Hreq (merge_defaults NextInstance.defaults
                    {| cfg_method := "GET";
                       cfg_url := url +:+ buildQueryString params;
                       cfg_data := JUndefined; cfg_headers := [] |}) w)
    as [config [w1 Hcfg]].
  rewrite Hcfg, Hnet. exists (add_request config w1).
  unfold NextInstance.response_rejected, bind, when, ret, throw.
  now rewrite Hstatus.
Qed.

(** C7, as the claim words it, fails when the server sends the envelope
    [{statusCode: 404, error: true, message: "not found"}] under the HTTP
    status 404: the transport rejects the request, the response goes to the
    error handler, and the hook rejects with the transport's error, whose
    message is not ["not found"]. *)
Lemma useFetchData_http_404_counterexample :
  err_response not_found_error
  = Some {| res_status := 404; res_data := envelope_not_found |}
  /\ UseFetchData.useFetchData (sample_env (Rejected not_found_error) true)
       "users" sample_params 1 sample_world
     = (Throw not_found_error,
        snd (UseFetchData.useFetchData
               (sample_env (Rejected not_found_error) true)
               "users" sample_params 1 sample_world))
  /\ err_message not_found_error = "Request failed with status code 404"
  /\ err_message not_found_error <> "not found".
Proof.
  split; [reflexivity|]. split; [reflexivity|].
  split; [reflexivity | discriminate].
Qed.

(** C7, amended.  When every request gets a response that reaches the
    success handler and whose body is the envelope
    [{statusCode: 200, error: false, data: {id: 1}}], the fetch hook
    resolves with [{id: 1}]; when the body of such a response is
    [{statusCode: 404, error: true, message: "not found"}], the hook
    rejects, after its retries, with an error whose message is
    ["not found"].  When the transport rejects every request with an error
    whose response is not a 401, as it does for an HTTP error status, the
    hook rejects, after its retries, with that error itself, whatever
    envelope the body holds. *)
Theorem useFetchData_envelopes
    (env : Env) (url : string) (params : JsVal) (retry : nat) (status : Z)
    (w : World) :
  (forall config0 w0, exists config w1,
      NextInstance.request_interceptor env config0 w0 = (Return config, w1)) ->
  ((forall w0 config,
       transport env w0 config
       = Fulfilled {| res_status := status; res_data := envelope_ok |}) ->
   exists w',
     UseFetchData.useFetchData env url params retry w
     = (Return (JObj [("id", JNum 1)]), w'))
  /\ ((forall w0 config,
         transport env w0 config
         = Fulfilled {| res_status := status; res_data := envelope_not_found |}) ->
      exists e w',
        UseFetchData.useFetchData env url params retry w = (Throw e, w')
        /\ err_message e = "not found")
  /\ (forall err,
        (forall w0 config, transport env w0 config = Rejected err) ->
        status_is err 401 = false ->
        exists w',
          UseFetchData.useFetchData env url params retry w = (Throw err, w')).
Proof.
  intros Hreq.
  unfold UseFetchData.useFetchData. split; [|split].
  - intros Hnet.
    destruct (queryFn_fulfilled env url params _ w Hreq Hnet) as [w' Hrun].
    exists w'. destruct retry; cbn [UseFetchData.run_query]; now rewrite Hrun.
  - intros Hnet. revert w. induction retry as [|retry IH]; intros w;
      destruct (queryFn_fulfilled env url params _ w Hreq Hnet) as [w1 Hrun];
      cbn [UseFetchData.run_query]; rewrite Hrun.
    + exists (Error "not found"), w1. split; reflexivity.
    + apply IH.
  - intros err Hnet Hstatus. revert w.
    induction retry as [|retry IH]; intros w;
      destruct (queryFn_rejected env url params err w Hreq Hnet Hstatus)
        as [w1 Hrun];
      cbn [UseFetchData.run_query]; rewrite Hrun.
    + now exists w1.
    + apply IH.
Qed.

Lemma sample_env_request_interceptor (answer : Settled) (confirmed : bool)
    (config0 : AxiosRequestConfig) (w0 : World) :
  exists config w1,
    NextInstance.request_interceptor (sample_env answer confirmed) config0 w0
    = (Return config, w1).
Proof.
  unfold NextInstance.request_interceptor, sample_env, bind, ret. cbn.
  destruct (Js.is_form_data (cfg_data config0));
    [|destruct (Js.truthy (cfg_data config0))]; eauto.
Qed.

Lemma useFetchData_envelopes_witness :
  let env_ok :=
    sample_env (Fulfilled {| res_status := 200; res_data := envelope_ok |}) true in
  let env_missing :=
    sample_env
      (Fulfilled {| res_status := 200; res_data := envelope_not_found |}) true in
  (exists w',
      UseFetchData.useFetchData env_ok "users" sample_params 1 sample_world
      = (Return (JObj [("id", JNum 1)]), w'))
  /\ (exists e w',
         UseFetchData.useFetchData env_missing "users" sample_params 1
           sample_world
         = (Throw e, w')
         /\ err_message e = "not found")
  /\ exists w',
       UseFetchData.useFetchData (sample_env (Rejected not_found_error) true)
         "users" sample_params 1 sample_world
       = (Throw not_found_error, w').
Proof.
  cbv zeta. split; [|split].
  - destruct (useFetchData_envelopes
                (sample_env
                   (Fulfilled {| res_status := 200; res_data := envelope_ok |})
                   true)
                "users" sample_params 1 200 sample_world
                (sample_env_request_interceptor _ _)) as [Hok _].
    exact (Hok (fun _ _ => eq_refl)).
  - destruct (useFetchData_envelopes
                (sample_env
                   (Fulfilled
                      {| res_status := 200; res_data := envelope_not_found |})
                   true)
                "users" sample_params 1 200 sample_world
                (sample_env_request_interceptor _ _)) as [_ [Hmissing _]].
    exact (Hmissing (fun _ _ => eq_refl)).
  - destruct (useFetchData_envelopes
                (sample_env (Rejected not_found_error) true)
                "users" sample_params 1 200 sample_world
                (sample_env_request_interceptor _ _)) as [_ [_ Hrejected]].
    exact (Hrejected not_found_error (fun _ _ => eq_refl) eq_refl).
Defined.

(** ** The replace hook *)

Lemma is_keyed_spec (variables : JsVal) :
  UsePutData.is_keyed variables = true
  <-> Js.typeof_object variables = true /\ variables <> JNull
      /\ Js.has "id" variables = true /\ Js.has "payload" variables = true.
Proof.
  unfold UsePutData.is_keyed. rewrite !andb_true_iff, negb_true_iff.
  assert (Hnull : Js.is_null variables = false <-> variables <> JNull).
  { destruct variables; cbn; split; congruence. }
  rewrite Hnull. tauto.
Qed.

(** What follows the [await] of the request leaves the network alone. *)
Lemma usePutData_mutationFn_requests
    (put : string -> JsVal -> list (string * string) -> M JsVal)
    (o : UsePutData.Options) (variables : JsVal) (w : World) :
  requests (snd (UsePutData.usePutData_mutationFn put o variables w))
  = requests
      (snd (put (UsePutData.finalUrl (UsePutData.url o) variables)
              (UsePutData.requestData variables) (UsePutData.headers o) w)).
Proof.
  unfold UsePutData.usePutData_mutationFn, bind.
  destruct (put _ _ _ w) as [[response|e] w1]; [|reflexivity].
  destruct (_ || _); [destruct (UsePutData.isShowMessage o); reflexivity|].
  destruct (Js.eq_num _ 400); [reflexivity|].
  destruct (Js.eq_num _ 401); reflexivity.
Qed.

Lemma request_interceptor_vite_keeps (config : AxiosRequestConfig) :
  cfg_method (ViteInstance.request_interceptor config) = cfg_method config
  /\ cfg_url (ViteInstance.request_interceptor config) = cfg_url config
  /\ cfg_data (ViteInstance.request_interceptor config) = cfg_data config.
Proof.
  unfold ViteInstance.request_interceptor. cbn [with_header cfg_data].
  destruct (Js.is_form_data _); [|destruct (Js.truthy _)]; repeat split.
Qed.

(** C3, as the claim words it, fails for a composite whose [id] is falsy:
    the URL stays as configured and no ["/"] is appended. *)
Lemma finalUrl_empty_id_counterexample :
  UsePutData.is_keyed keyed_variables_empty_id = true
  /\ UsePutData.finalUrl "users" keyed_variables_empty_id = "users"
  /\ UsePutData.finalUrl "users" keyed_variables_empty_id
     <> "users" +:+ "/" +:+ Js.to_string (Js.get keyed_variables_empty_id "id").
Proof. split; [reflexivity | split; [reflexivity | discriminate]]. Qed.

(** C3, amended.  When the variables are a non-null object with both an
    [id] and a [payload] field, the body of the request is the [payload]
    field and the URL is the configured one followed by ["/"] and the [id]
    if the [id] is truthy, and the configured one unchanged if it is falsy;
    otherwise the URL is the configured one and the body is the variables
    themselves.  That URL and body are what both files hand to the
    network, by PUT. *)
Theorem usePutData_request_shape
    (env : Env) (o : UsePutData.Options) (variables : JsVal) (w : World) :
  let target := UsePutData.finalUrl (UsePutData.url o) variables in
  let body := UsePutData.requestData variables in
  (UsePutData.is_keyed variables = true ->
   body = Js.get variables "payload"
   /\ target
      = if Js.truthy (Js.get variables "id")
        then UsePutData.url o +:+ "/" +:+ Js.to_string (Js.get variables "id")
        else UsePutData.url o)
  /\ (UsePutData.is_keyed variables = false ->
      target = UsePutData.url o /\ body = variables)
  /\ (exists config,
         requests
           (snd (UsePutData.usePutData_mutationFn
                   (UsePutData.legacy_put env) o variables w))
         = requests w ++ [config]
         /\ cfg_method config = "PUT"
         /\ cfg_url config = target
         /\ cfg_data config = body)
  /\ (forall config w1,
         NextInstance.request_interceptor env
           (merge_defaults NextInstance.defaults
              {| cfg_method := "PUT"; cfg_url := target; cfg_data := body;
                 cfg_headers := UsePutData.headers o |}) w
         = (Return config, w1) ->
         cfg_method config = "PUT"
         /\ cfg_url config = target
         /\ cfg_data config = body
         /\ forall res,
              transport env w1 config = Fulfilled res ->
              requests
                (snd (UsePutData.usePutData_mutationFn
                        (NextInstance.put env) o variables w))
              = requests w1 ++ [config]).
Proof.
  cbv zeta. split; [|split; [|split]].
  - intros Hk. unfold UsePutData.requestData, UsePutData.finalUrl.
    rewrite Hk. split; reflexivity.
  - intros Hk. unfold UsePutData.requestData, UsePutData.finalUrl.
    rewrite Hk. split; reflexivity.
  - rewrite usePutData_mutationFn_requests.
    unfold UsePutData.legacy_put, ViteInstance.put, ViteInstance.request,
      ViteInstance.axios_request.
    set (sent := ViteInstance.request_interceptor _).
    exists sent. split.
    + destruct (transport env w sent); [reflexivity|].
      unfold ViteInstance.response_rejected, bind, when, modify, throw, ret.
      destruct (status_is err 401); reflexivity.
    + subst sent. apply request_interceptor_vite_keeps.
  - intros config w1 Hreq.
    destruct (request_interceptor_keeps _ _ _ _ _ Hreq) as [Hm [Hu Hd]].
    repeat (split; [assumption|]).
    intros res Hres. rewrite usePutData_mutationFn_requests.
    unfold NextInstance.put, NextInstance.request, NextInstance.axios_request,
      bind.
    rewrite Hreq, Hres.
    destruct (NextInstance.response_fulfilled res); reflexivity.
Qed.

Lemma usePutData_request_shape_witness :
  UsePutData.is_keyed keyed_variables = true
  /\ UsePutData.requestData keyed_variables = JObj [("x", JNum 1)]
  /\ UsePutData.finalUrl "users" keyed_variables = "users/42"
  /\ UsePutData.is_keyed (JObj [("x", JNum 1)]) = false
  /\ UsePutData.finalUrl "users" (JObj [("x", JNum 1)]) = "users"
  /\ UsePutData.requestData (JObj [("x", JNum 1)]) = JObj [("x", JNum 1)].
Proof.
  pose proof (usePutData_request_shape
                (sample_env (Rejected network_error) false)
                sample_put_options keyed_variables sample_world) as Hkeyed.
  pose proof (usePutData_request_shape
                (sample_env (Rejected network_error) false)
                sample_put_options (JObj [("x", JNum 1)]) sample_world) as Hbare.
  cbv zeta in Hkeyed, Hbare.
  destruct Hkeyed as [Hkeyed _]. destruct Hbare as [_ [Hbare _]].
  destruct (Hkeyed eq_refl) as [Hbody Htarget].
  destruct (Hbare eq_refl) as [Hurl Hsame].
  split; [reflexivity|].
  split; [exact Hbody|].
  split; [exact Htarget|].
  split; [reflexivity|].
  split; [exact Hurl | exact Hsame].
Defined.

Lemma eq_num_false (v : JsVal) (n : Z) : Js.eq_num v n = false <-> v <> JNum n.
Proof.
  rewrite <- eq_num_true. destruct (Js.eq_num v n); split; congruence.
Qed.

(** C9, as the claim words it, fails for an envelope with status code 401:
    the error carries the fixed message ["Unauthorized"], not the message
    of the envelope. *)
Lemma usePutData_unauthorized_message_counterexample :
  let env :=
    sample_env
      (Fulfilled {| res_status := 200; res_data := envelope_unauthorized |})
      true in
  Js.get envelope_unauthorized "message" = JStr "Token expired"
  /\ fst (Mutation.execute (UsePutData.legacy env sample_put_options)
            keyed_variables sample_world)
     = Throw (assign_statusCode (Error "Unauthorized") 401)
  /\ err_message (assign_statusCode (Error "Unauthorized") 401)
     <> "Token expired".
Proof. split; [reflexivity | split; [reflexivity | discriminate]]. Qed.

(** Behind the second instance a failing envelope never reaches the hook:
    the interceptor raises first, and the error has no [statusCode]. *)
Lemma usePutData_api_bad_request_unannotated :
  let env :=
    sample_env
      (Fulfilled {| res_status := 200; res_data := envelope_bad_request |})
      true in
  fst (Mutation.execute
         (UsePutData.api env (fun e => JStr (err_message e))
            (JStr "notification/list") sample_put_options)
         keyed_variables sample_world)
  = Throw (Error "Name is required").
Proof. reflexivity. Qed.

(** With the hook's own handlers an error of [mutationFn] is shown in a
    toast and reaches the caller as it is. *)
Lemma usePutData_execute_throws
    (put : string -> JsVal -> list (string * string) -> M JsVal)
    (description : JsError -> JsVal) (always_refetched : option JsVal)
    (o : UsePutData.Options) (variables : JsVal) (w w1 : World)
    (err : JsError) :
  UsePutData.mutationOptions o = no_options ->
  UsePutData.onError_cb o = None ->
  UsePutData.usePutData_mutationFn put o variables w = (Throw err, w1) ->
  Mutation.execute (UsePutData.usePutData put description always_refetched o)
    variables w
  = (Throw err, add_toast (ToastError (description err)) w1).
Proof.
  intros Hopts Hcb Hfn.
  unfold Mutation.execute, Mutation.fail, Mutation.run_onMutate,
    Mutation.run_mutationFn, Mutation.run_onError, UsePutData.usePutData,
    spread, ret, bind.
  rewrite Hopts. cbn [onMutate mutationFn onError no_options or_else].
  rewrite Hfn.
  unfold UsePutData.usePutData_onError, bind, modify, throw.
  now rewrite Hcb.
Qed.

(** C9, amended.  With the hook's own handlers in place: when the request
    resolves with a response whose status code is neither 200 nor 201, the
    caller gets an error whose message is the [message] of the response,
    or ["An error occurred while updating data"] when that is [null] or
    [undefined], except for status code 401, where the message is the fixed
    ["Unauthorized"]; the error has a [statusCode] field exactly for the
    status codes 400 and 401.  When the request itself is rejected, the
    caller gets that error unchanged. *)
Theorem usePutData_failure_error
    (put : string -> JsVal -> list (string * string) -> M JsVal)
    (description : JsError -> JsVal) (always_refetched : option JsVal)
    (o : UsePutData.Options) (variables : JsVal) (w : World) :
  UsePutData.mutationOptions o = no_options ->
  UsePutData.onError_cb o = None ->
  (forall response w1,
      put (UsePutData.finalUrl (UsePutData.url o) variables)
        (UsePutData.requestData variables) (UsePutData.headers o) w
      = (Return response, w1) ->
      Js.get response "statusCode" <> JNum 200 ->
      Js.get response "statusCode" <> JNum 201 ->
      let message :=
        if Js.nullish (Js.get response "message")
        then "An error occurred while updating data"
        else Js.to_string (Js.get response "message") in
      exists err,
        Mutation.execute
          (UsePutData.usePutData put description always_refetched o)
          variables w
        = (Throw err, add_toast (ToastError (description err)) w1)
        /\ (Js.get response "statusCode" = JNum 400 ->
            err = assign_statusCode (Error message) 400)
        /\ (Js.get response "statusCode" = JNum 401 ->
            err = assign_statusCode (Error "Unauthorized") 401)
        /\ (Js.get response "statusCode" <> JNum 400 ->
            Js.get response "statusCode" <> JNum 401 ->
            err = Error message))
  /\ (forall e w1,
         put (UsePutData.finalUrl (UsePutData.url o) variables)
           (UsePutData.requestData variables) (UsePutData.headers o) w
         = (Throw e, w1) ->
         Mutation.execute
           (UsePutData.usePutData put description always_refetched o)
           variables w
         = (Throw e, add_toast (ToastError (description e)) w1)).
Proof.
  intros Hopts Hcb. split.
  - intros response w1 Hput H200 H201 message.
    apply eq_num_false in H200, H201.
    assert (Hfn : exists err,
               UsePutData.usePutData_mutationFn put o variables w
               = (Throw err, w1)
               /\ (Js.get response "statusCode" = JNum 400 ->
                   err = assign_statusCode (Error message) 400)
               /\ (Js.get response "statusCode" = JNum 401 ->
                   err = assign_statusCode (Error "Unauthorized") 401)
               /\ (Js.get response "statusCode" <> JNum 400 ->
                   Js.get response "statusCode" <> JNum 401 ->
                   err = Error message)).
    { unfold UsePutData.usePutData_mutationFn, bind.
      rewrite Hput, H200, H201. cbn [orb].
      assert (Hmessage : Js.to_string (UsePutData.errorMessage response)
                         = message).
      { unfold UsePutData.errorMessage. subst message.
        now destruct (Js.nullish (Js.get response "message")). }
      rewrite Hmessage.
      destruct (Js.eq_num (Js.get response "statusCode") 400) eqn:H400;
        [|destruct (Js.eq_num (Js.get response "statusCode") 401) eqn:H401].
      - apply eq_num_true in H400.
        exists (assign_statusCode (Error message) 400).
        split; [reflexivity|]. rewrite H400.
        split; [reflexivity|]. split; [discriminate | congruence].
      - apply eq_num_true in H401.
        exists (assign_statusCode (Error "Unauthorized") 401).
        split; [reflexivity|]. rewrite H401.
        split; [discriminate|]. split; [reflexivity | congruence].
      - apply eq_num_false in H400, H401.
        exists (Error message).
        split; [reflexivity|]. split; [congruence|].
        split; [congruence | reflexivity]. }
    destruct Hfn as [err [Hfn Hshape]]. exists err.
    split; [now apply usePutData_execute_throws | exact Hshape].
  - intros e w1 Hput. apply usePutData_execute_throws; try assumption.
    unfold UsePutData.usePutData_mutationFn, bind. now rewrite Hput.
Qed.

Lemma usePutData_failure_error_witness :
  let env :=
    sample_env
      (Fulfilled {| res_status := 200; res_data := envelope_bad_request |})
      true in
  UsePutData.mutationOptions sample_put_options = no_options
  /\ UsePutData.onError_cb sample_put_options = None
  /\ exists err w',
       Mutation.execute (UsePutData.legacy env sample_put_options)
         keyed_variables sample_world
       = (Throw err, w')
       /\ err = assign_statusCode (Error "Name is required") 400.
Proof.
  cbv zeta. split; [reflexivity|]. split; [reflexivity|].
  destruct (usePutData_failure_error
              (UsePutData.legacy_put
                 (sample_env
                    (Fulfilled
                       {| res_status := 200; res_data := envelope_bad_request |})
                    true))
              (fun error => JStr (err_message error)) None
              sample_put_options keyed_variables sample_world
              eq_refl eq_refl) as [Hresolved _].
  edestruct (Hresolved envelope_bad_request) as [err [Hrun [H400 _]]].
  - reflexivity.
  - discriminate.
  - discriminate.
  - exists err. eexists. split; [exact Hrun|]. exact (H400 eq_refl).
Defined.

(** ** The mutation lifecycle and the optimistic hooks *)

(** How a run can fail: at [onMutate], with no context yet, or later, with
    the context that [onMutate] returned; either way through [fail]. *)
Lemma execute_throws (options : MutationOptions) (variables : JsVal)
    (w w' : World) (e : JsError) :
  Mutation.execute options variables w = (Throw e, w') ->
  exists e0 context w0,
    Mutation.fail options e0 variables context w0 = (Throw e, w')
    /\ ((Mutation.run_onMutate options variables w = (Throw e0, w0)
         /\ context = JUndefined)
        \/ exists w1,
            Mutation.run_onMutate options variables w = (Return context, w1)
            /\ (Mutation.run_mutationFn options variables w1 = (Throw e0, w0)
                \/ exists data w2,
                    Mutation.run_mutationFn options variables w1
                    = (Return data, w2)
                    /\ Mutation.run_onSuccess options data variables context w2
                       = (Throw e0, w0))).
Proof.
  unfold Mutation.execute.
  destruct (Mutation.run_onMutate options variables w)
    as [[context|e0] w1] eqn:Hmutate.
  - destruct (Mutation.run_mutationFn options variables w1)
      as [[data|e1] w2] eqn:Hfn.
    + destruct (Mutation.run_onSuccess options data variables context w2)
        as [[[]|e2] w3] eqn:Hsuccess; [discriminate|].
      intros Hfail. exists e2, context, w3. split; [exact Hfail|].
      right. exists w1. split; [reflexivity|].
      right. exists data, w2. now split.
    + intros Hfail. exists e1, context, w2. split; [exact Hfail|].
      right. exists w1. split; [reflexivity | now left].
  - intros Hfail. exists e0, JUndefined, w1. split; [exact Hfail|].
    left. now split.
Qed.

Lemma data_set_queryCache (env : Env) (w : World) (queryKey v : JsVal) :
  QueryClient.data env
    (set_queryCache (<[hashKey env queryKey := v]> (queryCache w)) w) queryKey
  = v.
Proof.
  unfold QueryClient.data. cbn [queryCache set_queryCache].
  now rewrite lookup_insert_eq.
Qed.

Lemma setQueryData_data (env : Env) (w : World) (queryKey v : JsVal) :
  v <> JUndefined ->
  exists w',
    QueryClient.setQueryData env queryKey v w = (Return tt, w')
    /\ QueryClient.data env w' queryKey = v
    /\ requests w' = requests w.
Proof.
  intros Hv.
  exists (set_queryCache (<[hashKey env queryKey := v]> (queryCache w)) w).
  split; [|split; [apply data_set_queryCache | reflexivity]].
  destruct v; try reflexivity. congruence.
Qed.

Lemma truthy_defined (v : JsVal) : Js.truthy v = true -> v <> JUndefined.
Proof. intros H ->. discriminate H. Qed.

(** The rollback writes a truthy snapshot back under its key. *)
Lemma rollback_truthy (env : Env) (previousData : JsVal) (queryKey : string)
    (w : World) :
  Js.truthy previousData = true ->
  nonempty queryKey = true ->
  exists w',
    rollback env (snapshot previousData queryKey) w = (Return tt, w')
    /\ QueryClient.data env w' (key_of (JStr queryKey)) = previousData
    /\ requests w' = requests w.
Proof.
  intros Hprev Hkey. unfold rollback.
  change (Js.get (snapshot previousData queryKey) "previousData")
    with previousData.
  change (Js.get (snapshot previousData queryKey) "queryKey")
    with (JStr queryKey).
  rewrite Hprev. change (Js.truthy (JStr queryKey)) with (nonempty queryKey).
  rewrite Hkey. cbn [andb when].
  apply setQueryData_data, truthy_defined, Hprev.
Qed.

(** Without a truthy snapshot the rollback does nothing. *)
Lemma rollback_falsy (env : Env) (context : JsVal) (w : World) :
  Js.truthy (Js.get context "previousData") = false ->
  rollback env context w = (Return tt, w).
Proof. intros H. unfold rollback. now rewrite H. Qed.

Lemma invalidate_each_returns (keys : list string) (w : World) :
  exists w',
    invalidate_each keys w = (Return tt, w')
    /\ queryCache w' = queryCache w /\ requests w' = requests w.
Proof.
  revert w. induction keys as [|key keys IH]; intros w.
  - exists w. now repeat split.
  - cbn [invalidate_each]. unfold bind, QueryClient.invalidateQueries, modify.
    destruct (IH (add_engine_call (InvalidateQueries (key_of (JStr key))) w))
      as [w' [Hrun [Hcache Hreq]]].
    exists w'. now rewrite Hrun.
Qed.

(** A request through the teaching instance leaves the cache alone. *)
Lemma axios_demo_request_queryCache (env : Env) (config : AxiosRequestConfig)
    (w : World) :
  queryCache (snd (AxiosDemo.axios_request env config w)) = queryCache w.
Proof.
  unfold AxiosDemo.axios_request, AxiosDemo.request_interceptor.
  unfold_M.
  destruct (localStorage w !! "demo_token") as [t|];
    [destruct (nonempty t)|];
    match goal with
    | |- context [transport env w ?c] => destruct (transport env w c)
    end; reflexivity.
Qed.

Lemma usePut_onMutate_optimistic (env : Env) (options : UsePut.UsePutOptions)
    (queryKey : string) (rest : list string) (variables : JsVal) (w : World) :
  UsePut.invalidateQueries options = Some (queryKey :: rest) ->
  exists w1,
    UsePut.usePut_onMutate env options variables w
    = (Return (snapshot (QueryClient.data env w (key_of (JStr queryKey)))
                 queryKey), w1)
    /\ requests w1 = requests w
    /\ (variables <> JUndefined ->
        QueryClient.data env w1 (key_of (JStr queryKey)) = variables).
Proof.
  intros Hkeys. unfold UsePut.usePut_onMutate. rewrite Hkeys.
  unfold bind, QueryClient.cancelQueries, QueryClient.getQueryData, modify,
    reads, ret.
  set (w0 := add_engine_call _ w).
  change (QueryClient.data env w0 (key_of (JStr queryKey)))
    with (QueryClient.data env w (key_of (JStr queryKey))).
  destruct variables;
    try (match goal with
         | |- context [QueryClient.setQueryData env ?k ?v w0] =>
             destruct (setQueryData_data env w0 k v ltac:(discriminate))
               as [w1 [Hset [Hdata Hreq]]]
         end;
         exists w1; rewrite Hset;
         split; [reflexivity | split; [exact Hreq | intros _; exact Hdata]]).
  exists w0. split; [reflexivity|]. split; [reflexivity | congruence].
Qed.

Lemma useDelete_onMutate_optimistic (env : Env)
    (options : UseDelete.UseDeleteOptions)
    (queryKey : string) (rest : list string) (id : JsVal) (w : World) :
  UseDelete.invalidateQueries options = Some (queryKey :: rest) ->
  (exists e w1,
      UseDelete.useDelete_onMutate env options id w = (Throw e, w1)
      /\ queryCache w1 = queryCache w /\ requests w1 = requests w)
  \/ (exists w1,
         UseDelete.useDelete_onMutate env options id w
         = (Return (snapshot (QueryClient.data env w (key_of (JStr queryKey)))
                      queryKey), w1)
         /\ requests w1 = requests w).
Proof.
  intros Hkeys. unfold UseDelete.useDelete_onMutate. rewrite Hkeys.
  unfold bind, QueryClient.cancelQueries, QueryClient.setQueryDataWith,
    QueryClient.getQueryData, modify, reads, ret, lift, bind.
  set (w0 := add_engine_call _ w).
  change (QueryClient.data env w0 (key_of (JStr queryKey)))
    with (QueryClient.data env w (key_of (JStr queryKey))).
  destruct (UseDelete.remove_item id _) as [updated|e].
  - right.
    destruct updated;
      try (match goal with
           | |- context [QueryClient.setQueryData env ?k ?v w0] =>
               destruct (setQueryData_data env w0 k v ltac:(discriminate))
                 as [w1 [Hset [_ Hreq]]]
           end;
           exists w1; rewrite Hset; split; [reflexivity | exact Hreq]).
    exists w0. split; reflexivity.
  - left. exists e, w0. now repeat split.
Qed.

(** C2, as the claim words it, fails when nothing was cached before the
    update: the snapshot is [undefined], the optimistic write stores the
    variables, and after the failure handler they are still there. *)
Lemma rollback_empty_cache_counterexample :
  let env := sample_env (Rejected network_error) false in
  let variables := JObj [("name", JStr "Ann")] in
  let run :=
    Mutation.execute (UsePut.usePut env "/users/1" sample_usePut_options)
      variables sample_world in
  fst run = Throw network_error
  /\ QueryClient.data env sample_world (key_of (JStr "users")) = JUndefined
  /\ QueryClient.data env (snd run) (key_of (JStr "users")) = variables
  /\ QueryClient.data env (snd run) (key_of (JStr "users"))
     <> QueryClient.data env sample_world (key_of (JStr "users")).
Proof.
  cbv zeta. split; [vm_compute; reflexivity|].
  split; [vm_compute; reflexivity|].
  split; [vm_compute; reflexivity|].
  vm_compute. discriminate.
Qed.

(** C2, amended.  With the hook's own [onMutate] and [onError] in place, a
    non-empty first key and a truthy value cached under it before the run:
    when a run of the update hook or of the delete hook fails, the value
    cached under that key afterwards is the value cached before the run. *)
Theorem optimistic_rollback_restores
    (env : Env) (url queryKey : string) (rest : list string)
    (variables : JsVal) (w : World) :
  nonempty queryKey = true ->
  Js.truthy (QueryClient.data env w (key_of (JStr queryKey))) = true ->
  (forall options e w',
      UsePut.invalidateQueries options = Some (queryKey :: rest) ->
      onMutate (UsePut.callbacks options) = None ->
      onError (UsePut.callbacks options) = None ->
      Mutation.execute (UsePut.usePut env url options) variables w
      = (Throw e, w') ->
      QueryClient.data env w' (key_of (JStr queryKey))
      = QueryClient.data env w (key_of (JStr queryKey)))
  /\ (forall options e w',
         UseDelete.invalidateQueries options = Some (queryKey :: rest) ->
         onMutate (UseDelete.callbacks options) = None ->
         onError (UseDelete.callbacks options) = None ->
         Mutation.execute (UseDelete.useDelete env url options) variables w
         = (Throw e, w') ->
         QueryClient.data env w' (key_of (JStr queryKey))
         = QueryClient.data env w (key_of (JStr queryKey))).
Proof.
  intros Hkey Hprev. split.
  - intros options e w' Hkeys HonMutate HonError Hrun.
    apply execute_throws in Hrun as [e0 [context [w0 [Hfail Hcases]]]].
    unfold Mutation.run_onMutate, UsePut.usePut, spread in Hcases.
    rewrite HonMutate in Hcases. cbn [onMutate or_else] in Hcases.
    destruct (usePut_onMutate_optimistic env options queryKey rest variables w
                Hkeys) as [w1 [Hmutate _]].
    rewrite Hmutate in Hcases.
    destruct Hcases as [[Habs _] | [w1' [Hctx _]]]; [discriminate|].
    injection Hctx as <- _.
    unfold Mutation.fail, Mutation.run_onError, UsePut.usePut, spread in Hfail.
    rewrite HonError in Hfail. cbn [onError or_else] in Hfail.
    unfold UsePut.usePut_onError, bind in Hfail.
    destruct (rollback_truthy env _ queryKey w0 Hprev Hkey)
      as [w2 [Hroll [Hdata _]]].
    rewrite Hroll, HonError in Hfail.
    unfold ret, throw in Hfail. injection Hfail as _ <-. exact Hdata.
  - intros options e w' Hkeys HonMutate HonError Hrun.
    apply execute_throws in Hrun as [e0 [context [w0 [Hfail Hcases]]]].
    unfold Mutation.run_onMutate, UseDelete.useDelete, spread in Hcases.
    rewrite HonMutate in Hcases. cbn [onMutate or_else] in Hcases.
    unfold Mutation.fail, Mutation.run_onError, UseDelete.useDelete, spread
      in Hfail.
    rewrite HonError in Hfail. cbn [onError or_else] in Hfail.
    unfold UseDelete.useDelete_onError, bind in Hfail.
    destruct (useDelete_onMutate_optimistic env options queryKey rest variables
                w Hkeys)
      as [[e1 [w1 [Hmutate [Hcache _]]]] | [w1 [Hmutate _]]];
      rewrite Hmutate in Hcases.
    + destruct Hcases as [[Hthrown ->] | [w1' [Habs _]]]; [|discriminate].
      injection Hthrown as _ <-.
      rewrite rollback_falsy, HonError in Hfail by reflexivity.
      unfold ret, throw in Hfail. injection Hfail as _ <-.
      unfold QueryClient.data. now rewrite Hcache.
    + destruct Hcases as [[Habs _] | [w1' [Hctx _]]]; [discriminate|].
      injection Hctx as <- _.
      destruct (rollback_truthy env _ queryKey w0 Hprev Hkey)
        as [w2 [Hroll [Hdata _]]].
      rewrite Hroll, HonError in Hfail.
      unfold ret, throw in Hfail. injection Hfail as _ <-. exact Hdata.
Qed.

Lemma optimistic_rollback_restores_witness :
  let env := sample_env (Rejected network_error) false in
  let key := key_of (JStr "users") in
  nonempty "users" = true
  /\ Js.truthy (QueryClient.data env world_with_users key) = true
  /\ QueryClient.data env
       (snd (Mutation.execute
               (UsePut.usePut env "/users/1" sample_usePut_options)
               (JObj [("name", JStr "Ann")]) world_with_users)) key
     = sample_users
  /\ QueryClient.data env
       (snd (Mutation.execute
               (UseDelete.useDelete env "/users" sample_useDelete_options)
               (JStr "2") world_with_users)) key
     = sample_users.
Proof.
  cbv zeta. split; [reflexivity|]. split; [reflexivity|]. split.
  - destruct (optimistic_rollback_restores
                (sample_env (Rejected network_error) false)
                "/users/1" "users" [] (JObj [("name", JStr "Ann")])
                world_with_users eq_refl eq_refl) as [Hput _].
    eapply (Hput sample_usePut_options network_error);
      [reflexivity | reflexivity | reflexivity |].
    vm_compute. reflexivity.
  - destruct (optimistic_rollback_restores
                (sample_env (Rejected network_error) false)
                "/users" "users" [] (JStr "2")
                world_with_users eq_refl eq_refl) as [_ Hdelete].
    eapply (Hdelete sample_useDelete_options (Error "Deletion cancelled"));
      [reflexivity | reflexivity | reflexivity |].
    vm_compute. reflexivity.
Defined.

Lemma usePut_mutationFn_queryCache (env : Env) (url : string)
    (options : UsePut.UsePutOptions) (body : JsVal) (w : World) :
  queryCache (snd (UsePut.usePut_mutationFn env url options body w))
  = queryCache w.
Proof.
  unfold UsePut.usePut_mutationFn, AxiosDemo.put, AxiosDemo.patch, bind.
  destruct (String.eqb _ _);
    match goal with
    | |- context [AxiosDemo.axios_request env ?c w] =>
        pose proof (axios_demo_request_queryCache env c w) as H;
        destruct (AxiosDemo.axios_request env c w) as [[r|e] w1]
    end; exact H.
Qed.

Lemma useDelete_mutationFn_queryCache (env : Env) (url : string)
    (options : UseDelete.UseDeleteOptions) (id : JsVal) (w : World) :
  queryCache (snd (UseDelete.useDelete_mutationFn env url options id w))
  = queryCache w.
Proof.
  unfold UseDelete.useDelete_mutationFn, AxiosDemo.delete, bind.
  destruct (UseDelete.confirmMessage options) as [message|];
    [destruct (nonempty message); [destruct (confirm env message)|]|];
    cbn [negb]; unfold ret, throw; try reflexivity;
    match goal with
    | |- context [AxiosDemo.axios_request env ?c w] =>
        pose proof (axios_demo_request_queryCache env c w) as H;
        destruct (AxiosDemo.axios_request env c w) as [[r|e] w1]
    end; exact H.
Qed.

(** C10: with the hooks' own [mutationFn], [onMutate] and [onError], a
    caller's [onSuccess] that returns normally, and a falsy value (so also
    none) cached under the first configured key before the run, a failing
    run ends with the cache as the optimistic step left it: the update hook
    keeps the variables it wrote there, the delete hook what its updater
    left there. *)
Theorem rollback_skipped_on_falsy_snapshot
    (env : Env) (url queryKey : string) (rest : list string)
    (variables : JsVal) (w : World) :
  Js.truthy (QueryClient.data env w (key_of (JStr queryKey))) = false ->
  (forall options e w',
      UsePut.invalidateQueries options = Some (queryKey :: rest) ->
      mutationFn (UsePut.callbacks options) = None ->
      onMutate (UsePut.callbacks options) = None ->
      onError (UsePut.callbacks options) = None ->
      (forall f data context w0,
          onSuccess (UsePut.callbacks options) = Some f ->
          exists w1, f data variables context w0 = (Return tt, w1)) ->
      Mutation.execute (UsePut.usePut env url options) variables w
      = (Throw e, w') ->
      queryCache w'
      = queryCache (snd (UsePut.usePut_onMutate env options variables w))
      /\ (variables <> JUndefined ->
          QueryClient.data env w' (key_of (JStr queryKey)) = variables))
  /\ (forall options e w',
         UseDelete.invalidateQueries options = Some (queryKey :: rest) ->
         mutationFn (UseDelete.callbacks options) = None ->
         onMutate (UseDelete.callbacks options) = None ->
         onError (UseDelete.callbacks options) = None ->
         (forall f data context w0,
             onSuccess (UseDelete.callbacks options) = Some f ->
             exists w1, f data variables context w0 = (Return tt, w1)) ->
         Mutation.execute (UseDelete.useDelete env url options) variables w
         = (Throw e, w') ->
         queryCache w'
         = queryCache
             (snd (UseDelete.useDelete_onMutate env options variables w))).
Proof.
  intros Hprev. split.
  - intros options e w' Hkeys Hfn HonMutate HonError Hcaller Hrun.
    apply execute_throws in Hrun as [e0 [context [w0 [Hfail Hcases]]]].
    unfold Mutation.fail, Mutation.run_onError, Mutation.run_onMutate,
      Mutation.run_mutationFn, Mutation.run_onSuccess, UsePut.usePut, spread
      in Hfail, Hcases.
    cbn [onError onMutate mutationFn onSuccess] in Hfail, Hcases.
    rewrite HonError in Hfail. rewrite Hfn, HonMutate in Hcases.
    cbn [or_else] in Hfail, Hcases.
    destruct (usePut_onMutate_optimistic env options queryKey rest variables w
                Hkeys) as [w1 [Hmutate [_ Hwritten]]].
    rewrite Hmutate in Hcases |- *. cbn [snd].
    destruct Hcases as [[Habs _] | [w1' [Hctx Hlater]]]; [discriminate|].
    injection Hctx as <- <-.
    unfold UsePut.usePut_onError, bind in Hfail.
    rewrite rollback_falsy, HonError in Hfail by exact Hprev.
    unfold ret, throw in Hfail. injection Hfail as _ <-.
    assert (Hcache : queryCache w0 = queryCache w1).
    { destruct Hlater as [Hthrown | [data [w2 [_ Hsuccess]]]].
      - rewrite <- (usePut_mutationFn_queryCache env url options variables w1).
        now rewrite Hthrown.
      - destruct (onSuccess (UsePut.callbacks options)) as [f|] eqn:Hf;
          cbn [or_else] in Hsuccess.
        + destruct (Hcaller f data (snapshot
                      (QueryClient.data env w (key_of (JStr queryKey)))
                      queryKey) w2 eq_refl) as [w3 Hreturns].
          rewrite Hreturns in Hsuccess. discriminate.
        + unfold UsePut.usePut_onSuccess, bind in Hsuccess.
          rewrite Hf in Hsuccess.
          destruct (UsePut.invalidateQueries options) as [keys|].
          * destruct (invalidate_each_returns keys w2) as [w3 [Hinv _]].
            rewrite Hinv in Hsuccess. discriminate.
          * discriminate. }
    split; [exact Hcache|].
    intros Hdefined. unfold QueryClient.data. rewrite Hcache.
    exact (Hwritten Hdefined).
  - intros options e w' Hkeys Hfn HonMutate HonError Hcaller Hrun.
    apply execute_throws in Hrun as [e0 [context [w0 [Hfail Hcases]]]].
    unfold Mutation.fail, Mutation.run_onError, Mutation.run_onMutate,
      Mutation.run_mutationFn, Mutation.run_onSuccess, UseDelete.useDelete,
      spread in Hfail, Hcases.
    cbn [onError onMutate mutationFn onSuccess] in Hfail, Hcases.
    rewrite HonError in Hfail. rewrite Hfn, HonMutate in Hcases.
    cbn [or_else] in Hfail, Hcases.
    unfold UseDelete.useDelete_onError, bind in Hfail.
    destruct (useDelete_onMutate_optimistic env options queryKey rest variables
                w Hkeys)
      as [[e1 [w1 [Hmutate _]]] | [w1 [Hmutate _]]];
      rewrite Hmutate in Hcases |- *; cbn [snd].
    + destruct Hcases as [[Hthrown ->] | [w1' [Habs _]]]; [|discriminate].
      injection Hthrown as _ <-.
      rewrite rollback_falsy, HonError in Hfail by reflexivity.
      unfold ret, throw in Hfail. now injection Hfail as _ <-.
    + destruct Hcases as [[Habs _] | [w1' [Hctx Hlater]]]; [discriminate|].
      injection Hctx as <- <-.
      rewrite rollback_falsy, HonError in Hfail by exact Hprev.
      unfold ret, throw in Hfail. injection Hfail as _ <-.
      destruct Hlater as [Hthrown | [data [w2 [_ Hsuccess]]]].
      * rewrite <- (useDelete_mutationFn_queryCache env url options variables w1).
        now rewrite Hthrown.
      * destruct (onSuccess (UseDelete.callbacks options)) as [f|] eqn:Hf;
          cbn [or_else] in Hsuccess.
        -- destruct (Hcaller f data (snapshot
                       (QueryClient.data env w (key_of (JStr queryKey)))
                       queryKey) w2 eq_refl) as [w3 Hreturns].
           rewrite Hreturns in Hsuccess. discriminate.
        -- unfold UseDelete.useDelete_onSuccess, bind in Hsuccess.
           rewrite Hf in Hsuccess.
           destruct (UseDelete.invalidateQueries options) as [keys|].
           ++ destruct (invalidate_each_returns keys w2) as [w3 [Hinv _]].
              rewrite Hinv in Hsuccess. discriminate.
           ++ discriminate.
Qed.

Lemma logging_onSuccess_returns (variables : JsVal)
    (f : JsVal -> JsVal -> JsVal -> M unit) (data context : JsVal) (w0 : World) :
  onSuccess logging_onSuccess = Some f ->
  exists w1, f data variables context w0 = (Return tt, w1).
Proof. intros [= <-]. now exists w0. Qed.

Lemma rollback_skipped_on_falsy_snapshot_witness :
  let env := sample_env (Rejected network_error) false in
  let variables := JObj [("name", JStr "Ann")] in
  let after_put :=
    snd (Mutation.execute (UsePut.usePut env "/users/1" sample_usePut_options)
           variables sample_world) in
  let after_delete :=
    snd (Mutation.execute
           (UseDelete.useDelete env "/users" sample_useDelete_options)
           (JStr "2") sample_world) in
  Js.truthy (QueryClient.data env sample_world (key_of (JStr "users"))) = false
  /\ (queryCache after_put
      = queryCache
          (snd (UsePut.usePut_onMutate env sample_usePut_options variables
                  sample_world))
      /\ QueryClient.data env after_put (key_of (JStr "users")) = variables)
  /\ queryCache after_delete
     = queryCache
         (snd (UseDelete.useDelete_onMutate env sample_useDelete_options
                 (JStr "2") sample_world)).
Proof.
  cbv zeta. split; [reflexivity|]. split.
  - destruct (rollback_skipped_on_falsy_snapshot
                (sample_env (Rejected network_error) false)
                "/users/1" "users" [] (JObj [("name", JStr "Ann")])
                sample_world eq_refl) as [Hput _].
    destruct (Hput sample_usePut_options network_error
                (snd (Mutation.execute
                        (UsePut.usePut
                           (sample_env (Rejected network_error) false)
                           "/users/1" sample_usePut_options)
                        (JObj [("name", JStr "Ann")]) sample_world))
                eq_refl eq_refl eq_refl eq_refl) as [Hcache Hdata].
    + apply logging_onSuccess_returns.
    + vm_compute. reflexivity.
    + split; [exact Hcache | apply Hdata; discriminate].
  - destruct (rollback_skipped_on_falsy_snapshot
                (sample_env (Rejected network_error) false)
                "/users" "users" [] (JStr "2")
                sample_world eq_refl) as [_ Hdelete].
    apply (Hdelete sample_useDelete_options (Error "Deletion cancelled"));
      [reflexivity | reflexivity | reflexivity | reflexivity | |].
    + apply logging_onSuccess_returns.
    + vm_compute. reflexivity.
Defined.

(** C8: when the delete hook has a confirmation message and the user
    declines the dialog, [mutationFn] raises ["Deletion cancelled"] and
    changes nothing, so no request is sent; with the hook's own [onMutate]
    and [onError], a run that reaches the dialog ends with that error, and
    the list of requests sent over the network is what it was before the
    run. *)
Theorem useDelete_declined_sends_nothing
    (env : Env) (url : string) (options : UseDelete.UseDeleteOptions)
    (message : string) (id : JsVal) (w : World) :
  UseDelete.confirmMessage options = Some message ->
  nonempty message = true ->
  confirm env message = false ->
  (forall w1,
      UseDelete.useDelete_mutationFn env url options id w1
      = (Throw (Error "Deletion cancelled"), w1))
  /\ (mutationFn (UseDelete.callbacks options) = None ->
      onMutate (UseDelete.callbacks options) = None ->
      onError (UseDelete.callbacks options) = None ->
      forall context w1,
        UseDelete.useDelete_onMutate env options id w = (Return context, w1) ->
        exists w',
          Mutation.execute (UseDelete.useDelete env url options) id w
          = (Throw (Error "Deletion cancelled"), w')
          /\ requests w' = requests w).
Proof.
  intros Hmessage Hnonempty Hdeclined.
  assert (Hfn : forall w1,
             UseDelete.useDelete_mutationFn env url options id w1
             = (Throw (Error "Deletion cancelled"), w1)).
  { intros w1. unfold UseDelete.useDelete_mutationFn, bind.
    now rewrite Hmessage, Hnonempty, Hdeclined. }
  split; [exact Hfn|].
  intros Hown HonMutate HonError context w1 Hmutate.
  assert (Hreq1 : requests w1 = requests w).
  { destruct (UseDelete.invalidateQueries options) as [[|queryKey rest]|]
      eqn:Hkeys.
    2:{ destruct (useDelete_onMutate_optimistic env options queryKey rest id w
                    Hkeys) as [[e [w2 [Hthrown _]]] | [w2 [Hreturned Hreq]]].
        - rewrite Hthrown in Hmutate. discriminate.
        - rewrite Hreturned in Hmutate. injection Hmutate as _ <-. exact Hreq. }
    all: unfold UseDelete.useDelete_onMutate in Hmutate;
      rewrite Hkeys, HonMutate in Hmutate; now injection Hmutate as _ <-. }
  unfold Mutation.execute, Mutation.fail, Mutation.run_onMutate,
    Mutation.run_mutationFn, Mutation.run_onError, UseDelete.useDelete, spread.
  cbn [onMutate mutationFn onError].
  rewrite Hown, HonMutate, HonError. cbn [or_else].
  rewrite Hmutate, Hfn.
  unfold UseDelete.useDelete_onError, bind, rollback, when.
  rewrite HonError.
  destruct (Js.truthy (Js.get context "previousData")
            && Js.truthy (Js.get context "queryKey")).
  - destruct (Js.get context "previousData") eqn:Hprev;
      try (match goal with
           | |- context [QueryClient.setQueryData env ?k ?v w1] =>
               destruct (setQueryData_data env w1 k v ltac:(discriminate))
                 as [w2 [Hset [_ Hreq]]]
           end;
           rewrite Hset; exists w2; split; [reflexivity | congruence]).
    exists w1. split; [reflexivity | exact Hreq1].
  - exists w1. split; [reflexivity | exact Hreq1].
Qed.

Lemma useDelete_declined_sends_nothing_witness :
  let env :=
    sample_env (Fulfilled {| res_status := 200; res_data := JObj [] |}) false in
  UseDelete.confirmMessage sample_useDelete_options = Some "Delete this user?"
  /\ nonempty "Delete this user?" = true
  /\ confirm env "Delete this user?" = false
  /\ exists w',
       Mutation.execute
         (UseDelete.useDelete env "/users" sample_useDelete_options)
         (JStr "2") world_with_users
       = (Throw (Error "Deletion cancelled"), w')
       /\ requests w' = requests world_with_users.
Proof.
  cbv zeta. split; [reflexivity|]. split; [reflexivity|]. split; [reflexivity|].
  destruct (useDelete_declined_sends_nothing
              (sample_env
                 (Fulfilled {| res_status := 200; res_data := JObj [] |}) false)
              "/users" sample_useDelete_options "Delete this user?" (JStr "2")
              world_with_users eq_refl eq_refl eq_refl) as [_ Hrun].
  eapply (Hrun eq_refl eq_refl eq_refl).
  vm_compute. reflexivity.
Defined.

(** * Further properties *)

(** ** The query string, continued *)

Lemma pairs_of_entry_nil (params : JsVal) (key : string) :
  pairs_of_entry params key = []
  <-> Js.nullish (Js.get params key) = true \/ Js.get params key = JArr [].
Proof.
  unfold pairs_of_entry.
  destruct (Js.get params key) as [| | | | |elems| |]; cbn;
    try (split; [now left | reflexivity]);
    try (split; [discriminate | intros [H|H]; discriminate H]).
  destruct elems; cbn; split; try discriminate; auto.
  intros [H|H]; discriminate H.
Qed.

Lemma flat_map_nil {A B : Type} (f : A -> list B) (l : list A) :
  flat_map f l = [] <-> forall x, In x l -> f x = [].
Proof.
  induction l as [|a l IH]; cbn; [easy|].
  split.
  - intros H. apply app_eq_nil in H as [Ha Hl].
    intros x [<-|Hx]; [exact Ha | now apply IH].
  - intros H. rewrite (H a) by now left. apply IH. intros x Hx. apply H. now right.
Qed.

(** The query string is empty exactly when every key of the params has a
    [null] or [undefined] value or an empty array (so also without keys and
    for a value that is no object); otherwise it is a [?] followed by a
    non-empty text. *)
Theorem buildQueryString_empty_iff (params : JsVal) :
  (buildQueryString params = ""
   <-> forall key, In key (Js.keys params) ->
         Js.nullish (Js.get params key) = true \/ Js.get params key = JArr [])
  /\ (buildQueryString params <> "" ->
      exists rest, buildQueryString params = "?" +:+ rest /\ rest <> "").
Proof.
  rewrite buildQueryString_pairs.
  assert (Hall : Forall (fun s => nonempty s = true)
                   (flat_map (pairs_of_entry params) (Js.keys params))).
  { apply List.Forall_forall. intros s Hs.
    apply in_flat_map in Hs as [k [_ Hs]].
    revert s Hs. apply List.Forall_forall, pairs_of_entry_nonempty. }
  split.
  - split.
    + intros Hempty key Hin. apply pairs_of_entry_nil.
      revert key Hin. apply flat_map_nil.
      destruct (flat_map (pairs_of_entry params) (Js.keys params));
        [reflexivity | discriminate Hempty].
    + intros Hkeys.
      assert (Hnil : flat_map (pairs_of_entry params) (Js.keys params) = []).
      { apply flat_map_nil. intros key Hin. apply pairs_of_entry_nil. auto. }
      now rewrite Hnil.
  - destruct (flat_map (pairs_of_entry params) (Js.keys params)) as [|p ps];
      [intros H; now contradiction H|].
    intros _. exists (String.concat "&" (p :: ps)). split; [reflexivity|].
    pose proof (nonempty_concat "&" (p :: ps) ltac:(discriminate) Hall) as Hne.
    intros E. rewrite E in Hne. discriminate Hne.
Qed.

Lemma encode_pair_separators (key : string) (val : JsVal) :
  count_char "&" (encode_pair key val) = 0
  /\ count_char "=" (encode_pair key val) = 1
  /\ count_char "?" (encode_pair key val) = 0.
Proof.
  unfold encode_pair. rewrite !count_char_append.
  destruct (encodeURIComponent_separators key) as [K1 [K2 K3]].
  destruct (encodeURIComponent_separators (Js.to_string val)) as [V1 [V2 V3]].
  rewrite K1, K2, K3, V1, V2, V3. now repeat split.
Qed.

Lemma count_char_concat (c : ascii) (sep : string) (l : list string) (n : nat) :
  Forall (fun s => count_char c s = n) l ->
  count_char c (String.concat sep l)
  = n * List.length l + count_char c sep * Nat.pred (List.length l).
Proof.
  induction 1 as [|x l Hx Hl IH]; [cbn; lia|].
  destruct l as [|y l].
  - cbn. lia.
  - rewrite concat_cons_nonnil by discriminate.
    rewrite !count_char_append, IH, Hx. cbn [List.length Nat.pred]. lia.
Qed.

Lemma pairs_separators (params : JsVal) :
  Forall (fun s => count_char "&" s = 0 /\ count_char "=" s = 1
                   /\ count_char "?" s = 0)
    (flat_map (pairs_of_entry params) (Js.keys params)).
Proof.
  apply List.Forall_forall. intros s Hs.
  apply in_flat_map in Hs as [k [_ Hs]].
  unfold pairs_of_entry in Hs.
  destruct (Js.get params k) eqn:E; cbn in Hs;
    try contradiction;
    try (destruct Hs as [<-|[]]; apply encode_pair_separators).
  apply in_map_iff in Hs as [v [<- _]]. apply encode_pair_separators.
Qed.

(** Whatever characters the keys and values hold, the query string has one
    [=] for each pair, one [&] between two pairs and none elsewhere, and
    no [?] but the leading one. *)
Theorem buildQueryString_separators (params : JsVal) :
  let pairs := flat_map (pairs_of_entry params) (Js.keys params) in
  count_char "=" (buildQueryString params) = List.length pairs
  /\ count_char "&" (buildQueryString params) = Nat.pred (List.length pairs)
  /\ count_char "?" (buildQueryString params)
     = if Nat.eqb (List.length pairs) 0 then 0 else 1.
Proof.
  cbv zeta. rewrite buildQueryString_pairs.
  pose proof (pairs_separators params) as Hall.
  destruct (flat_map (pairs_of_entry params) (Js.keys params)) as [|p ps] eqn:E;
    [now repeat split|].
  assert (Heq : Forall (fun s => count_char "=" s = 1) (p :: ps))
    by (revert Hall; apply List.Forall_impl; tauto).
  assert (Hamp : Forall (fun s => count_char "&" s = 0) (p :: ps))
    by (revert Hall; apply List.Forall_impl; tauto).
  assert (Hq : Forall (fun s => count_char "?" s = 0) (p :: ps))
    by (revert Hall; apply List.Forall_impl; tauto).
  unfold render_pairs. rewrite !count_char_append.
  rewrite (count_char_concat "=" "&" (p :: ps) 1 Heq),
    (count_char_concat "&" "&" (p :: ps) 0 Hamp),
    (count_char_concat "?" "&" (p :: ps) 0 Hq).
  cbn. repeat split; lia.
Qed.

Lemma assoc_app_l (k : string) (fs1 fs2 : list (string * JsVal)) :
  In k (List.map fst fs1) -> Js.assoc k (fs1 ++ fs2) = Js.assoc k fs1.
Proof.
  induction fs1 as [|[k' v] fs1 IH]; [contradiction|].
  cbn [List.map fst List.app Js.assoc].
  destruct (String.eqb_spec k k') as [->|Hne]; [reflexivity|].
  intros [E|Hin]; [congruence | now apply IH].
Qed.

Lemma assoc_app_r (k : string) (fs1 fs2 : list (string * JsVal)) :
  ~ In k (List.map fst fs1) -> Js.assoc k (fs1 ++ fs2) = Js.assoc k fs2.
Proof.
  induction fs1 as [|[k' v] fs1 IH]; [reflexivity|].
  cbn [List.map fst List.app Js.assoc]. intros Hnot.
  destruct (String.eqb_spec k k') as [->|Hne].
  - exfalso. apply Hnot. now left.
  - apply IH. intros Hin. apply Hnot. now right.
Qed.

Lemma flat_map_ext_in {A B : Type} (f g : A -> list B) (l : list A) :
  (forall x, In x l -> f x = g x) -> flat_map f l = flat_map g l.
Proof.
  induction l as [|a l IH]; [reflexivity|].
  intros H. cbn [flat_map]. rewrite (H a) by now left.
  f_equal. apply IH. intros x Hx. apply H. now right.
Qed.

Lemma render_pairs_app (a b : list string) :
  render_pairs (a ++ b) = join_query (render_pairs a) (render_pairs b).
Proof.
  destruct a as [|x a]; [now destruct b|].
  destruct b as [|y b]; [now rewrite app_nil_r|].
  change (render_pairs ((x :: a) ++ y :: b))
    with ("?" +:+ String.concat "&" ((x :: a) ++ y :: b)).
  rewrite concat_app by discriminate. reflexivity.
Qed.

(** Params whose fields, in the order of [Object.keys], are a first
    group followed by a second group, with no key of the second group in
    the first, serialize to the query strings of the groups joined by one
    [&]: the order of the fields is the order of the pairs. *)
Theorem buildQueryString_app (fs1 fs2 : list (string * JsVal)) :
  keys_in_order (List.map fst (fs1 ++ fs2)) = true ->
  (forall key, In key (List.map fst fs2) -> ~ In key (List.map fst fs1)) ->
  buildQueryString (JObj (fs1 ++ fs2))
  = join_query (buildQueryString (JObj fs1)) (buildQueryString (JObj fs2)).
Proof.
  intros _ Hdisjoint. rewrite !buildQueryString_pairs.
  unfold Js.keys. cbn [Js.own_entries].
  rewrite List.map_app, flat_map_app, render_pairs_app. f_equal; f_equal.
  - apply flat_map_ext_in. intros key Hin.
    unfold pairs_of_entry, Js.get. cbn [Js.own_entries].
    now rewrite assoc_app_l.
  - apply flat_map_ext_in. intros key Hin.
    unfold pairs_of_entry, Js.get. cbn [Js.own_entries].
    now rewrite assoc_app_r by auto.
Qed.

Lemma buildQueryString_app_witness :
  keys_in_order
    (List.map fst
       ([("9", JStr "y"); ("10", JStr "x")]
          ++ [("b", JNum 1); ("tag", JArr [JNum 1; JNum 2])]))
  = true
  /\ keys_in_order ["b"; "9"; "10"] = false
  /\ buildQueryString
       (JObj ([("9", JStr "y"); ("10", JStr "x")]
                ++ [("b", JNum 1); ("tag", JArr [JNum 1; JNum 2])]))
     = "?9=y&10=x&b=1&tag=1&tag=2".
Proof.
  split; [reflexivity|]. split; [reflexivity|].
  rewrite (buildQueryString_app [("9", JStr "y"); ("10", JStr "x")]
             [("b", JNum 1); ("tag", JArr [JNum 1; JNum 2])] eq_refl).
  - reflexivity.
  - intros key [<-|[<-|[]]] [E|[E|[]]]; discriminate E.
Defined.

(** ** The request interceptors and the instances *)

Lemma get_set_header_eq (name value : string) (hs : list (string * string)) :
  get_header name (set_header name value hs) = Some value.
Proof.
  induction hs as [|[n v] hs IH]; cbn [set_header get_header].
  - now rewrite String.eqb_refl.
  - destruct (String.eqb n name) eqn:E; cbn [get_header]; now rewrite E.
Qed.

Lemma get_set_header_ne (name other value : string)
    (hs : list (string * string)) :
  other <> name ->
  get_header other (set_header name value hs) = get_header other hs.
Proof.
  intros Hne. induction hs as [|[n v] hs IH]; cbn [set_header get_header].
  - destruct (String.eqb_spec name other); [congruence | reflexivity].
  - destruct (String.eqb_spec n name) as [->|Hn]; cbn [get_header].
    + destruct (String.eqb_spec name other); [congruence | reflexivity].
    + now rewrite IH.
Qed.

(** Reads a header back through the [set_header]s above it. *)
Ltac solve_headers :=
  repeat first
    [ rewrite get_set_header_eq
    | rewrite get_set_header_ne by (assumption || discriminate) ];
  reflexivity.

(** A call through the first instance sends exactly one request, whatever
    the outcome.  The request has the method, URL and body of the call; its
    [Authorization] header is ["Bearer "] with the empty constant token,
    whatever the caller passed; its [Content-Type] is multipart for a
    [FormData] body, JSON for any other truthy body, and left alone for a
    falsy body; every other header is left alone. *)
Theorem vite_request_sent (env : Env) (config : AxiosRequestConfig) (w : World) :
  let merged := merge_defaults ViteInstance.defaults config in
  exists sent,
    requests (snd (ViteInstance.request env config w)) = requests w ++ [sent]
    /\ cfg_method sent = cfg_method config
    /\ cfg_url sent = cfg_url config
    /\ cfg_data sent = cfg_data config
    /\ get_header "Authorization" (cfg_headers sent) = Some "Bearer "
    /\ get_header "Content-Type" (cfg_headers sent)
       = (if Js.is_form_data (cfg_data config)
          then Some "multipart/form-data"
          else if Js.truthy (cfg_data config)
               then Some "application/json;charset=utf-8"
               else get_header "Content-Type" (cfg_headers merged))
    /\ forall name,
         name <> "Authorization" -> name <> "Content-Type" ->
         get_header name (cfg_headers sent)
         = get_header name (cfg_headers merged).
Proof.
  cbv zeta.
  exists (ViteInstance.request_interceptor
            (merge_defaults ViteInstance.defaults config)).
  split.
  { unfold ViteInstance.request, ViteInstance.axios_request.
    destruct (transport env w _); [reflexivity|].
    unfold ViteInstance.response_rejected, bind, when, modify, throw, ret.
    destruct (status_is err 401); reflexivity. }
  destruct (request_interceptor_vite_keeps
              (merge_defaults ViteInstance.defaults config)) as [Hm [Hu Hd]].
  split; [exact Hm|]. split; [exact Hu|]. split; [exact Hd|].
  unfold ViteInstance.request_interceptor.
  cbn [with_header cfg_data cfg_headers merge_defaults].
  destruct (Js.is_form_data (cfg_data config));
    [|destruct (Js.truthy (cfg_data config))];
    cbn [with_header cfg_headers].
  - split; [|split].
    + rewrite get_set_header_ne by discriminate. apply get_set_header_eq.
    + apply get_set_header_eq.
    + intros name Ha Hc. now rewrite !get_set_header_ne by assumption.
  - split; [|split].
    + rewrite get_set_header_ne by discriminate. apply get_set_header_eq.
    + apply get_set_header_eq.
    + intros name Ha Hc. now rewrite !get_set_header_ne by assumption.
  - split; [|split].
    + apply get_set_header_eq.
    + now rewrite get_set_header_ne by discriminate.
    + intros name Ha Hc. now rewrite get_set_header_ne by assumption.
Qed.

(** A request through the first instance that the transport rejects
    reaches the caller with the transport's error; the local storage is
    emptied exactly when the error's response has status 401, and the
    location, the query cache and the toasts are left alone. *)
Theorem vite_request_rejected (env : Env) (config : AxiosRequestConfig)
    (w : World) (err : JsError) :
  transport env w
    (ViteInstance.request_interceptor
       (merge_defaults ViteInstance.defaults config))
  = Rejected err ->
  exists w',
    ViteInstance.request env config w = (Throw err, w')
    /\ localStorage w'
       = (if status_is err 401 then ∅ else localStorage w)
    /\ location_href w' = location_href w
    /\ queryCache w' = queryCache w
    /\ toasts w' = toasts w.
Proof.
  intros Hnet.
  unfold ViteInstance.request, ViteInstance.axios_request. rewrite Hnet.
  unfold ViteInstance.response_rejected, bind, when, modify, throw, ret.
  destruct (status_is err 401); eexists; (split; [reflexivity|]);
    now repeat split.
Qed.

Lemma vite_request_rejected_witness :
  exists w',
    ViteInstance.request (sample_env (Rejected network_error) false)
      {| cfg_method := "GET"; cfg_url := "order/list"; cfg_data := JUndefined;
         cfg_headers := [] |} sample_world
    = (Throw network_error, w')
    /\ localStorage w' = localStorage sample_world
    /\ location_href w' = "/orders".
Proof.
  destruct (vite_request_rejected (sample_env (Rejected network_error) false)
              {| cfg_method := "GET"; cfg_url := "order/list";
                 cfg_data := JUndefined; cfg_headers := [] |}
              sample_world network_error eq_refl)
    as [w' [Hrun [Hstorage [Hhref _]]]].
  exists w'. split; [exact Hrun|]. split; [exact Hstorage | exact Hhref].
Defined.

(** What the request interceptor of the second instance returns has the
    method, URL and body it was given and the same headers but for two.
    [Content-Type] follows the body as in the first instance.
    [Authorization] is ["Bearer "] and the token when the code runs in a
    browser and the token is truthy; outside a browser, where the token is
    not looked up, and for a falsy token, it is what the call gave. *)
Theorem next_request_interceptor_rule
    (env : Env) (config sent : AxiosRequestConfig) (w w1 : World) :
  NextInstance.request_interceptor env config w = (Return sent, w1) ->
  cfg_method sent = cfg_method config
  /\ cfg_url sent = cfg_url config
  /\ cfg_data sent = cfg_data config
  /\ get_header "Content-Type" (cfg_headers sent)
     = (if Js.is_form_data (cfg_data config)
        then Some "multipart/form-data"
        else if Js.truthy (cfg_data config)
             then Some "application/json;charset=utf-8"
             else get_header "Content-Type" (cfg_headers config))
  /\ (has_window env = false ->
      w1 = w
      /\ get_header "Authorization" (cfg_headers sent)
         = get_header "Authorization" (cfg_headers config))
  /\ (has_window env = true ->
      exists accessToken,
        getClientToken env w = (Return accessToken, w1)
        /\ get_header "Authorization" (cfg_headers sent)
           = if Js.truthy accessToken
             then Some ("Bearer " +:+ Js.to_string accessToken)
             else get_header "Authorization" (cfg_headers config))
  /\ forall name,
       name <> "Authorization" -> name <> "Content-Type" ->
       get_header name (cfg_headers sent) = get_header name (cfg_headers config).
Proof.
  intros Hrun.
  destruct (request_interceptor_keeps _ _ _ _ _ Hrun) as [Hm [Hu Hd]].
  split; [exact Hm|]. split; [exact Hu|]. split; [exact Hd|].
  unfold NextInstance.request_interceptor, bind, ret in Hrun.
  destruct (has_window env).
  - destruct (getClientToken env w) as [[accessToken|e] w0] eqn:Htoken;
      [|discriminate].
    destruct (Js.truthy accessToken) eqn:Htruthy;
      cbn [with_header cfg_data] in Hrun;
      (destruct (Js.is_form_data (cfg_data config));
       [|destruct (Js.truthy (cfg_data config))]);
      injection Hrun as <- <-; cbn [with_header cfg_headers];
      (split; [solve_headers|]);
      (split; [discriminate|]);
      (split; [intros _; exists accessToken; split; [reflexivity|];
               rewrite Htruthy; solve_headers|]);
      intros name Ha Hc; solve_headers.
  - (destruct (Js.is_form_data (cfg_data config));
     [|destruct (Js.truthy (cfg_data config))]);
      injection Hrun as <- <-; cbn [with_header cfg_headers];
      (split; [solve_headers|]);
      (split; [intros _; split; [reflexivity | solve_headers]|]);
      (split; [discriminate|]);
      intros name Ha Hc; solve_headers.
Qed.

Lemma next_request_interceptor_rule_witness :
  let config :=
    {| cfg_method := "PUT"; cfg_url := "users/42";
       cfg_data := JObj [("x", JNum 1)];
       cfg_headers := [("Authorization", "Basic abc")] |} in
  exists sent w1,
    NextInstance.request_interceptor
      (sample_env (Rejected network_error) false) config sample_world
    = (Return sent, w1)
    /\ get_header "Authorization" (cfg_headers sent) = Some "Bearer t0k3n"
    /\ get_header "Content-Type" (cfg_headers sent)
       = Some "application/json;charset=utf-8".
Proof.
  cbv zeta. eexists. eexists. split; [reflexivity|].
  destruct (next_request_interceptor_rule
              (sample_env (Rejected network_error) false)
              {| cfg_method := "PUT"; cfg_url := "users/42";
                 cfg_data := JObj [("x", JNum 1)];
                 cfg_headers := [("Authorization", "Basic abc")] |}
              _ sample_world _ eq_refl)
    as [_ [_ [_ [Hcontent [_ [Hauth _]]]]]].
  split; [|exact Hcontent].
  destruct (Hauth eq_refl) as [accessToken [Htoken Hheader]].
  injection Htoken as <-. exact Hheader.
Defined.

(** When the token lookup of the second instance fails with an error that
    is not a 401, the call is rejected with that error in the state the
    lookup left: no request is sent, whatever the transport would answer. *)
Theorem next_request_fails_closed
    (env : Env) (config : AxiosRequestConfig) (w w1 : World) (e : JsError) :
  has_window env = true ->
  getClientToken env w = (Throw e, w1) ->
  status_is e 401 = false ->
  NextInstance.request env config w = (Throw e, w1).
Proof.
  intros Hwin Htoken Hstatus.
  unfold NextInstance.request, NextInstance.axios_request,
    NextInstance.request_interceptor, NextInstance.response_rejected,
    bind, when, ret, throw.
  now rewrite Hwin, Htoken, Hstatus.
Qed.

Lemma next_request_fails_closed_witness :
  NextInstance.request
    (env_without_token
       (Fulfilled {| res_status := 200; res_data := envelope_ok |}))
    {| cfg_method := "GET"; cfg_url := "users"; cfg_data := JUndefined;
       cfg_headers := [] |} sample_world
  = (Throw network_error, sample_world)
  /\ requests sample_world = [].
Proof.
  split; [|reflexivity].
  apply (next_request_fails_closed
           (env_without_token
              (Fulfilled {| res_status := 200; res_data := envelope_ok |}))
           _ sample_world sample_world network_error);
    reflexivity.
Defined.

(** A call through the teaching instance sends exactly one request, with
    the method, URL and body of the call and the two trace headers, and
    with ["Bearer "] and the stored demo token as [Authorization] when
    that token is stored and non-empty.  The caller gets the response or
    the error of the transport as it is, and neither the local storage
    nor the location nor the query cache changes, also not on a 401. *)
Theorem axios_demo_request_passes (env : Env) (config : AxiosRequestConfig)
    (w : World) :
  let merged := merge_defaults AxiosDemo.defaults config in
  exists sent w',
    AxiosDemo.axios_request env config w
    = (match transport env w sent with
       | Fulfilled res => Return res
       | Rejected err => Throw err
       end, w')
    /\ requests w' = requests w ++ [sent]
    /\ localStorage w' = localStorage w
    /\ location_href w' = location_href w
    /\ queryCache w' = queryCache w
    /\ cfg_method sent = cfg_method config
    /\ cfg_url sent = cfg_url config
    /\ cfg_data sent = cfg_data config
    /\ get_header "X-Custom-Header" (cfg_headers sent) = Some "Demo-App"
    /\ get_header "X-Request-Time" (cfg_headers sent) = Some (now_iso env)
    /\ get_header "Authorization" (cfg_headers sent)
       = match localStorage w !! "demo_token" with
         | Some t =>
             if nonempty t then Some ("Bearer " +:+ t)
             else get_header "Authorization" (cfg_headers merged)
         | None => get_header "Authorization" (cfg_headers merged)
         end.
Proof.
  cbv zeta.
  unfold AxiosDemo.axios_request, AxiosDemo.request_interceptor,
    AxiosDemo.response_fulfilled, AxiosDemo.response_rejected,
    bind, reads, ret, throw.
  destruct (localStorage w !! "demo_token") as [t|];
    [destruct (nonempty t)|];
    match goal with
    | |- context [transport env w ?c] =>
        exists c, (add_request c w);
        split; [destruct (transport env w c); reflexivity|]
    end;
    cbn [with_header merge_defaults cfg_headers cfg_method cfg_url cfg_data
         requests localStorage location_href queryCache add_request];
    do 7 (split; [reflexivity|]);
    (split; [solve_headers|]); (split; [solve_headers|]); solve_headers.
Qed.

(** ** The hooks on the second instance *)

Lemma response_rejected_throws (env : Env) (error : JsError) (w : World) :
  exists e w', NextInstance.response_rejected env error w = (Throw e, w').
Proof.
  unfold NextInstance.response_rejected, bind, when, throw, ret, modify.
  destruct (status_is error 401); [|eauto].
  destruct (has_window env); [|eauto].
  destruct (signOut env w) as [[[]|e] w1]; eauto.
Qed.

(** What the second instance resolves with is a success envelope. *)
Lemma next_request_resolved (env : Env) (config : AxiosRequestConfig)
    (w w1 : World) (response : JsVal) :
  NextInstance.request env config w = (Return response, w1) ->
  Js.truthy response = true /\ is_success_envelope response.
Proof.
  unfold NextInstance.request, NextInstance.axios_request, bind, ret.
  destruct (NextInstance.request_interceptor env _ w) as [[sent|e] w0].
  - destruct (transport env w0 sent) as [res|err].
    + unfold NextInstance.response_fulfilled.
      destruct (Js.truthy (res_data res)) eqn:Htruthy; cbn [negb];
        [|discriminate].
      destruct (NextInstance.hasSuccess (res_data res)) eqn:Hs; [|discriminate].
      intros [= <- _]. split; [exact Htruthy | now apply hasSuccess_spec].
    + destruct (response_rejected_throws env err (add_request sent w0))
        as [e [w2 ->]]. discriminate.
  - destruct (response_rejected_throws env e w0) as [e' [w2 ->]]. discriminate.
Qed.

Lemma success_envelope_status (response : JsVal) :
  is_success_envelope response ->
  Js.eq_num (Js.get response "statusCode") 200
  || Js.eq_num (Js.get response "statusCode") 201 = true
  /\ Js.truthy (Js.get response "error") = false.
Proof.
  intros [[H|H] He]; rewrite H, He; now split.
Qed.

(** Behind the second instance the create hook never takes its failure
    branch: whenever the request resolves, [mutationFn] resolves with the
    [data] of the envelope, after the success toast if that is switched
    on.  Every failure the caller sees is raised by the interceptors. *)
Theorem usePostData_api_resolves
    (env : Env) (o : UsePostData.Options) (variables response : JsVal)
    (w w1 : World) :
  NextInstance.post env (UsePostData.url o) variables (UsePostData.headers o) w
  = (Return response, w1) ->
  UsePostData.usePostData_mutationFn (NextInstance.post env) o variables w
  = (Return (Js.get response "data"),
     if UsePostData.isShowSuccessMessage o
     then add_toast
            (ToastSuccess (UsePostData.message_or response "Success")) w1
     else w1).
Proof.
  intros Hpost.
  destruct (next_request_resolved _ _ _ _ _ Hpost) as [_ Hs].
  apply success_envelope_status in Hs as [Hstatus Herror].
  unfold UsePostData.usePostData_mutationFn, UsePostData.accepted, bind.
  rewrite Hpost, Hstatus, Herror. cbn [negb andb].
  now destruct (UsePostData.isShowSuccessMessage o).
Qed.

Lemma usePostData_api_resolves_witness :
  let env :=
    sample_env (Fulfilled {| res_status := 201; res_data := envelope_created |})
      true in
  exists w',
    UsePostData.usePostData_mutationFn (NextInstance.post env)
      sample_post_options (JObj [("item", JStr "tea")]) sample_world
    = (Return (JObj [("id", JNum 7)]), w')
    /\ toasts w' = [ToastSuccess (JStr "Created")].
Proof.
  cbv zeta. eexists. split.
  - apply (usePostData_api_resolves
             (sample_env
                (Fulfilled {| res_status := 201; res_data := envelope_created |})
                true)
             sample_post_options (JObj [("item", JStr "tea")]) envelope_created
             sample_world).
    reflexivity.
  - reflexivity.
Defined.

(** The same for the replace hook of hooks/api/use-put.ts: whenever the
    request resolves, [mutationFn] resolves with the [data] of the
    envelope, and none of its three error branches is taken. *)
Theorem usePutData_api_resolves
    (env : Env) (o : UsePutData.Options) (variables response : JsVal)
    (w w1 : World) :
  NextInstance.put env (UsePutData.finalUrl (UsePutData.url o) variables)
    (UsePutData.requestData variables) (UsePutData.headers o) w
  = (Return response, w1) ->
  UsePutData.usePutData_mutationFn (NextInstance.put env) o variables w
  = (Return (Js.get response "data"),
     if UsePutData.isShowMessage o
     then add_toast (ToastSuccess (UsePutData.successMessage response)) w1
     else w1).
Proof.
  intros Hput.
  destruct (next_request_resolved _ _ _ _ _ Hput) as [_ Hs].
  apply success_envelope_status in Hs as [Hstatus _].
  unfold UsePutData.usePutData_mutationFn, bind.
  rewrite Hput, Hstatus.
  now destruct (UsePutData.isShowMessage o).
Qed.

Lemma usePutData_api_resolves_witness :
  let env :=
    sample_env (Fulfilled {| res_status := 200; res_data := envelope_ok |})
      true in
  exists w',
    UsePutData.usePutData_mutationFn (NextInstance.put env)
      sample_put_options keyed_variables sample_world
    = (Return (JObj [("id", JNum 1)]), w')
    /\ toasts w' = [ToastSuccess (JStr "Data updated successfully")].
Proof.
  cbv zeta. eexists. split.
  - apply (usePutData_api_resolves
             (sample_env
                (Fulfilled {| res_status := 200; res_data := envelope_ok |}) true)
             sample_put_options keyed_variables envelope_ok sample_world).
    reflexivity.
  - reflexivity.
Defined.

(** The fetch hook is stricter than the interceptor in front of it: of
    the envelopes that the second instance lets through, it resolves (with
    their [data]) those with status code 200 and rejects those with status
    code 201, with the envelope's message or ["Failed to fetch data"]. *)
Theorem useFetchData_rejects_created
    (env : Env) (url : string) (params response : JsVal) (w w1 : World) :
  NextInstance.get env (url +:+ buildQueryString params) w
  = (Return response, w1) ->
  (Js.get response "statusCode" = JNum 200
   /\ UseFetchData.queryFn env url params w
      = (Return (Js.get response "data"), w1))
  \/ (Js.get response "statusCode" = JNum 201
      /\ UseFetchData.queryFn env url params w
         = (Throw (Error (if Js.truthy (Js.get response "message")
                          then Js.to_string (Js.get response "message")
                          else "Failed to fetch data")), w1)).
Proof.
  intros Hget.
  destruct (next_request_resolved _ _ _ _ _ Hget) as [_ [[Hs|Hs] _]];
    [left | right]; (split; [exact Hs|]);
    unfold UseFetchData.queryFn, bind; rewrite Hget, Hs; reflexivity.
Qed.

Lemma useFetchData_rejects_created_witness :
  let env :=
    sample_env (Fulfilled {| res_status := 201; res_data := envelope_created |})
      true in
  exists w',
    UseFetchData.queryFn env "users" sample_params sample_world
    = (Throw (Error "Created"), w').
Proof.
  cbv zeta.
  destruct (useFetchData_rejects_created
              (sample_env
                 (Fulfilled
                    {| res_status := 201; res_data := envelope_created |}) true)
              "users" sample_params envelope_created sample_world _ eq_refl)
    as [[Habs _] | [_ Hrun]]; [discriminate Habs|].
  eexists. exact Hrun.
Defined.

(** The partial-update hook has the same stricter test: an envelope with
    status code 201 that the second instance lets through is rejected, with
    its message or, when that is [null] or [undefined], ["An error
    occurred while processing the request"]; one with status code 200
    resolves with its [data].  The request carries none of the hook's
    [headers] option. *)
Theorem usePatchData_rejects_created
    (env : Env) (o : UsePatchData.Options) (variables response : JsVal)
    (w w1 : World) :
  NextInstance.request env
    {| cfg_method := "PATCH"; cfg_url := UsePatchData.url o;
       cfg_data := variables; cfg_headers := [] |} w
  = (Return response, w1) ->
  (Js.get response "statusCode" = JNum 200
   /\ UsePatchData.usePatchData_mutationFn env o variables w
      = (Return (Js.get response "data"),
         if UsePatchData.isShowMessage o
         then add_toast (ToastSuccess (UsePatchData.successMessage response)) w1
         else w1))
  \/ (Js.get response "statusCode" = JNum 201
      /\ UsePatchData.usePatchData_mutationFn env o variables w
         = (Throw (Error (if Js.nullish (Js.get response "message")
                          then "An error occurred while processing the request"
                          else Js.to_string (Js.get response "message"))), w1)).
Proof.
  intros Hpatch.
  destruct (next_request_resolved _ _ _ _ _ Hpatch) as [_ [[Hs|Hs] _]];
    [left | right]; (split; [exact Hs|]);
    unfold UsePatchData.usePatchData_mutationFn, NextInstance.patch, bind;
    rewrite Hpatch, Hs; cbn [Js.eq_num Z.eqb Pos.eqb].
  - now destruct (UsePatchData.isShowMessage o).
  - unfold UsePatchData.errorMessage.
    now destruct (Js.nullish (Js.get response "message")).
Qed.

Lemma usePatchData_rejects_created_witness :
  let env :=
    sample_env (Fulfilled {| res_status := 200; res_data := envelope_created |})
      true in
  exists w',
    UsePatchData.usePatchData_mutationFn env sample_patch_options
      (JObj [("name", JStr "Ann")]) sample_world
    = (Throw (Error "Created"), w')
    /\ exists sent,
         requests w' = [sent] /\ get_header "X-Trace" (cfg_headers sent) = None.
Proof.
  cbv zeta.
  destruct (usePatchData_rejects_created
              (sample_env
                 (Fulfilled
                    {| res_status := 200; res_data := envelope_created |}) true)
              sample_patch_options (JObj [("name", JStr "Ann")])
              envelope_created sample_world _ eq_refl)
    as [[Habs _] | [_ Hrun]]; [discriminate Habs|].
  eexists. split; [exact Hrun|].
  eexists. split; reflexivity.
Defined.

(** ** The hooks on the first instance *)

Lemma execute_resolves (options : MutationOptions) (variables data : JsVal)
    (w w1 w2 : World) :
  onMutate options = None ->
  Mutation.run_mutationFn options variables w = (Return data, w1) ->
  Mutation.run_onSuccess options data variables JUndefined w1 = (Return tt, w2) ->
  Mutation.execute options variables w = (Return data, w2).
Proof.
  intros Hmutate Hfn Hsuccess.
  unfold Mutation.execute, Mutation.run_onMutate, ret.
  now rewrite Hmutate, Hfn, Hsuccess.
Qed.

Lemma execute_rejects (options : MutationOptions) (variables : JsVal)
    (e : JsError) (w w1 w2 : World) :
  onMutate options = None ->
  Mutation.run_mutationFn options variables w = (Throw e, w1) ->
  Mutation.run_onError options e variables JUndefined w1 = (Return tt, w2) ->
  Mutation.execute options variables w = (Throw e, w2).
Proof.
  intros Hmutate Hfn Herror.
  unfold Mutation.execute, Mutation.run_onMutate, Mutation.fail, bind, ret, throw.
  now rewrite Hmutate, Hfn, Herror.
Qed.

Lemma vite_request_fulfilled (env : Env) (config : AxiosRequestConfig)
    (w : World) (res : AxiosResponse) :
  transport env w
    (ViteInstance.request_interceptor
       (merge_defaults ViteInstance.defaults config))
  = Fulfilled res ->
  ViteInstance.request env config w
  = (ViteInstance.response_fulfilled res,
     add_request
       (ViteInstance.request_interceptor
          (merge_defaults ViteInstance.defaults config)) w).
Proof.
  intros Hnet. unfold ViteInstance.request, ViteInstance.axios_request.
  now rewrite Hnet.
Qed.

(** The delete hook of hooks/use-delete-data.ts with its own handlers,
    for a response that reaches the success handler of the first instance.
    An empty body (as under 204 No Content) ends the run with the error
    ["Error in response"].  A truthy body under HTTP status 200 or 201
    resolves with its [data] only when its status code is 200: then a
    success toast is shown and a refetch of the configured keys is
    requested, also when there are none.  Any other status code, 201
    included, ends the run with an error whose message is the truthy
    [message] of the body or ["Failed to delete data"].  Each failure is
    shown in one error toast and reaches the caller. *)
Theorem useDeleteData_outcomes
    (env : Env) (o : UseDeleteData.Options) (variables : JsVal) (w : World)
    (res : AxiosResponse) :
  let sent :=
    ViteInstance.request_interceptor
      (merge_defaults ViteInstance.defaults
         {| cfg_method := "DELETE"; cfg_url := UseDeleteData.url o;
            cfg_data := JUndefined; cfg_headers := [] |}) in
  let body := res_data res in
  let failed (e : JsError) :=
    Mutation.execute (UseDeleteData.useDeleteData env o) variables w
    = (Throw e,
       add_toast (ToastError (JStr (err_message e))) (add_request sent w)) in
  UseDeleteData.mutationOptions o = no_options ->
  UseDeleteData.onSuccess_cb o = None ->
  UseDeleteData.onError_cb o = None ->
  transport env w sent = Fulfilled res ->
  (Js.truthy body = false -> failed (Error "Error in response"))
  /\ (Js.truthy body = true ->
      res_status res = 200%Z \/ res_status res = 201%Z ->
      (Js.get body "statusCode" = JNum 200 ->
       Mutation.execute (UseDeleteData.useDeleteData env o) variables w
       = (Return (Js.get body "data"),
          add_engine_call
            (RefetchQueries
               (JArr (List.map JStr (UseDeleteData.refetchQueries o))) false)
            (add_toast (ToastSuccess (UseDeleteData.successMessage body))
               (add_request sent w))))
      /\ (Js.get body "statusCode" <> JNum 200 ->
          failed (Error (if Js.truthy (Js.get body "message")
                         then Js.to_string (Js.get body "message")
                         else "Failed to delete data")))).
Proof.
  cbv zeta. intros Hopts HonSuccess HonError Hnet.
  assert (Hfail : forall e w1,
             UseDeleteData.useDeleteData_mutationFn env o variables w
             = (Throw e, w1) ->
             Mutation.execute (UseDeleteData.useDeleteData env o) variables w
             = (Throw e, add_toast (ToastError (JStr (err_message e))) w1)).
  { intros e w1 Hfn. eapply execute_rejects.
    - unfold UseDeleteData.useDeleteData, spread. now rewrite Hopts.
    - unfold Mutation.run_mutationFn, UseDeleteData.useDeleteData, spread.
      rewrite Hopts. exact Hfn.
    - unfold Mutation.run_onError, UseDeleteData.useDeleteData, spread.
      rewrite Hopts. cbn [onError no_options or_else].
      unfold UseDeleteData.useDeleteData_onError, bind, modify.
      now rewrite HonError. }
  assert (Hdelete :
            ViteInstance.delete env
              {| cfg_method := ""; cfg_url := UseDeleteData.url o;
                 cfg_data := JUndefined; cfg_headers := [] |} w
            = (ViteInstance.response_fulfilled res,
               add_request
                 (ViteInstance.request_interceptor
                    (merge_defaults ViteInstance.defaults
                       {| cfg_method := "DELETE";
                          cfg_url := UseDeleteData.url o;
                          cfg_data := JUndefined; cfg_headers := [] |})) w)).
  { unfold ViteInstance.delete. now apply vite_request_fulfilled. }
  unfold ViteInstance.response_fulfilled in Hdelete.
  split.
  - intros Hbody. rewrite Hbody in Hdelete. apply Hfail.
    unfold UseDeleteData.useDeleteData_mutationFn, bind. now rewrite Hdelete.
  - intros Hbody Hstatus. rewrite Hbody in Hdelete. cbn [negb] in Hdelete.
    assert (Hok : (res_status res =? 200)%Z || (res_status res =? 201)%Z = true)
      by (destruct Hstatus as [-> | ->]; reflexivity).
    rewrite Hok in Hdelete. split.
    + intros Hcode. eapply execute_resolves.
      * unfold UseDeleteData.useDeleteData, spread. now rewrite Hopts.
      * unfold Mutation.run_mutationFn, UseDeleteData.useDeleteData, spread.
        rewrite Hopts. cbn [mutationFn no_options or_else].
        unfold UseDeleteData.useDeleteData_mutationFn, bind.
        rewrite Hdelete, Hcode. reflexivity.
      * unfold Mutation.run_onSuccess, UseDeleteData.useDeleteData, spread.
        rewrite Hopts. cbn [onSuccess no_options or_else].
        unfold UseDeleteData.useDeleteData_onSuccess, bind,
          QueryClient.refetchQueries, modify.
        now rewrite HonSuccess.
    + intros Hcode. apply eq_num_false in Hcode. apply Hfail.
      unfold UseDeleteData.useDeleteData_mutationFn, bind.
      rewrite Hdelete, Hcode. unfold UseDeleteData.errorMessage.
      now destruct (Js.truthy (Js.get (res_data res) "message")).
Qed.

Lemma useDeleteData_outcomes_witness :
  let no_content :=
    sample_env (Fulfilled {| res_status := 204; res_data := JStr "" |}) true in
  let created :=
    sample_env (Fulfilled {| res_status := 200; res_data := envelope_created |})
      true in
  fst (Mutation.execute
         (UseDeleteData.useDeleteData no_content sample_delete_options)
         JUndefined sample_world)
  = Throw (Error "Error in response")
  /\ fst (Mutation.execute
            (UseDeleteData.useDeleteData created sample_delete_options)
            JUndefined sample_world)
     = Throw (Error "Created").
Proof.
  cbv zeta. split.
  - destruct (useDeleteData_outcomes
                (sample_env
                   (Fulfilled {| res_status := 204; res_data := JStr "" |}) true)
                sample_delete_options JUndefined sample_world
                {| res_status := 204; res_data := JStr "" |}
                eq_refl eq_refl eq_refl eq_refl) as [Hempty _].
    now rewrite (Hempty eq_refl).
  - destruct (useDeleteData_outcomes
                (sample_env
                   (Fulfilled
                      {| res_status := 200; res_data := envelope_created |}) true)
                sample_delete_options JUndefined sample_world
                {| res_status := 200; res_data := envelope_created |}
                eq_refl eq_refl eq_refl eq_refl) as [_ Hbody].
    destruct (Hbody eq_refl (or_introl eq_refl)) as [_ Hother].
    rewrite Hother; [reflexivity | discriminate].
Defined.

Lemma vite_request_body (env : Env) (config : AxiosRequestConfig)
    (w : World) (res : AxiosResponse) :
  transport env w
    (ViteInstance.request_interceptor
       (merge_defaults ViteInstance.defaults config))
  = Fulfilled res ->
  Js.truthy (res_data res) = true ->
  res_status res = 200%Z \/ res_status res = 201%Z ->
  ViteInstance.request env config w
  = (Return (res_data res),
     add_request
       (ViteInstance.request_interceptor
          (merge_defaults ViteInstance.defaults config)) w).
Proof.
  intros Hnet Hbody Hstatus.
  rewrite (vite_request_fulfilled env config w res Hnet).
  unfold ViteInstance.response_fulfilled. rewrite Hbody.
  now destruct Hstatus as [-> | ->].
Qed.

(** The create hook of hooks/use-post-data.ts with its own handlers, for
    a truthy body that the first instance lets through (HTTP status 200 or
    201).  The run resolves with the [data] of the body exactly when its
    [error] is falsy and its status code is 200 or 201: then the success
    toast is shown only when asked for, and the refetch is requested
    whenever a list of keys is configured.  In every other case the run
    ends with an error whose message is the truthy [message] of the body or
    ["Failed to post data"], and the error toast is shown only when asked
    for.  One request is sent in both cases. *)
Theorem legacy_usePostData_outcomes
    (env : Env) (o : UsePostData.Options) (variables : JsVal) (w : World)
    (res : AxiosResponse) :
  let sent :=
    ViteInstance.request_interceptor
      (merge_defaults ViteInstance.defaults
         {| cfg_method := "POST"; cfg_url := UsePostData.url o;
            cfg_data := variables; cfg_headers := UsePostData.headers o |}) in
  let body := res_data res in
  let statusCode := Js.get body "statusCode" in
  let message (fallback : string) :=
    if Js.truthy (Js.get body "message") then Js.get body "message"
    else JStr fallback in
  let shown (flag : bool) (t : Toast) (w : World) :=
    if flag then add_toast t w else w in
  let refetched (w : World) :=
    match UsePostData.refetchQueries o with
    | Some keys =>
        add_engine_call (RefetchQueries (JArr (List.map JStr keys)) false) w
    | None => w
    end in
  UsePostData.mutationOptions o = no_options ->
  UsePostData.onSuccess_cb o = None ->
  UsePostData.onError_cb o = None ->
  transport env w sent = Fulfilled res ->
  Js.truthy body = true ->
  res_status res = 200%Z \/ res_status res = 201%Z ->
  (Js.truthy (Js.get body "error") = false ->
   statusCode = JNum 200 \/ statusCode = JNum 201 ->
   Mutation.execute (UsePostData.legacy env o) variables w
   = (Return (Js.get body "data"),
      refetched
        (shown (UsePostData.isShowSuccessMessage o)
           (ToastSuccess (message "Success")) (add_request sent w))))
  /\ (Js.truthy (Js.get body "error") = true
      \/ (statusCode <> JNum 200 /\ statusCode <> JNum 201) ->
      Mutation.execute (UsePostData.legacy env o) variables w
      = (Throw (Error (Js.to_string (message "Failed to post data"))),
         shown (UsePostData.isShowErrorToast o)
           (ToastError (JStr (Js.to_string (message "Failed to post data"))))
           (add_request sent w))).
Proof.
  cbv zeta. intros Hopts HonSuccess HonError Hnet Hbody Hstatus.
  assert (Hpost :
            UsePostData.legacy_post env (UsePostData.url o) variables
              (UsePostData.headers o) w
            = (Return (res_data res),
               add_request
                 (ViteInstance.request_interceptor
                    (merge_defaults ViteInstance.defaults
                       {| cfg_method := "POST";
                          cfg_url := UsePostData.url o;
                          cfg_data := variables;
                          cfg_headers := UsePostData.headers o |})) w)).
  { unfold UsePostData.legacy_post, ViteInstance.post.
    now apply vite_request_body. }
  split.
  - intros Herror Hcode.
    assert (Haccepted : UsePostData.accepted (res_data res) = true).
    { unfold UsePostData.accepted. rewrite Herror.
      now destruct Hcode as [-> | ->]. }
    apply execute_resolves
      with (w1 := (if UsePostData.isShowSuccessMessage o
                   then add_toast
                          (ToastSuccess
                             (UsePostData.message_or (res_data res) "Success"))
                   else fun w => w)
                    (add_request
                       (ViteInstance.request_interceptor
                          (merge_defaults ViteInstance.defaults
                             {| cfg_method := "POST";
                                cfg_url := UsePostData.url o;
                                cfg_data := variables;
                                cfg_headers := UsePostData.headers o |})) w)).
    + unfold UsePostData.legacy, UsePostData.usePostData, spread.
      now rewrite Hopts.
    + unfold Mutation.run_mutationFn, UsePostData.legacy,
        UsePostData.usePostData, spread.
      rewrite Hopts. cbn [mutationFn no_options or_else].
      unfold UsePostData.usePostData_mutationFn, bind.
      rewrite Hpost. cbn beta iota. rewrite Haccepted.
      unfold when.
      destruct (UsePostData.isShowSuccessMessage o); reflexivity.
    + unfold Mutation.run_onSuccess, UsePostData.legacy,
        UsePostData.usePostData, spread.
      rewrite Hopts. cbn [onSuccess no_options or_else].
      unfold UsePostData.usePostData_onSuccess, bind, UsePostData.message_or.
      rewrite HonSuccess.
      destruct (UsePostData.refetchQueries o),
        (UsePostData.isShowSuccessMessage o); reflexivity.
  - intros Hrefused.
    assert (Haccepted : UsePostData.accepted (res_data res) = false).
    { unfold UsePostData.accepted.
      destruct Hrefused as [-> | [H200 H201]]; [reflexivity |].
      apply eq_num_false in H200, H201. rewrite H200, H201.
      now rewrite andb_false_r. }
    eapply execute_rejects.
    + unfold UsePostData.legacy, UsePostData.usePostData, spread.
      now rewrite Hopts.
    + unfold Mutation.run_mutationFn, UsePostData.legacy,
        UsePostData.usePostData, spread.
      rewrite Hopts. cbn [mutationFn no_options or_else].
      unfold UsePostData.usePostData_mutationFn, bind.
      rewrite Hpost. cbn beta iota. now rewrite Haccepted.
    + unfold Mutation.run_onError, UsePostData.legacy,
        UsePostData.usePostData, spread.
      rewrite Hopts. cbn [onError no_options or_else].
      unfold UsePostData.usePostData_onError, bind, when. rewrite HonError.
      now destruct (UsePostData.isShowErrorToast o).
Qed.

Lemma legacy_usePostData_outcomes_witness :
  let env :=
    sample_env (Fulfilled {| res_status := 200; res_data := envelope_flagged |})
      true in
  Mutation.execute (OrdersService.useCreateOrder env) (JObj []) sample_world
  = (Throw (Error "Out of stock"),
     add_request
       {| cfg_method := "POST"; cfg_url := "order/create";
          cfg_data := JObj [];
          cfg_headers :=
            [("Content-Type", "application/json;charset=utf-8");
             ("Authorization", "Bearer ")] |}
       sample_world).
Proof.
  cbv zeta.
  destruct (legacy_usePostData_outcomes
              (sample_env
                 (Fulfilled {| res_status := 200; res_data := envelope_flagged |})
                 true)
              {| UsePostData.url := API.order_create;
                 UsePostData.mutationOptions := no_options;
                 UsePostData.headers := [];
                 UsePostData.refetchQueries := Some [API.order_list];
                 UsePostData.onSuccess_cb := None;
                 UsePostData.onError_cb := None;
                 UsePostData.isShowErrorToast := false;
                 UsePostData.isShowSuccessMessage := true |}
              (JObj []) sample_world
              {| res_status := 200; res_data := envelope_flagged |}
              eq_refl eq_refl eq_refl eq_refl eq_refl (or_introl eq_refl))
    as [_ Hrefused].
  exact (Hrefused (or_introl eq_refl)).
Defined.

(** The replace hook of hooks/use-put-data.ts with its own handlers, for
    a truthy body that the first instance lets through (HTTP status 200 or
    201).  A status code of 200 or 201 in the body is enough for the run to
    resolve with the [data] of the body, whatever its [error] says.  The
    one request is a PUT of the request data to the final URL; the success
    toast is shown unless switched off, and the refetch is requested only
    for a non-empty list of keys. *)
Theorem legacy_usePutData_resolves
    (env : Env) (o : UsePutData.Options) (variables : JsVal) (w : World)
    (res : AxiosResponse) :
  let sent :=
    ViteInstance.request_interceptor
      (merge_defaults ViteInstance.defaults
         {| cfg_method := "PUT";
            cfg_url := UsePutData.finalUrl (UsePutData.url o) variables;
            cfg_data := UsePutData.requestData variables;
            cfg_headers := UsePutData.headers o |}) in
  let body := res_data res in
  let shown (w : World) :=
    if UsePutData.isShowMessage o
    then add_toast
           (ToastSuccess
              (if Js.nullish (Js.get body "message")
               then JStr "Data updated successfully"
               else Js.get body "message")) w
    else w in
  let refetched (w : World) :=
    match UsePutData.refetchQueries o with
    | [] => w
    | keys =>
        add_engine_call (RefetchQueries (JArr (List.map JStr keys)) false) w
    end in
  UsePutData.mutationOptions o = no_options ->
  UsePutData.onSuccess_cb o = None ->
  transport env w sent = Fulfilled res ->
  Js.truthy body = true ->
  res_status res = 200%Z \/ res_status res = 201%Z ->
  Js.get body "statusCode" = JNum 200 \/ Js.get body "statusCode" = JNum 201 ->
  Mutation.execute (UsePutData.legacy env o) variables w
  = (Return (Js.get body "data"), refetched (shown (add_request sent w))).
Proof.
  cbv zeta. intros Hopts HonSuccess Hnet Hbody Hstatus Hcode.
  assert (Hput :
            UsePutData.legacy_put env
              (UsePutData.finalUrl (UsePutData.url o) variables)
              (UsePutData.requestData variables) (UsePutData.headers o) w
            = (Return (res_data res),
               add_request
                 (ViteInstance.request_interceptor
                    (merge_defaults ViteInstance.defaults
                       {| cfg_method := "PUT";
                          cfg_url :=
                            UsePutData.finalUrl (UsePutData.url o) variables;
                          cfg_data := UsePutData.requestData variables;
                          cfg_headers := UsePutData.headers o |})) w)).
  { unfold UsePutData.legacy_put, ViteInstance.put.
    now apply vite_request_body. }
  assert (Haccepted :
            Js.eq_num (Js.get (res_data res) "statusCode") 200
            || Js.eq_num (Js.get (res_data res) "statusCode") 201 = true)
    by (destruct Hcode as [-> | ->]; reflexivity).
  apply execute_resolves
    with (w1 := (if UsePutData.isShowMessage o
                 then add_toast
                        (ToastSuccess
                           (UsePutData.successMessage (res_data res)))
                 else fun w => w)
                  (add_request
                     (ViteInstance.request_interceptor
                        (merge_defaults ViteInstance.defaults
                           {| cfg_method := "PUT";
                              cfg_url :=
                                UsePutData.finalUrl (UsePutData.url o)
                                  variables;
                              cfg_data := UsePutData.requestData variables;
                              cfg_headers := UsePutData.headers o |})) w)).
  - unfold UsePutData.legacy, UsePutData.usePutData, spread.
    now rewrite Hopts.
  - unfold Mutation.run_mutationFn, UsePutData.legacy, UsePutData.usePutData,
      spread.
    rewrite Hopts. cbn [mutationFn no_options or_else].
    unfold UsePutData.usePutData_mutationFn, bind.
    rewrite Hput. cbn beta iota. rewrite Haccepted. unfold when.
    destruct (UsePutData.isShowMessage o); reflexivity.
  - unfold Mutation.run_onSuccess, UsePutData.legacy, UsePutData.usePutData,
      spread.
    rewrite Hopts. cbn [onSuccess no_options or_else].
    unfold UsePutData.usePutData_onSuccess, bind, UsePutData.successMessage,
      when.
    rewrite HonSuccess.
    destruct (UsePutData.refetchQueries o),
      (UsePutData.isShowMessage o); reflexivity.
Qed.

Lemma legacy_usePutData_resolves_witness :
  let env :=
    sample_env (Fulfilled {| res_status := 200; res_data := envelope_flagged |})
      true in
  fst (Mutation.execute (OrdersService.useUpdateOrder env) keyed_variables
         sample_world)
  = Return (JObj [("id", JNum 7)]).
Proof.
  cbv zeta. unfold OrdersService.useUpdateOrder.
  now rewrite (legacy_usePutData_resolves
                 (sample_env
                    (Fulfilled
                       {| res_status := 200; res_data := envelope_flagged |})
                    true)
                 {| UsePutData.url := API.order_list;
                    UsePutData.refetchQueries := [API.order_list];
                    UsePutData.headers := [];
                    UsePutData.onSuccess_cb := None;
                    UsePutData.onError_cb := None;
                    UsePutData.mutationOptions := no_options;
                    UsePutData.isShowMessage := true |}
                 keyed_variables sample_world
                 {| res_status := 200; res_data := envelope_flagged |}
                 eq_refl eq_refl eq_refl eq_refl (or_introl eq_refl)
                 (or_introl eq_refl)).
Defined.



Lemma length_append (a b : string) :
  String.length (a +:+ b) = String.length a + String.length b.
Proof.
  induction a as [|c a IH]; [reflexivity|].
  change (S (String.length (a +:+ b)) = S (String.length a + String.length b)).
  now rewrite IH.
Qed.

Lemma vite_request_requests (env : Env) (config : AxiosRequestConfig)
    (w : World) :
  requests (snd (ViteInstance.request env config w))
  = requests w
    ++ [ViteInstance.request_interceptor
          (merge_defaults ViteInstance.defaults config)].
Proof.
  unfold ViteInstance.request, ViteInstance.axios_request.
  destruct (transport env w _); [reflexivity|].
  unfold ViteInstance.response_rejected, bind, when, modify, throw, ret.
  destruct (status_is err 401); reflexivity.
Qed.

(** The update hook of the orders service is configured with the URL of
    the list.  For variables [{ id, payload }] with a truthy [id], a run
    sends exactly one request, whatever the outcome: a PUT of the payload
    to ["order/list/"] followed by the id, which is never the URL that the
    endpoint table gives for updating that order. *)
Theorem useUpdateOrder_request (env : Env) (variables : JsVal) (w : World) :
  UsePutData.is_keyed variables = true ->
  Js.truthy (Js.get variables "id") = true ->
  exists sent,
    requests (snd (Mutation.execute (OrdersService.useUpdateOrder env)
                     variables w))
    = requests w ++ [sent]
    /\ cfg_method sent = "PUT"
    /\ cfg_url sent = "order/list/" +:+ Js.to_string (Js.get variables "id")
    /\ cfg_url sent <> API.order_update (Js.get variables "id")
    /\ cfg_data sent = Js.get variables "payload".
Proof.
  intros Hkeyed Hid.
  set (o := {| UsePutData.url := API.order_list;
               UsePutData.refetchQueries := [API.order_list];
               UsePutData.headers := [];
               UsePutData.onSuccess_cb := None;
               UsePutData.onError_cb := None;
               UsePutData.mutationOptions := no_options;
               UsePutData.isShowMessage := true |}).
  set (config := {| cfg_method := "PUT";
                    cfg_url := UsePutData.finalUrl API.order_list variables;
                    cfg_data := UsePutData.requestData variables;
                    cfg_headers := [] |}).
  exists (ViteInstance.request_interceptor
            (merge_defaults ViteInstance.defaults config)).
  destruct (request_interceptor_vite_keeps
              (merge_defaults ViteInstance.defaults config)) as [Hm [Hu Hd]].
  assert (Hurl : UsePutData.finalUrl API.order_list variables
                 = "order/list/" +:+ Js.to_string (Js.get variables "id")).
  { unfold UsePutData.finalUrl. now rewrite Hkeyed, Hid. }
  split; [|split; [exact Hm|split; [|split]]].
  - pose proof (usePutData_mutationFn_requests (UsePutData.legacy_put env)
                  o variables w) as Hfn.
    unfold UsePutData.legacy_put at 2 in Hfn.
    unfold ViteInstance.put in Hfn. rewrite vite_request_requests in Hfn.
    cbn [ViteInstance.with_method cfg_url cfg_data cfg_headers
           UsePutData.url UsePutData.headers o] in Hfn.
    unfold Mutation.execute, Mutation.run_onMutate, Mutation.run_mutationFn,
      Mutation.run_onSuccess, Mutation.fail, Mutation.run_onError,
      OrdersService.useUpdateOrder, UsePutData.legacy, UsePutData.usePutData.
    cbn [spread onMutate mutationFn onSuccess onError no_options or_else
           UsePutData.mutationOptions ret].
    fold o.
    destruct (UsePutData.usePutData_mutationFn (UsePutData.legacy_put env)
                o variables w) as [[data|e] w1]; cbn [snd] in Hfn.
    + cbn. exact Hfn.
    + cbn. exact Hfn.
  - rewrite Hu. exact Hurl.
  - rewrite Hu. cbn [merge_defaults cfg_url config]. rewrite Hurl.
    unfold API.order_update. intros Heq.
    apply (f_equal String.length) in Heq. rewrite !length_append in Heq.
    cbn in Heq. lia.
  - rewrite Hd. cbn [merge_defaults cfg_data config].
    unfold UsePutData.requestData. now rewrite Hkeyed.
Qed.

Lemma useUpdateOrder_request_witness :
  exists sent,
    requests
      (snd (Mutation.execute
              (OrdersService.useUpdateOrder
                 (sample_env (Rejected network_error) true))
              keyed_variables sample_world))
    = [sent]
    /\ cfg_url sent = "order/list/42".
Proof.
  destruct (useUpdateOrder_request (sample_env (Rejected network_error) true)
              keyed_variables sample_world eq_refl eq_refl)
    as [sent [Hsent [_ [Hurl _]]]].
  exists sent. split; [exact Hsent | exact Hurl].
Defined.

(** ** The teaching hooks *)

Lemma invalidate_each_calls (keys : list string) (w : World) :
  exists w',
    invalidate_each keys w = (Return tt, w')
    /\ engine_calls w' = engine_calls w ++ invalidations keys
    /\ queryCache w' = queryCache w
    /\ requests w' = requests w
    /\ toasts w' = toasts w
    /\ localStorage w' = localStorage w.
Proof.
  revert w. induction keys as [|key keys IH]; intros w.
  - exists w. cbn [invalidations List.map]. rewrite app_nil_r. now repeat split.
  - cbn [invalidate_each]. unfold bind, QueryClient.invalidateQueries, modify.
    destruct (IH (add_engine_call (InvalidateQueries (key_of (JStr key))) w))
      as [w' [Hrun [Hcalls [Hcache [Hreq [Htoasts Hstorage]]]]]].
    exists w'. rewrite Hrun. split; [reflexivity|].
    split; [|now repeat split].
    rewrite Hcalls. cbn [engine_calls add_engine_call invalidations List.map].
    now rewrite <- app_assoc.
Qed.

(** The create hook of hooks/demo/usePost.ts.  Its options are spread
    last, so a caller's [onSuccess] takes the place of the hook's: the
    whole run is then the same whatever [invalidateQueries] holds.  With no
    callbacks of the caller, a resolved request ends the run with the body
    of the response after one invalidation per configured key, in the
    order of the list, each under the one-element key of its name; a
    failed request ends it with the error of the request and no
    invalidation.  The cache, the request log and the toasts are not
    touched after the request. *)
Theorem usePost_invalidation
    (env : Env) (url : string) (options : UsePost.UsePostOptions)
    (variables : JsVal) (w : World) :
  (forall f keys,
      onSuccess (UsePost.callbacks options) = Some f ->
      Mutation.execute (UsePost.usePost env url options) variables w
      = Mutation.execute
          (UsePost.usePost env url
             {| UsePost.invalidateQueries := keys;
                UsePost.callbacks := UsePost.callbacks options |})
          variables w)
  /\ (UsePost.callbacks options = no_options ->
      forall res w1,
        AxiosDemo.post env url variables w = (Return res, w1) ->
        exists w2,
          Mutation.execute (UsePost.usePost env url options) variables w
          = (Return (res_data res), w2)
          /\ engine_calls w2
             = engine_calls w1
               ++ invalidations
                    (match UsePost.invalidateQueries options with
                     | Some keys => keys
                     | None => []
                     end)
          /\ queryCache w2 = queryCache w1
          /\ requests w2 = requests w1
          /\ toasts w2 = toasts w1)
  /\ (UsePost.callbacks options = no_options ->
      forall err w1,
        AxiosDemo.post env url variables w = (Throw err, w1) ->
        Mutation.execute (UsePost.usePost env url options) variables w
        = (Throw err, w1)).
Proof.
  split; [|split].
  - intros f keys Hf.
    assert (Hsame :
              UsePost.usePost env url options
              = UsePost.usePost env url
                  {| UsePost.invalidateQueries := keys;
                     UsePost.callbacks := UsePost.callbacks options |}).
    { unfold UsePost.usePost, spread. cbn [UsePost.callbacks].
      rewrite Hf. reflexivity. }
    now rewrite Hsame.
  - intros Hown res w1 Hpost.
    destruct (invalidate_each_calls
                (match UsePost.invalidateQueries options with
                 | Some keys => keys
                 | None => []
                 end) w1)
      as [w2 [Hrun [Hcalls [Hcache [Hreq [Htoasts _]]]]]].
    exists w2. split; [|now repeat split].
    eapply execute_resolves.
    + unfold UsePost.usePost, spread. now rewrite Hown.
    + unfold Mutation.run_mutationFn, UsePost.usePost, spread.
      rewrite Hown. cbn [mutationFn no_options or_else].
      unfold UsePost.usePost_mutationFn, bind. now rewrite Hpost.
    + unfold Mutation.run_onSuccess, UsePost.usePost, spread.
      rewrite Hown. cbn [onSuccess no_options or_else].
      unfold UsePost.usePost_onSuccess, bind. rewrite Hown.
      cbn [onSuccess no_options].
      destruct (UsePost.invalidateQueries options) as [keys|].
      * now rewrite Hrun.
      * cbn [invalidate_each] in Hrun. now rewrite Hrun.
  - intros Hown err w1 Hpost.
    eapply execute_rejects.
    + unfold UsePost.usePost, spread. now rewrite Hown.
    + unfold Mutation.run_mutationFn, UsePost.usePost, spread.
      rewrite Hown. cbn [mutationFn no_options or_else].
      unfold UsePost.usePost_mutationFn, bind. now rewrite Hpost.
    + unfold Mutation.run_onError, UsePost.usePost, spread.
      rewrite Hown. cbn [onError no_options or_else].
      unfold UsePost.usePost_onError. now rewrite Hown.
Qed.

Lemma usePost_invalidation_witness :
  let env :=
    sample_env (Fulfilled {| res_status := 201; res_data := envelope_created |})
      true in
  engine_calls
    (snd (Mutation.execute (UsePost.usePost env "posts" sample_usePost_options)
            (JObj []) sample_world))
  = []
  /\ engine_calls
       (snd (Mutation.execute
               (UsePost.usePost env "posts"
                  {| UsePost.invalidateQueries := Some ["posts"; "users"];
                     UsePost.callbacks := no_options |})
               (JObj []) sample_world))
     = [InvalidateQueries (JArr [JStr "posts"]);
        InvalidateQueries (JArr [JStr "users"])].
Proof.
  cbv zeta. split.
  - destruct (usePost_invalidation
                (sample_env
                   (Fulfilled
                      {| res_status := 201; res_data := envelope_created |})
                   true)
                "posts" sample_usePost_options (JObj []) sample_world)
      as [Hsame _].
    now rewrite (Hsame _ None eq_refl).
  - destruct (usePost_invalidation
                (sample_env
                   (Fulfilled
                      {| res_status := 201; res_data := envelope_created |})
                   true)
                "posts"
                {| UsePost.invalidateQueries := Some ["posts"; "users"];
                   UsePost.callbacks := no_options |}
                (JObj []) sample_world)
      as [_ [Hresolved _]].
    destruct (Hresolved eq_refl _ _ eq_refl) as [w2 [Hrun [Hcalls _]]].
    rewrite Hrun. exact Hcalls.
Defined.

Lemma axios_demo_request_frame (env : Env) (config : AxiosRequestConfig)
    (w : World) :
  exists sent,
    requests (snd (AxiosDemo.axios_request env config w)) = requests w ++ [sent]
    /\ cfg_method sent = cfg_method config
    /\ cfg_url sent = cfg_url config
    /\ cfg_data sent = cfg_data config
    /\ engine_calls (snd (AxiosDemo.axios_request env config w))
       = engine_calls w
    /\ queryCache (snd (AxiosDemo.axios_request env config w)) = queryCache w.
Proof.
  unfold AxiosDemo.axios_request, AxiosDemo.request_interceptor,
    AxiosDemo.response_fulfilled, AxiosDemo.response_rejected,
    bind, reads, ret, throw.
  destruct (localStorage w !! "demo_token") as [t|];
    [destruct (nonempty t)|];
    match goal with
    | |- context [transport env w ?c] =>
        exists c; destruct (transport env w c)
    end; now repeat split.
Qed.

Lemma usePut_own (env : Env) (url : string) (options : UsePut.UsePutOptions) :
  UsePut.callbacks options = no_options ->
  UsePut.usePut env url options
  = {| mutationFn := Some (UsePut.usePut_mutationFn env url options);
       onMutate := Some (UsePut.usePut_onMutate env options);
       onSuccess := Some (UsePut.usePut_onSuccess options);
       onError := Some (UsePut.usePut_onError env options) |}.
Proof. intros Hown. unfold UsePut.usePut, spread. now rewrite Hown. Qed.

Lemma useDelete_own (env : Env) (url : string)
    (options : UseDelete.UseDeleteOptions) :
  UseDelete.callbacks options = no_options ->
  UseDelete.useDelete env url options
  = {| mutationFn := Some (UseDelete.useDelete_mutationFn env url options);
       onMutate := Some (UseDelete.useDelete_onMutate env options);
       onSuccess := Some (UseDelete.useDelete_onSuccess options);
       onError := Some (UseDelete.useDelete_onError env options) |}.
Proof. intros Hown. unfold UseDelete.useDelete, spread. now rewrite Hown. Qed.

Lemma usePut_onMutate_exact (env : Env) (options : UsePut.UsePutOptions)
    (queryKey : string) (rest : list string) (variables : JsVal) (w : World) :
  UsePut.invalidateQueries options = Some (queryKey :: rest) ->
  variables <> JUndefined ->
  UsePut.usePut_onMutate env options variables w
  = (Return (snapshot (QueryClient.data env w (key_of (JStr queryKey)))
               queryKey),
     set_queryCache
       (<[hashKey env (key_of (JStr queryKey)) := variables]> (queryCache w))
       (add_engine_call (CancelQueries (key_of (JStr queryKey))) w)).
Proof.
  intros Hkeys Hdefined. unfold UsePut.usePut_onMutate. rewrite Hkeys.
  unfold bind, QueryClient.cancelQueries, QueryClient.getQueryData, modify,
    reads, ret.
  destruct variables; try reflexivity. congruence.
Qed.

(** The request of the update hook: PUT, or PATCH for any other method. *)
Lemma usePut_mutationFn_frame (env : Env) (url : string)
    (options : UsePut.UsePutOptions) (body : JsVal) (w : World) :
  exists sent,
    requests (snd (UsePut.usePut_mutationFn env url options body w))
    = requests w ++ [sent]
    /\ cfg_method sent
       = (if String.eqb (UsePut.method_of options) "PUT"
          then "PUT" else "PATCH")
    /\ cfg_url sent = url
    /\ cfg_data sent = body
    /\ engine_calls (snd (UsePut.usePut_mutationFn env url options body w))
       = engine_calls w
    /\ queryCache (snd (UsePut.usePut_mutationFn env url options body w))
       = queryCache w.
Proof.
  unfold UsePut.usePut_mutationFn, AxiosDemo.put, AxiosDemo.patch, bind.
  destruct (String.eqb _ _);
    match goal with
    | |- context [AxiosDemo.axios_request env ?c w] =>
        destruct (axios_demo_request_frame env c w)
          as [sent [Hreq [Hm [Hu [Hd [Hcalls Hcache]]]]]];
        exists sent;
        destruct (AxiosDemo.axios_request env c w) as [[r|e] w1]
    end; now repeat split.
Qed.

(** A successful run of the update hook of hooks/demo, with no callbacks
    of the caller, a first key [k] and defined variables.  The run sends
    one request, a PUT unless the options name another method, which goes
    out as PATCH, with the variables as body.  It resolves with the data of
    the response, but what the cache holds under [[k]] afterwards is the
    variables written by [onMutate], not that data.  The engine is asked
    to cancel the queries of [[k]] and then to invalidate each configured
    key, in the order of the list. *)
Theorem usePut_success_keeps_optimistic
    (env : Env) (url : string) (options : UsePut.UsePutOptions)
    (k : string) (rest : list string) (variables data : JsVal)
    (w w2 : World) :
  let w1 := snd (UsePut.usePut_onMutate env options variables w) in
  UsePut.callbacks options = no_options ->
  UsePut.invalidateQueries options = Some (k :: rest) ->
  variables <> JUndefined ->
  UsePut.usePut_mutationFn env url options variables w1 = (Return data, w2) ->
  exists w3 sent,
    Mutation.execute (UsePut.usePut env url options) variables w
    = (Return data, w3)
    /\ QueryClient.data env w3 (key_of (JStr k)) = variables
    /\ engine_calls w3
       = engine_calls w
         ++ CancelQueries (key_of (JStr k)) :: invalidations (k :: rest)
    /\ requests w3 = requests w ++ [sent]
    /\ cfg_method sent
       = (if String.eqb (UsePut.method_of options) "PUT"
          then "PUT" else "PATCH")
    /\ cfg_url sent = url
    /\ cfg_data sent = variables.
Proof.
  cbv zeta. intros Hown Hkeys Hdefined Hfn.
  rewrite (usePut_onMutate_exact env options k rest variables w Hkeys Hdefined)
    in Hfn.
  cbn [snd] in Hfn.
  destruct (usePut_mutationFn_frame env url options variables
              (set_queryCache
                 (<[hashKey env (key_of (JStr k)) := variables]> (queryCache w))
                 (add_engine_call (CancelQueries (key_of (JStr k))) w)))
    as [sent [Hreq [Hm [Hu [Hd [Hcalls Hcache]]]]]].
  rewrite Hfn in Hreq, Hcalls, Hcache. cbn [snd] in Hreq, Hcalls, Hcache.
  destruct (invalidate_each_calls (k :: rest) w2)
    as [w3 [Hrun [Hcalls3 [Hcache3 [Hreq3 _]]]]].
  exists w3, sent. split; [|split; [|split; [|split]]].
  - unfold Mutation.execute, Mutation.run_onMutate, Mutation.run_mutationFn,
      Mutation.run_onSuccess.
    rewrite (usePut_own env url options Hown).
    cbn [onMutate mutationFn onSuccess].
    rewrite (usePut_onMutate_exact env options k rest variables w Hkeys
               Hdefined), Hfn.
    unfold UsePut.usePut_onSuccess, bind. rewrite Hkeys, Hrun, Hown.
    reflexivity.
  - unfold QueryClient.data. rewrite Hcache3, Hcache.
    cbn [queryCache set_queryCache]. now rewrite lookup_insert_eq.
  - rewrite Hcalls3, Hcalls. cbn [engine_calls set_queryCache add_engine_call].
    now rewrite <- app_assoc.
  - rewrite Hreq3, Hreq. reflexivity.
  - now repeat split.
Qed.

Lemma usePut_success_keeps_optimistic_witness :
  let env :=
    sample_env (Fulfilled {| res_status := 200; res_data := envelope_ok |})
      true in
  exists w3,
    Mutation.execute (UsePut.usePut env "users/1" own_usePut_options)
      (JObj [("name", JStr "Eve")]) world_with_users
    = (Return envelope_ok, w3)
    /\ QueryClient.data env w3 (JArr [JStr "users"])
       = JObj [("name", JStr "Eve")]
    /\ engine_calls w3
       = [CancelQueries (JArr [JStr "users"]);
          InvalidateQueries (JArr [JStr "users"]);
          InvalidateQueries (JArr [JStr "stats"])].
Proof.
  cbv zeta.
  destruct (usePut_success_keeps_optimistic
              (sample_env
                 (Fulfilled {| res_status := 200; res_data := envelope_ok |})
                 true)
              "users/1" own_usePut_options "users" ["stats"]
              (JObj [("name", JStr "Eve")]) envelope_ok world_with_users _
              eq_refl eq_refl ltac:(discriminate) eq_refl)
    as [w3 [sent [Hrun [Hdata [Hcalls _]]]]].
  exists w3. split; [exact Hrun | split; [exact Hdata | exact Hcalls]].
Defined.

Lemma differs_has_id (id : string) (item : JsVal) :
  Js.nullish item = false ->
  UseDelete.differs (JStr id) item = Return (negb (has_id id item)).
Proof.
  intros Hitem. unfold UseDelete.differs, Js.get_strict, has_id.
  rewrite Hitem. now destruct (Js.nullish (Js.get item "id")).
Qed.

Lemma filter_items_has_id (id : string) (items : list JsVal) :
  List.Forall (fun item => Js.nullish item = false) items ->
  UseDelete.filter_items (UseDelete.differs (JStr id)) items
  = Return (List.filter (fun item => negb (has_id id item)) items).
Proof.
  induction 1 as [|item items Hitem _ IH]; [reflexivity|].
  cbn [UseDelete.filter_items List.filter].
  rewrite (differs_has_id id item Hitem), IH.
  now destruct (has_id id item).
Qed.

Lemma filter_items_null (keep : JsVal -> Completion bool) (items : list JsVal) :
  (forall item, Js.nullish item = true -> keep item = Throw TypeError) ->
  (forall item e, keep item = Throw e -> e = TypeError) ->
  List.Exists (fun item => Js.nullish item = true) items ->
  UseDelete.filter_items keep items = Throw TypeError.
Proof.
  intros Hnull Honly. induction 1 as [item items Hitem | item items _ IH].
  - cbn [UseDelete.filter_items]. now rewrite (Hnull item Hitem).
  - cbn [UseDelete.filter_items].
    destruct (keep item) as [b|e] eqn:Hkeep.
    + now rewrite IH.
    + now rewrite (Honly item e Hkeep).
Qed.

Lemma differs_throws (id item : JsVal) (e : JsError) :
  UseDelete.differs id item = Throw e -> e = TypeError.
Proof.
  unfold UseDelete.differs.
  destruct (Js.get_strict item "id") as [item_id|]; [|congruence].
  destruct (Js.nullish item_id); [discriminate|].
  destruct id; discriminate.
Qed.

Lemma differs_null (id item : JsVal) :
  Js.nullish item = true -> UseDelete.differs id item = Throw TypeError.
Proof.
  intros Hitem. unfold UseDelete.differs, Js.get_strict. now rewrite Hitem.
Qed.

Lemma useDelete_onMutate_exact (env : Env)
    (options : UseDelete.UseDeleteOptions) (queryKey : string)
    (rest : list string) (id : JsVal) (items kept : list JsVal) (w : World) :
  UseDelete.invalidateQueries options = Some (queryKey :: rest) ->
  QueryClient.data env w (key_of (JStr queryKey)) = JArr items ->
  UseDelete.filter_items (UseDelete.differs id) items = Return kept ->
  UseDelete.useDelete_onMutate env options id w
  = (Return (snapshot (JArr items) queryKey),
     set_queryCache
       (<[hashKey env (key_of (JStr queryKey)) := JArr kept]> (queryCache w))
       (add_engine_call (CancelQueries (key_of (JStr queryKey))) w)).
Proof.
  intros Hkeys Hdata Hkept. unfold UseDelete.useDelete_onMutate. rewrite Hkeys.
  unfold bind, QueryClient.cancelQueries, QueryClient.setQueryDataWith,
    QueryClient.getQueryData, modify, reads, ret, lift, bind.
  change (QueryClient.data env
            (add_engine_call (CancelQueries (key_of (JStr queryKey))) w)
            (key_of (JStr queryKey)))
    with (QueryClient.data env w (key_of (JStr queryKey))).
  rewrite Hdata. unfold UseDelete.remove_item. now rewrite Hkept.
Qed.

(** The request of the delete hook, when its mutation function returns. *)
Lemma useDelete_mutationFn_frame (env : Env) (url : string)
    (options : UseDelete.UseDeleteOptions) (id data : JsVal) (w w' : World) :
  UseDelete.useDelete_mutationFn env url options id w = (Return data, w') ->
  exists sent,
    requests w' = requests w ++ [sent]
    /\ cfg_method sent = "DELETE"
    /\ cfg_url sent = url +:+ "/" +:+ Js.to_string id
    /\ engine_calls w' = engine_calls w
    /\ queryCache w' = queryCache w.
Proof.
  unfold UseDelete.useDelete_mutationFn, AxiosDemo.delete, bind.
  destruct (UseDelete.confirmMessage options) as [message|];
    [destruct (nonempty message); [destruct (confirm env message)|]|];
    cbn [negb]; unfold ret, throw; try discriminate;
    match goal with
    | |- context [AxiosDemo.axios_request env ?c w] =>
        destruct (axios_demo_request_frame env c w)
          as [sent [Hreq [Hm [Hu [_ [Hcalls Hcache]]]]]];
        destruct (AxiosDemo.axios_request env c w) as [[r|e] w1];
        [|discriminate]
    end;
    intros Heq; injection Heq as _ <-; exists sent; now repeat split.
Qed.

(** A successful run of the delete hook of hooks/demo, with no callbacks
    of the caller, a first key [k] and a list without [null] or
    [undefined] entries cached under [[k]].  The run sends one DELETE to
    the URL followed by ["/"] and the id and resolves with the data of the
    response.  Afterwards the cache holds under [[k]] the items of the list
    whose [id], as a string, is not the id, in their order; an item without
    [id] stays.  The engine is asked to cancel the queries of [[k]] and then
    to invalidate each configured key, in the order of the list. *)
Theorem useDelete_success_removes_item
    (env : Env) (url : string) (options : UseDelete.UseDeleteOptions)
    (k : string) (rest : list string) (id : string) (items : list JsVal)
    (data : JsVal) (w w2 : World) :
  let w1 := snd (UseDelete.useDelete_onMutate env options (JStr id) w) in
  UseDelete.callbacks options = no_options ->
  UseDelete.invalidateQueries options = Some (k :: rest) ->
  QueryClient.data env w (key_of (JStr k)) = JArr items ->
  List.Forall (fun item => Js.nullish item = false) items ->
  UseDelete.useDelete_mutationFn env url options (JStr id) w1
  = (Return data, w2) ->
  exists w3 sent,
    Mutation.execute (UseDelete.useDelete env url options) (JStr id) w
    = (Return data, w3)
    /\ QueryClient.data env w3 (key_of (JStr k))
       = JArr (List.filter (fun item => negb (has_id id item)) items)
    /\ engine_calls w3
       = engine_calls w
         ++ CancelQueries (key_of (JStr k)) :: invalidations (k :: rest)
    /\ requests w3 = requests w ++ [sent]
    /\ cfg_method sent = "DELETE"
    /\ cfg_url sent = url +:+ "/" +:+ id.
Proof.
  cbv zeta. intros Hown Hkeys Hcached Hitems Hfn.
  pose proof (useDelete_onMutate_exact env options k rest (JStr id) items _ w
                Hkeys Hcached (filter_items_has_id id items Hitems))
    as HonMutate.
  rewrite HonMutate in Hfn. cbn [snd] in Hfn.
  destruct (useDelete_mutationFn_frame env url options (JStr id) data _ w2 Hfn)
    as [sent [Hreq [Hm [Hu [Hcalls Hcache]]]]].
  destruct (invalidate_each_calls (k :: rest) w2)
    as [w3 [Hrun [Hcalls3 [Hcache3 [Hreq3 _]]]]].
  exists w3, sent. split; [|split; [|split; [|split; [|split]]]].
  - unfold Mutation.execute, Mutation.run_onMutate, Mutation.run_mutationFn,
      Mutation.run_onSuccess.
    rewrite (useDelete_own env url options Hown).
    cbn [onMutate mutationFn onSuccess].
    rewrite HonMutate, Hfn.
    unfold UseDelete.useDelete_onSuccess, bind. rewrite Hkeys, Hrun, Hown.
    reflexivity.
  - unfold QueryClient.data. rewrite Hcache3, Hcache.
    cbn [queryCache set_queryCache]. now rewrite lookup_insert_eq.
  - rewrite Hcalls3, Hcalls. cbn [engine_calls set_queryCache add_engine_call].
    now rewrite <- app_assoc.
  - rewrite Hreq3, Hreq. reflexivity.
  - exact Hm.
  - exact Hu.
Qed.

Lemma useDelete_success_removes_item_witness :
  let env :=
    sample_env (Fulfilled {| res_status := 200; res_data := JObj [] |}) true in
  exists w3,
    Mutation.execute (UseDelete.useDelete env "users" own_useDelete_options)
      (JStr "1") world_with_users
    = (Return (JObj []), w3)
    /\ QueryClient.data env w3 (JArr [JStr "users"])
       = JArr [JObj [("id", JNum 2); ("name", JStr "Bob")]].
Proof.
  cbv zeta.
  destruct (useDelete_success_removes_item
              (sample_env
                 (Fulfilled {| res_status := 200; res_data := JObj [] |}) true)
              "users" own_useDelete_options "users" ["stats"] "1"
              [JObj [("id", JNum 1); ("name", JStr "Ann")];
               JObj [("id", JNum 2); ("name", JStr "Bob")]]
              (JObj []) world_with_users _
              eq_refl eq_refl eq_refl
              ltac:(repeat constructor) eq_refl)
    as [w3 [sent [Hrun [Hdata _]]]].
  exists w3. split; [exact Hrun | exact Hdata].
Defined.

(** A [null] or [undefined] entry in the list cached under the first key
    stops the delete hook of hooks/demo in [onMutate]: with no callbacks of
    the caller the run ends with a [TypeError], whatever the id.  No dialog
    is answered and no request is sent, and the cached list is left as it
    was; the cancellation of the queries of the key is all that
    happened. *)
Theorem useDelete_null_item_fails
    (env : Env) (url : string) (options : UseDelete.UseDeleteOptions)
    (k : string) (rest : list string) (id : JsVal) (items : list JsVal)
    (w : World) :
  UseDelete.callbacks options = no_options ->
  UseDelete.invalidateQueries options = Some (k :: rest) ->
  QueryClient.data env w (key_of (JStr k)) = JArr items ->
  List.Exists (fun item => Js.nullish item = true) items ->
  Mutation.execute (UseDelete.useDelete env url options) id w
  = (Throw TypeError, add_engine_call (CancelQueries (key_of (JStr k))) w).
Proof.
  intros Hown Hkeys Hcached Hhole.
  assert (HonMutate :
            UseDelete.useDelete_onMutate env options id w
            = (Throw TypeError,
               add_engine_call (CancelQueries (key_of (JStr k))) w)).
  { unfold UseDelete.useDelete_onMutate. rewrite Hkeys.
    unfold bind, QueryClient.cancelQueries, QueryClient.setQueryDataWith,
      QueryClient.getQueryData, modify, reads, ret, lift, bind.
    change (QueryClient.data env
              (add_engine_call (CancelQueries (key_of (JStr k))) w)
              (key_of (JStr k)))
      with (QueryClient.data env w (key_of (JStr k))).
    rewrite Hcached. unfold UseDelete.remove_item.
    now rewrite (filter_items_null (UseDelete.differs id) items
                   (differs_null id) (differs_throws id) Hhole). }
  unfold Mutation.execute, Mutation.run_onMutate, Mutation.fail,
    Mutation.run_onError.
  rewrite (useDelete_own env url options Hown).
  cbn [onMutate onError]. rewrite HonMutate.
  unfold UseDelete.useDelete_onError, rollback, bind, when, throw, ret.
  rewrite Hown. reflexivity.
Qed.

Lemma useDelete_null_item_fails_witness :
  Mutation.execute
    (UseDelete.useDelete
       (sample_env (Fulfilled {| res_status := 200; res_data := JObj [] |})
          true)
       "users" own_useDelete_options)
    (JStr "2") world_with_hole
  = (Throw TypeError,
     add_engine_call (CancelQueries (JArr [JStr "users"])) world_with_hole).
Proof.
  apply (useDelete_null_item_fails
           (sample_env (Fulfilled {| res_status := 200; res_data := JObj [] |})
              true)
           "users" own_useDelete_options "users" ["stats"] (JStr "2")
           [JObj [("id", JNum 1)]; JNull; JObj [("id", JNum 2)]]
           world_with_hole eq_refl eq_refl eq_refl).
  apply Exists_cons_tl, Exists_cons_hd. reflexivity.
Defined.

(** ** The storage helpers *)

(** utils/storage.ts, writing and reading back.  After [setItem] of a
    value under a key, [getStringItem] gives the text that was stored:
    the JSON text of the value, or ["undefined"] when the value has none.
    [getItem] gives the value back when that text is not empty and parses
    to it, and [null] when the text does not parse, as for [undefined];
    neither reader changes anything or throws.  What both readers give
    for any other key is what they gave before. *)
Theorem storage_round_trip
    (JSON_stringify : JsVal -> option string)
    (JSON_parse : string -> Completion JsVal)
    (key : string) (value : JsVal) (w : World) :
  let text :=
    match JSON_stringify value with Some t => t | None => "undefined" end in
  let w' := snd (Storage.setItem JSON_stringify key value w) in
  Storage.getStringItem key w' = (Return (JStr text), w')
  /\ (nonempty text = true -> JSON_parse text = Return value ->
      Storage.getItem JSON_parse key w' = (Return value, w'))
  /\ (forall e, JSON_parse text = Throw e ->
                Storage.getItem JSON_parse key w' = (Return JNull, w'))
  /\ (forall key', key' <> key ->
        Storage.getItem JSON_parse key' w'
        = (fst (Storage.getItem JSON_parse key' w), w')
        /\ Storage.getStringItem key' w'
           = (fst (Storage.getStringItem key' w), w'))
  /\ location_href w' = location_href w
  /\ queryCache w' = queryCache w.
Proof.
  cbv zeta. unfold Storage.setItem, modify. cbn [snd].
  set (text := match JSON_stringify value with
               | Some t => t
               | None => "undefined"
               end).
  split; [|split; [|split; [|split; [|split; reflexivity]]]].
  - unfold Storage.getStringItem, reads. cbn [localStorage set_localStorage].
    now rewrite lookup_insert_eq.
  - intros Htext Hparse. unfold Storage.getItem.
    cbn [localStorage set_localStorage].
    now rewrite lookup_insert_eq, Htext, Hparse.
  - intros e Hparse. unfold Storage.getItem.
    cbn [localStorage set_localStorage].
    rewrite lookup_insert_eq, Hparse. now destruct (nonempty text).
  - intros key' Hother.
    unfold Storage.getItem, Storage.getStringItem, reads.
    cbn [localStorage set_localStorage].
    rewrite lookup_insert_ne by congruence.
    split; [|reflexivity].
    destruct (localStorage w !! key') as [result|]; [|reflexivity].
    destruct (nonempty result); [|reflexivity].
    now destruct (JSON_parse result).
Qed.

Lemma storage_round_trip_witness :
  fst (Storage.getItem sample_parse "count"
         (snd (Storage.setItem sample_stringify "count" (JNum 42)
                 sample_world)))
  = Return (JNum 42)
  /\ fst (Storage.getItem sample_parse "count"
            (snd (Storage.setItem sample_stringify "count" JUndefined
                    sample_world)))
     = Return JNull.
Proof.
  split.
  - destruct (storage_round_trip sample_stringify sample_parse "count"
                (JNum 42) sample_world) as [_ [Hback _]].
    now rewrite (Hback eq_refl eq_refl).
  - destruct (storage_round_trip sample_stringify sample_parse "count"
                JUndefined sample_world) as [_ [_ [Hnull _]]].
    now rewrite (Hnull _ eq_refl).
Defined.

(** utils/storage.ts, removing.  After [removeItem] of a key both
    readers give [null] for it and, for any other key, what they gave
    before; after [clearItems] both give [null] for every key. *)
Theorem storage_removal
    (JSON_parse : string -> Completion JsVal) (key : string) (w : World) :
  let removed := snd (Storage.removeItem key w) in
  let cleared := snd (Storage.clearItems w) in
  Storage.getItem JSON_parse key removed = (Return JNull, removed)
  /\ Storage.getStringItem key removed = (Return JNull, removed)
  /\ (forall key', key' <> key ->
        Storage.getItem JSON_parse key' removed
        = (fst (Storage.getItem JSON_parse key' w), removed)
        /\ Storage.getStringItem key' removed
           = (fst (Storage.getStringItem key' w), removed))
  /\ (forall key',
        Storage.getItem JSON_parse key' cleared = (Return JNull, cleared)
        /\ Storage.getStringItem key' cleared = (Return JNull, cleared)).
Proof.
  cbv zeta.
  unfold Storage.removeItem, Storage.clearItems, modify. cbn [snd].
  unfold Storage.getItem, Storage.getStringItem, reads.
  cbn [localStorage set_localStorage].
  split; [|split; [|split]].
  - now rewrite lookup_delete_eq.
  - now rewrite lookup_delete_eq.
  - intros key' Hother. rewrite lookup_delete_ne by congruence.
    split; [|reflexivity].
    destruct (localStorage w !! key') as [result|]; [|reflexivity].
    destruct (nonempty result); [|reflexivity].
    now destruct (JSON_parse result).
  - intros key'. now rewrite lookup_empty.
Qed.

(** ** The multipart form *)

Lemma JsVal_size_pos (v : JsVal) : 0 < JsVal_size v.
Proof. destruct v; cbn [JsVal_size]; lia. Qed.

Lemma objectToFormData_app_size (n : nat) :
  forall obj, JsVal_size obj <= n ->
  forall form namespace,
    Storage.objectToFormData obj form namespace
    = form ++ Storage.objectToFormData obj [] namespace.
Proof.
  induction n as [|n IHn]; intros obj Hsize.
  { pose proof (JsVal_size_pos obj). lia. }
  assert (Hentry : forall (value : JsVal) (name : string)
                          (form : list (string * string)),
             JsVal_size value <= n ->
             match value with
             | JArr _ | JObj _ | JFormData _ =>
                 Storage.objectToFormData value form name
             | JUndefined | JNull => form
             | _ => form ++ [(name, Js.to_string value)]
             end
             = form
               ++ match value with
                  | JArr _ | JObj _ | JFormData _ =>
                      Storage.objectToFormData value [] name
                  | JUndefined | JNull => []
                  | _ => [] ++ [(name, Js.to_string value)]
                  end).
  { intros value name form Hvalue.
    destruct value; try reflexivity; try (now rewrite app_nil_r);
      now apply IHn. }
  destruct obj as [ | | b | z | s | l | fs | parts];
    intros form namespace; try (cbn; now rewrite app_nil_r).
  - cbn [JsVal_size] in Hsize.
    assert (Hsum : list_sum (List.map JsVal_size l) <= n) by lia.
    clear Hsize. cbn [Storage.objectToFormData].
    generalize 0%nat. revert form Hsum.
    induction l as [|value rest IHl]; intros form Hsum i.
    + now rewrite app_nil_r.
    + unfold list_sum in *. cbn [List.map fold_right] in Hsum.
      rewrite IHl by lia. symmetry. rewrite IHl by lia. symmetry.
      rewrite app_assoc. f_equal.
      apply Hentry. lia.
  - cbn [JsVal_size] in Hsize.
    assert (Hsum : list_sum (List.map (fun kv => JsVal_size (snd kv)) fs) <= n)
      by lia.
    clear Hsize. cbn [Storage.objectToFormData].
    revert form Hsum.
    induction fs as [|[key value] rest IHl]; intros form Hsum.
    + now rewrite app_nil_r.
    + unfold list_sum in *. cbn [List.map fold_right snd] in Hsum.
      rewrite IHl by lia. symmetry. rewrite IHl by lia. symmetry.
      rewrite app_assoc. f_equal.
      apply Hentry. lia.
Qed.

(** [objectToFormData] only appends.  Called with a form that already
    has parts, it returns those parts, unchanged and in their order,
    followed by exactly the parts it gives for an empty form. *)
Theorem objectToFormData_appends
    (obj : JsVal) (form : list (string * string)) (namespace : string) :
  Storage.objectToFormData obj form namespace
  = form ++ Storage.objectToFormData obj [] namespace.
Proof. now apply (objectToFormData_app_size (JsVal_size obj)). Qed.

(** For an object whose values are no objects (so: primitives, [null] or
    [undefined]), [objectToFormData] gives one part for each property that
    is neither [null] nor [undefined], in the order of the properties: the
    name is the key, inside brackets after the namespace when there is one,
    and the value is the property as a string. *)
Theorem objectToFormData_flat
    (fs : list (string * JsVal)) (namespace : string) :
  List.Forall
    (fun kv => Js.typeof_object (snd kv) && negb (Js.is_null (snd kv)) = false)
    fs ->
  Storage.objectToFormData (JObj fs) [] namespace
  = List.flat_map
      (fun kv =>
         if Js.nullish (snd kv) then []
         else [(if nonempty namespace
                then namespace +:+ "[" +:+ fst kv +:+ "]"
                else fst kv,
                Js.to_string (snd kv))])
      fs.
Proof.
  induction 1 as [|[key value] rest Hvalue _ IH]; [reflexivity|].
  cbn [snd fst] in Hvalue.
  change (Storage.objectToFormData (JObj ((key, value) :: rest)) [] namespace)
    with (Storage.objectToFormData (JObj rest)
            match value with
            | JArr _ | JObj _ | JFormData _ =>
                Storage.objectToFormData value [] (Storage.formKey namespace key)
            | JUndefined | JNull => []
            | _ => [] ++ [(Storage.formKey namespace key, Js.to_string value)]
            end namespace).
  rewrite (objectToFormData_app_size (JsVal_size (JObj rest)) (JObj rest)
             (le_n _)), IH.
  cbn [List.flat_map fst snd]. f_equal.
  destruct value; try reflexivity; discriminate Hvalue.
Qed.

Lemma objectToFormData_flat_witness :
  Storage.objectToFormData sample_form [] "user"
  = [("user[name]", "Ann"); ("user[age]", "42"); ("user[admin]", "false")].
Proof.
  unfold sample_form.
  rewrite objectToFormData_flat; [reflexivity|].
  repeat constructor.
Defined.
